(** * ThaiDatePicker: date codec, input mask and value synchronisation

    A shallow embedding of [dateUtils.ts] and of the non-visual handlers of
    the [ThaiDatePicker] component, together with the properties the
    specification states about them.

    Conventions of the embedding.
    - A JavaScript string is a [string]: a sequence of code units, here the
      code units 0..255.  All the structural characters of the two formats
      (digits, [-], [/], [:], space) are in that range.
    - A JavaScript number that the code only uses as an integer is a [Z];
      the value NaN is [None] of an [option Z].  The numbers that occur are
      parsed from at most sixteen characters or are fields of a date, so
      they are integers far below 2^53 and the arithmetic is exact.
    - A [Date] object is its time value (milliseconds since the epoch, UTC),
      or NaN for an invalid date.  The host's time zone is ECMAScript's
      [LocalTZA(t, isUTC)], a function of the time value: the offset of
      local time from UTC changes with daylight saving.  A host with a
      constant offset is the zone [fixedOffset tza]; a number used where a
      zone is expected stands for that zone.  The host's current year is
      [currentYear].  Zone and current year are parameters of the
      development.
    - [Date | null] is [option Date]. *)

From Stdlib Require Import ZArith Lia List Bool Ascii String DecimalString.
From Stdlib Require DecimalPos.
Import ListNotations.

Local Open Scope string_scope.
Local Open Scope Z_scope.

(** ** Host date arithmetic (ECMAScript, "Time Values and Time Range") *)

Module DateMath.

Definition msPerDay : Z := 86400000.
Definition msPerHour : Z := 3600000.
Definition msPerMinute : Z := 60000.
Definition msPerSecond : Z := 1000.

Definition Day (t : Z) : Z := t / msPerDay.
Definition TimeWithinDay (t : Z) : Z := t mod msPerDay.

Definition DaysInYear (y : Z) : Z :=
  if negb (y mod 4 =? 0) then 365
  else if negb (y mod 100 =? 0) then 366
  else if negb (y mod 400 =? 0) then 365
  else 366.

Definition DayFromYear (y : Z) : Z :=
  365 * (y - 1970) + (y - 1969) / 4 - (y - 1901) / 100 + (y - 1601) / 400.

Definition TimeFromYear (y : Z) : Z := msPerDay * DayFromYear y.

(** The year of a day number: the largest [y] with [DayFromYear y <= n].
    A mean-year estimate is off by at most one; [YearFromDay_spec] below
    shows the result is the year ECMAScript defines. *)
Definition YearFromDay (n : Z) : Z :=
  let y := 1970 + (400 * n) / 146097 in
  if DayFromYear (y + 1) <=? n then y + 1
  else if DayFromYear y <=? n then y
  else y - 1.

Definition YearFromTime (t : Z) : Z := YearFromDay (Day t).

Definition InLeapYear (t : Z) : Z :=
  if DaysInYear (YearFromTime t) =? 366 then 1 else 0.

Definition DayWithinYear (t : Z) : Z := Day t - DayFromYear (YearFromTime t).

Definition MonthFromTime (t : Z) : Z :=
  let d := DayWithinYear t in
  let l := InLeapYear t in
  if d <? 31 then 0
  else if d <? 59 + l then 1
  else if d <? 90 + l then 2
  else if d <? 120 + l then 3
  else if d <? 151 + l then 4
  else if d <? 181 + l then 5
  else if d <? 212 + l then 6
  else if d <? 243 + l then 7
  else if d <? 273 + l then 8
  else if d <? 304 + l then 9
  else if d <? 334 + l then 10
  else 11.

Definition DateFromTime (t : Z) : Z :=
  let d := DayWithinYear t in
  let l := InLeapYear t in
  match MonthFromTime t with
  | 0 => d + 1
  | 1 => d - 30
  | 2 => d - 58 - l
  | 3 => d - 89 - l
  | 4 => d - 119 - l
  | 5 => d - 150 - l
  | 6 => d - 180 - l
  | 7 => d - 211 - l
  | 8 => d - 242 - l
  | 9 => d - 272 - l
  | 10 => d - 303 - l
  | _ => d - 333 - l
  end.

Definition HourFromTime (t : Z) : Z := (t / msPerHour) mod 24.
Definition MinFromTime (t : Z) : Z := (t / msPerMinute) mod 60.
Definition SecFromTime (t : Z) : Z := (t / msPerSecond) mod 60.
Definition msFromTime (t : Z) : Z := t mod msPerSecond.

Definition MakeTime (hour min sec ms : Z) : Z :=
  hour * msPerHour + min * msPerMinute + sec * msPerSecond + ms.

(** Days from the start of its year to the first of month [mn] (0..11). *)
Definition daysBeforeMonth (leap : Z) (mn : Z) : Z :=
  match mn with
  | 0 => 0
  | 1 => 31
  | 2 => 59 + leap
  | 3 => 90 + leap
  | 4 => 120 + leap
  | 5 => 151 + leap
  | 6 => 181 + leap
  | 7 => 212 + leap
  | 8 => 243 + leap
  | 9 => 273 + leap
  | 10 => 304 + leap
  | _ => 334 + leap
  end.

(** [MakeDay]: the month may be any integer and the date may roll over. *)
Definition MakeDay (year month date : Z) : Z :=
  let ym := year + month / 12 in
  let mn := month mod 12 in
  let leap := if DaysInYear ym =? 366 then 1 else 0 in
  DayFromYear ym + daysBeforeMonth leap mn + date - 1.

Definition MakeDate (day time : Z) : Z := day * msPerDay + time.

(** [MakeFullYear]: two-digit years are taken in the 1900s. *)
Definition MakeFullYear (year : Z) : Z :=
  if (0 <=? year) && (year <=? 99) then 1900 + year else year.

Definition TimeClip (t : Z) : option Z :=
  if Z.abs t >? 8640000000000000 then None else Some t.

End DateMath.

(** ** JavaScript strings and numbers *)

Module Js.

Definition codeUnit (c : ascii) : Z := Z.of_N (N_of_ascii c).

Definition isDigit (c : ascii) : bool :=
  (48 <=? codeUnit c) && (codeUnit c <=? 57).

Definition digitValue (c : ascii) : Z := codeUnit c - 48.

(** White space and line terminators among the code units 0..255: TAB, LF,
    VT, FF, CR, SP and NBSP. *)
Definition isWhiteSpace (c : ascii) : bool :=
  let n := codeUnit c in
  ((9 <=? n) && (n <=? 13)) || (n =? 32) || (n =? 160).

Fixpoint trimStart (s : string) : string :=
  match s with
  | String c r => if isWhiteSpace c then trimStart r else s
  | EmptyString => s
  end.

(** The longest prefix of decimal digits. *)
Fixpoint digitsPrefix (s : string) : string :=
  match s with
  | String c r => if isDigit c then String c (digitsPrefix r) else EmptyString
  | EmptyString => EmptyString
  end.

Fixpoint decimalValue (acc : Z) (s : string) : Z :=
  match s with
  | String c r => decimalValue (10 * acc + digitValue c) r
  | EmptyString => acc
  end.

(** [parseInt(s, 10)]: leading white space is skipped, one sign is read,
    then the longest run of digits; what follows the digits is ignored.
    [None] is NaN. *)
Definition parseInt (s : string) : option Z :=
  let s1 := trimStart s in
  let '(sign, s2) :=
    match s1 with
    | String "-" r => (-1, r)
    | String "+" r => (1, r)
    | _ => (1, s1)
    end in
  match digitsPrefix s2 with
  | EmptyString => None
  | z => Some (sign * decimalValue 0 z)
  end.

(** [parseInt] of a destructured element that may be [undefined]:
    [String(undefined)] has no leading digit. *)
Definition parseIntU (o : option string) : option Z :=
  match o with
  | Some s => parseInt s
  | None => parseInt "undefined"
  end.

(** [s.split(sep)] for a one-character separator. *)
Fixpoint split (sep : ascii) (s : string) : list string :=
  match s with
  | EmptyString => [EmptyString]
  | String c r =>
      if Ascii.eqb c sep then EmptyString :: split sep r
      else match split sep r with
           | h :: t => String c h :: t
           | [] => [String c EmptyString]
           end
  end.

(** [s.replace(/[^0-9]/g, '')] *)
Fixpoint stripNonDigits (s : string) : string :=
  match s with
  | String c r => if isDigit c then String c (stripNonDigits r) else stripNonDigits r
  | EmptyString => EmptyString
  end.

(** [s.slice(b, e)] for [0 <= b <= e]; both ends are clamped to the
    length. *)
Definition slice (b e : nat) (s : string) : string := substring b (e - b) s.

(** [String(n)] for an integer, and for NaN. *)
Definition ofNumber (n : option Z) : string :=
  match n with
  | Some z => NilEmpty.string_of_int (Z.to_int z)
  | None => "NaN"
  end.

(** [s.padStart(2, '0')]. *)
Definition padStart2 (s : string) : string :=
  match s with
  | EmptyString => "00"
  | String c EmptyString => String "0" s
  | _ => s
  end.

(** A string is falsy exactly when it is empty. *)
Definition truthy (s : string) : bool :=
  match s with EmptyString => false | _ => true end.

Definition strlen (s : string) : Z := Z.of_nat (String.length s).

(** Numeric addition and strict (in)equality with NaN. *)
Definition add (a : option Z) (b : Z) : option Z := option_map (fun x => x + b) a.

Definition strictEq (a b : option Z) : bool :=
  match a, b with
  | Some x, Some y => x =? y
  | _, _ => false
  end.

End Js.

(** ** The Date object *)

(** The host's time zone, ECMAScript's [LocalTZA(t, isUTC)]: the offset of
    local time from UTC, in milliseconds.  With [isUTC = true], [t] is a
    UTC time value and the result is the offset in force at that instant.
    With [isUTC = false], [t] is a local time value and the result is the
    offset under which the host reads it; a local time that a clock change
    repeats or skips is read with the offset in force before the change, so
    a repeated local time gives the earlier instant and a skipped one an
    instant whose local time is later than asked. *)
Definition TimeZone : Type := Z -> bool -> Z.

(** A host without clock changes: local time is UTC plus [tza]. *)
Definition fixedOffset (tza : Z) : TimeZone := fun _ _ => tza.

Coercion fixedOffset : Z >-> TimeZone.

(** A host with daylight saving, for the examples: the rules of
    America/New_York as they are for the year 2026.  Standard time is
    UTC-5; the clocks go from 02:00 to 03:00 on 8 March 2026 (07:00 UTC) and
    from 02:00 back to 01:00 on 1 November 2026 (06:00 UTC).  Local times
    from 02:00 to 03:00 on 8 March are skipped, local times from 01:00 to
    02:00 on 1 November occur twice. *)
Definition newYork2026 : TimeZone :=
  fun t isUTC =>
    if isUTC then
      if t <? 1772953200000 then -18000000
      else if t <? 1793512800000 then -14400000
      else -18000000
    else
      if t <? 1772938800000 then -18000000
      else if t <? 1793498400000 then -14400000
      else -18000000.

Section DateObject.

Import DateMath.

Variable LocalTZA : TimeZone.

Inductive Date : Type := mkDate (timeValue : option Z).

Definition timeValue (d : Date) : option Z := let 'mkDate t := d in t.

Definition LocalTime (t : Z) : Z := t + LocalTZA t true.
Definition UTC (t : Z) : Z := t - LocalTZA t false.

(** [new Date(year, monthIndex, day)] *)
Definition newDate (year month day : Z) : Date :=
  mkDate (TimeClip (UTC (MakeDate (MakeDay (MakeFullYear year) month day)
                                  (MakeTime 0 0 0 0)))).

Definition getTime (d : Date) : option Z := timeValue d.

Definition getFullYear (d : Date) : option Z :=
  option_map (fun t => YearFromTime (LocalTime t)) (timeValue d).
Definition getMonth (d : Date) : option Z :=
  option_map (fun t => MonthFromTime (LocalTime t)) (timeValue d).
Definition getDate (d : Date) : option Z :=
  option_map (fun t => DateFromTime (LocalTime t)) (timeValue d).
Definition getHours (d : Date) : option Z :=
  option_map (fun t => HourFromTime (LocalTime t)) (timeValue d).
Definition getMinutes (d : Date) : option Z :=
  option_map (fun t => MinFromTime (LocalTime t)) (timeValue d).

(** [d.setHours(h)] and [d.setMinutes(m)]; the result is the date after the
    mutation.  An invalid date stays invalid. *)
Definition setHours (d : Date) (h : Z) : Date :=
  match timeValue d with
  | None => d
  | Some tv =>
      let t := LocalTime tv in
      mkDate (TimeClip (UTC (MakeDate (Day t)
        (MakeTime h (MinFromTime t) (SecFromTime t) (msFromTime t)))))
  end.

Definition setMinutes (d : Date) (m : Z) : Date :=
  match timeValue d with
  | None => d
  | Some tv =>
      let t := LocalTime tv in
      mkDate (TimeClip (UTC (MakeDate (Day t)
        (MakeTime (HourFromTime t) m (SecFromTime t) (msFromTime t)))))
  end.

End DateObject.

(** ** dateUtils.ts *)

Section DateUtils.

Import Js.

Variable LocalTZA : TimeZone.

(** The host's current year, [new Date().getFullYear()]. *)
Variable currentYear : Z.

Definition BE_OFFSET : Z := 543.

Definition isNaNDate (d : Date) : bool :=
  match getTime d with None => true | Some _ => false end.

Definition strictNe (a : option Z) (b : Z) : bool := negb (strictEq a (Some b)).

Definition formatThaiDate (date : option Date) : string :=
  match date with
  | None => ""
  | Some date =>
      if isNaNDate date then "" else
      let day := padStart2 (ofNumber (getDate LocalTZA date)) in
      let month := padStart2 (ofNumber (add (getMonth LocalTZA date) 1)) in
      let yearBE := add (getFullYear LocalTZA date) BE_OFFSET in
      (day ++ "/" ++ month ++ "/" ++ ofNumber yearBE)%string
  end.

Definition formatThaiDateTime (date : option Date) : string :=
  match date with
  | None => ""
  | Some date =>
      if isNaNDate date then "" else
      let day := padStart2 (ofNumber (getDate LocalTZA date)) in
      let month := padStart2 (ofNumber (add (getMonth LocalTZA date) 1)) in
      let yearBE := add (getFullYear LocalTZA date) BE_OFFSET in
      let hour := padStart2 (ofNumber (getHours LocalTZA date)) in
      let minute := padStart2 (ofNumber (getMinutes LocalTZA date)) in
      (day ++ "/" ++ month ++ "/" ++ ofNumber yearBE ++ " " ++ hour ++ ":" ++ minute)%string
  end.

Definition formatADDate (date : option Date) : string :=
  match date with
  | None => ""
  | Some date =>
      if isNaNDate date then "" else
      let day := padStart2 (ofNumber (getDate LocalTZA date)) in
      let month := padStart2 (ofNumber (add (getMonth LocalTZA date) 1)) in
      let year := getFullYear LocalTZA date in
      (ofNumber year ++ "-" ++ month ++ "-" ++ day)%string
  end.

Definition formatADDateTime (date : option Date) : string :=
  match date with
  | None => ""
  | Some date =>
      if isNaNDate date then "" else
      let day := padStart2 (ofNumber (getDate LocalTZA date)) in
      let month := padStart2 (ofNumber (add (getMonth LocalTZA date) 1)) in
      let year := getFullYear LocalTZA date in
      let hour := padStart2 (ofNumber (getHours LocalTZA date)) in
      let minute := padStart2 (ofNumber (getMinutes LocalTZA date)) in
      (ofNumber year ++ "-" ++ month ++ "-" ++ day ++ " " ++ hour ++ ":" ++ minute)%string
  end.

(** The date is built from the three numbers and its fields are compared
    back: a date that rolled over is refused. *)
Definition sameFields (date : Date) (year month day : Z) : bool :=
  negb (strictNe (getFullYear LocalTZA date) year
        || strictNe (getMonth LocalTZA date) (month - 1)
        || strictNe (getDate LocalTZA date) day).

Definition parseThaiDate (value : string) : option Date :=
  if negb (strlen value =? 10) then None else
  let parts := split "/" value in
  if negb (Z.of_nat (List.length parts) =? 3) then None else
  match parseIntU (nth_error parts 0),
        parseIntU (nth_error parts 1),
        parseIntU (nth_error parts 2) with
  | Some day, Some month, Some yearBE =>
      if (month <? 1) || (month >? 12) then None else
      if (day <? 1) || (day >? 31) then None else
      let yearAD := yearBE - BE_OFFSET in
      if (yearAD >? currentYear + 100) || (yearAD <? currentYear - 100)
      then None else
      let date := newDate LocalTZA yearAD (month - 1) day in
      if sameFields date yearAD month day then Some date else None
  | _, _, _ => None
  end.

(** The clock part shared by the two date-time parsers: [timeStr] is split
    at the colon, both numbers are range checked and then set on [date]. *)
Definition withClock (date : Date) (timeStr : string) : option Date :=
  let tparts := split ":" timeStr in
  match parseIntU (nth_error tparts 0), parseIntU (nth_error tparts 1) with
  | Some hour, Some minute =>
      if (hour <? 0) || (hour >? 23) then None else
      if (minute <? 0) || (minute >? 59) then None else
      Some (setMinutes LocalTZA (setHours LocalTZA date hour) minute)
  | _, _ => None
  end.

Definition parseThaiDateTime (value : string) : option Date :=
  if negb (strlen value =? 16) then None else
  let parts := split " " value in
  match nth_error parts 0, nth_error parts 1 with
  | Some dateStr, Some timeStr =>
      if negb (truthy dateStr) || negb (truthy timeStr) then None else
      match parseThaiDate dateStr with
      | None => None
      | Some date => withClock date timeStr
      end
  | _, _ => None
  end.

Definition parseADDate (value : string) : option Date :=
  if negb (truthy value) || negb (strlen value =? 10) then None else
  let parts := split "-" value in
  if negb (Z.of_nat (List.length parts) =? 3) then None else
  match parseIntU (nth_error parts 0),
        parseIntU (nth_error parts 1),
        parseIntU (nth_error parts 2) with
  | Some year, Some month, Some day =>
      let date := newDate LocalTZA year (month - 1) day in
      if sameFields date year month day then Some date else None
  | _, _, _ => None
  end.

Definition parseADDateTime (value : string) : option Date :=
  if negb (truthy value) || negb (strlen value =? 16) then None else
  let parts := split " " value in
  match nth_error parts 0, nth_error parts 1 with
  | Some dateStr, Some timeStr =>
      if negb (truthy dateStr) || negb (truthy timeStr) then None else
      match parseADDate dateStr with
      | None => None
      | Some date => withClock date timeStr
      end
  | _, _ => None
  end.

End DateUtils.

(** ** The ThaiDatePicker component: state, value sync, input handler *)

Section Picker.

Import Js.

Variable LocalTZA : TimeZone.
Variable currentYear : Z.

Inductive ViewMode : Type := day | month | year.

Record SelectedTime : Type := mkSelectedTime {
  hour : option Z;
  minute : option Z
}.

(** The props the logic reads, and the state held by [useState]. *)
Record Props : Type := mkProps {
  value : string;
  withTime : bool
}.

Record State : Type := mkState {
  inputValue : string;
  viewDate : Date;
  viewMode : ViewMode;
  selectedTime : SelectedTime
}.

Definition setInputValue (s : string) (st : State) : State :=
  mkState s (viewDate st) (viewMode st) (selectedTime st).
Definition setViewDate (d : Date) (st : State) : State :=
  mkState (inputValue st) d (viewMode st) (selectedTime st).
Definition setSelectedTime (t : SelectedTime) (st : State) : State :=
  mkState (inputValue st) (viewDate st) (viewMode st) t.

Definition formatThai (p : Props) (d : option Date) : string :=
  if withTime p then formatThaiDateTime LocalTZA d else formatThaiDate LocalTZA d.
Definition parseThai (p : Props) (s : string) : option Date :=
  if withTime p then parseThaiDateTime LocalTZA currentYear s
  else parseThaiDate LocalTZA currentYear s.
Definition formatAD (p : Props) (d : option Date) : string :=
  if withTime p then formatADDateTime LocalTZA d else formatADDate LocalTZA d.
Definition parseAD (p : Props) (s : string) : option Date :=
  if withTime p then parseADDateTime LocalTZA s else parseADDate LocalTZA s.

Definition isSameDate (d1 d2 : option Date) : bool :=
  match d1, d2 with
  | None, None => true
  | None, _ | _, None => false
  | Some d1, Some d2 => strictEq (getTime d1) (getTime d2)
  end.

(** The body of the synchronising effect. *)
Definition syncEffect (p : Props) (st : State) : State :=
  let currentInputDate := parseThai p (inputValue st) in
  let propDate := parseAD p (value p) in
  if negb (isSameDate propDate currentInputDate) then
    match propDate with
    | Some propDate =>
        setSelectedTime
          (mkSelectedTime (getHours LocalTZA propDate) (getMinutes LocalTZA propDate))
          (setViewDate propDate
             (setInputValue (formatThai p (Some propDate)) st))
    | None =>
        if negb (truthy (value p)) then setInputValue "" st else st
    end
  else st.

(** [useEffect(body, [value, withTime])]: the body runs after the first
    render ([prev = None]) and after a render in which one of the two
    dependencies differs from the previous render's. *)
Definition depsChanged (prev : option Props) (p : Props) : bool :=
  match prev with
  | None => true
  | Some q =>
      negb (String.eqb (value q) (value p) && Bool.eqb (withTime q) (withTime p))
  end.

Definition valueSync (prev : option Props) (p : Props) (st : State) : State :=
  if depsChanged prev p then syncEffect p st else st.

(** [handleInputChange], in two parts.  The masking part: the digits kept
    from the field's text ([raw]) and the text re-punctuated from them
    ([formatted]). *)
Definition maskRaw (p : Props) (targetValue : string) : string :=
  let raw := stripNonDigits targetValue in
  let maxDigits := if withTime p then 12%nat else 8%nat in
  if (maxDigits <? String.length raw)%nat then slice 0 maxDigits raw else raw.

Definition maskFormat (p : Props) (raw : string) : string :=
  let n := String.length raw in
  let formatted := "" in
  let formatted :=
    if (0 <? n)%nat then (formatted ++ slice 0 2 raw)%string else formatted in
  let formatted :=
    if (3 <=? n)%nat then (formatted ++ "/" ++ slice 2 4 raw)%string else formatted in
  let formatted :=
    if (5 <=? n)%nat then (formatted ++ "/" ++ slice 4 8 raw)%string else formatted in
  if withTime p then
    let formatted :=
      if (9 <=? n)%nat then (formatted ++ " " ++ slice 8 10 raw)%string else formatted in
    let formatted :=
      if (11 <=? n)%nat then (formatted ++ ":" ++ slice 10 12 raw)%string else formatted in
    formatted
  else formatted.

Definition mask (p : Props) (targetValue : string) : string :=
  maskFormat p (maskRaw p targetValue).

(** The whole handler: the state after it, and the values it passed to
    [onChange], in order. *)
Definition handleInputChange (p : Props) (targetValue : string) (st : State)
  : State * list string :=
  let raw := maskRaw p targetValue in
  let formatted := maskFormat p raw in
  let st := setInputValue formatted st in
  let expectedLength := if withTime p then 16 else 10 in
  if strlen formatted =? expectedLength then
    match parseThai p formatted with
    | Some parsedDate =>
        let adString := formatAD p (Some parsedDate) in
        (setSelectedTime
           (mkSelectedTime (getHours LocalTZA parsedDate)
                           (getMinutes LocalTZA parsedDate))
           (setViewDate parsedDate st),
         [adString])
    | None => (st, [""%string])
    end
  else if strlen raw =? 0 then (st, [""%string])
  else (st, []).

End Picker.

(** ** Vocabulary of the specification *)

Module Spec.

Import DateMath Js.

(** The Gregorian leap-year rule and the length of a month (1..12). *)
Definition isLeapYear (y : Z) : bool :=
  (y mod 4 =? 0) && (negb (y mod 100 =? 0) || (y mod 400 =? 0)).

Definition daysInMonth (y m : Z) : Z :=
  match m with
  | 1 | 3 | 5 | 7 | 8 | 10 | 12 => 31
  | 4 | 6 | 9 | 11 => 30
  | 2 => if isLeapYear y then 29 else 28
  | _ => 0
  end.

(** [(y, m, d)] denotes a real Gregorian date. *)
Definition realDate (y m d : Z) : Prop :=
  1 <= m <= 12 /\ 1 <= d <= daysInMonth y m.

(** A CanonicalInstant, held as the code holds it, in a [Date]: a valid
    time value that is the instant to which the host resolves the local
    midnight of its own local day (date-only variant) or the start of its
    own local minute (date+time variant).  On a host with a constant offset
    these are the time values on local midnight and on a whole local minute;
    of the two instants that show a repeated local time it is the earlier
    one. *)
Definition dateInstant (tz : TimeZone) (x : Date) : Prop :=
  exists t, x = mkDate (Some t) /\ TimeClip t = Some t
            /\ UTC tz (Day (LocalTime tz t) * msPerDay) = t.

Definition dateTimeInstant (tz : TimeZone) (x : Date) : Prop :=
  exists t, x = mkDate (Some t) /\ TimeClip t = Some t
            /\ UTC tz (LocalTime tz t - LocalTime tz t mod msPerMinute) = t.

(** What the properties ask of the host's zone.  Offsets stay within a day;
    the local day [n] starts within itself (the instant to which the host
    resolves its local midnight is an instant of that local day: no clock
    change skips the whole day); the host shows the local time [tl] (the
    instant to which it resolves [tl] has the local time [tl]: no clock
    change skips it); no local time of the day [n] is skipped. *)
Definition boundedZone (tz : TimeZone) : Prop :=
  forall t isUTC, - msPerDay <= tz t isUTC <= msPerDay.

Definition keepsDay (tz : TimeZone) (n : Z) : Prop :=
  Day (LocalTime tz (UTC tz (n * msPerDay))) = n.

Definition shown (tz : TimeZone) (tl : Z) : Prop :=
  LocalTime tz (UTC tz tl) = tl.

Definition unskippedDay (tz : TimeZone) (n : Z) : Prop :=
  forall tl, Day tl = n -> shown tz tl.

(** Strings of decimal digits, and strings without a given character. *)
Fixpoint allDigits (s : string) : bool :=
  match s with
  | String c r => isDigit c && allDigits r
  | EmptyString => true
  end.

Fixpoint contains (c : ascii) (s : string) : bool :=
  match s with
  | String a r => Ascii.eqb a c || contains c r
  | EmptyString => false
  end.

(** A field of the two formats: [n] decimal digits. *)
Definition digitField (n : nat) (s : string) : Prop :=
  allDigits s = true /\ String.length s = n.

(** The three numbers a date string is read as, before any calendar check:
    the structural prefix of [parseADDate] and of [parseThaiDate]. *)
Definition numbersAD (s : string) : option (Z * Z * Z) :=
  if negb (truthy s) || negb (strlen s =? 10) then None else
  let parts := split "-" s in
  if negb (Z.of_nat (List.length parts) =? 3) then None else
  match parseIntU (nth_error parts 0),
        parseIntU (nth_error parts 1),
        parseIntU (nth_error parts 2) with
  | Some y, Some m, Some d => Some (y, m, d)
  | _, _, _ => None
  end.

Definition numbersThai (s : string) : option (Z * Z * Z) :=
  if negb (strlen s =? 10) then None else
  let parts := split "/" s in
  if negb (Z.of_nat (List.length parts) =? 3) then None else
  match parseIntU (nth_error parts 0),
        parseIntU (nth_error parts 1),
        parseIntU (nth_error parts 2) with
  | Some d, Some m, Some yBE => Some (yBE - 543, m, d)
  | _, _, _ => None
  end.

(** The date segment of a date+time string. *)
Definition dateSegment (s : string) : option string :=
  nth_error (split " " s) 0.

(** The input mask in the specification's words: keep the digits of the
    keystroke buffer, cut to the mode's maximum, and write them out in
    order with a separator before the 3rd and the 5th digit and, in time
    mode, before the 9th and the 11th. *)
Definition maxDigits (time : bool) : nat := if time then 12%nat else 8%nat.

Definition rawDigits (time : bool) (buffer : string) : list ascii :=
  firstn (maxDigits time) (filter isDigit (list_ascii_of_string buffer)).

Definition separatorBefore (time : bool) (i : nat) : string :=
  match i with
  | 2%nat | 4%nat => "/"
  | 8%nat => if time then " " else ""
  | 10%nat => if time then ":" else ""
  | _ => ""
  end.

Fixpoint punctuate (time : bool) (i : nat) (digits : list ascii) : string :=
  match digits with
  | [] => ""
  | c :: r => (separatorBefore time i ++ String c (punctuate time (S i) r))%string
  end.

Definition expectedLength (time : bool) : Z := if time then 16 else 10.

(** A display string that is partial: non-empty and not yet complete. *)
Definition partialDisplay (time : bool) (s : string) : Prop :=
  s <> "" /\ strlen s <> expectedLength time.

(** Decimal writing of a number, plain and padded to two places. *)
Definition dec (n : Z) : string := ofNumber (Some n).
Definition dec2 (n : Z) : string := padStart2 (ofNumber (Some n)).

(** Integers of an interval, to check a boolean property by evaluation. *)
Definition upto (lo n : Z) : list Z :=
  map (fun i => lo + Z.of_nat i) (seq 0 (Z.to_nat n)).

Definition isDec (len : nat) (f : Z -> string) (n : Z) : bool :=
  allDigits (f n) && Nat.eqb (String.length (f n)) len
  && (decimalValue 0 (f n) =? n).

End Spec.

(** ** The rest of dateUtils.ts: calendar helpers *)

Section CalendarUtils.

Import DateMath Js.

Variable LocalTZA : TimeZone.

(** [WeekDay], 0 for Sunday, and [d.getDay()]. *)
Definition WeekDay (t : Z) : Z := (Day t + 4) mod 7.

Definition getDay (d : Date) : option Z :=
  option_map (fun t => WeekDay (LocalTime LocalTZA t)) (timeValue d).

(** [new Date(year, monthIndex, day, hours, minutes)] on numbers any of
    which may be NaN; a NaN argument gives an invalid date. *)
Definition newDateTime (yr mo dy hr mi : option Z) : Date :=
  match yr, mo, dy, hr, mi with
  | Some yr, Some mo, Some dy, Some hr, Some mi =>
      mkDate (TimeClip (UTC LocalTZA
        (MakeDate (MakeDay (MakeFullYear yr) mo dy) (MakeTime hr mi 0 0))))
  | _, _, _, _, _ => mkDate None
  end.

(** [new Date(year, monthIndex, day)] on such numbers. *)
Definition newDateOf (yr mo dy : option Z) : Date :=
  newDateTime yr mo dy (Some 0) (Some 0).

(** [new Date(d)]: a copy of a date. *)
Definition copyDate (d : Date) : Date :=
  match timeValue d with
  | Some t => mkDate (TimeClip t)
  | None => mkDate None
  end.

(** [setHours] and [setMinutes] with an argument that may be NaN. *)
Definition setHoursOf (d : Date) (h : option Z) : Date :=
  match h with Some h => setHours LocalTZA d h | None => mkDate None end.

Definition setMinutesOf (d : Date) (m : option Z) : Date :=
  match m with Some m => setMinutes LocalTZA d m | None => mkDate None end.

(** [/[\d\/]/.test(char)]: some code unit is a digit or a slash. *)
Fixpoint isValidDateInputChar (char : string) : bool :=
  match char with
  | String c r => isDigit c || Ascii.eqb c "/" || isValidDateInputChar r
  | EmptyString => false
  end.

Definition getDaysInMonth (yearAD monthIndex : option Z) : option Z :=
  getDate LocalTZA (newDateOf yearAD (add monthIndex 1) (Some 0)).

Definition getFirstDayOfMonth (yearAD monthIndex : option Z) : option Z :=
  getDay (newDateOf yearAD monthIndex (Some 1)).

End CalendarUtils.

(** ** The rest of the component: popover, navigation, selection *)

Section PickerHandlers.

Import Js.

Variable LocalTZA : TimeZone.
Variable currentYear : Z.

(** The host clock, [new Date()], at the time of the event. *)
Variable now : Date.

(** The element the popover is anchored to. *)
Variable Element : Type.

(** The state of the component: the part the input logic uses, the anchor
    of the popover (open when there is one). *)
Record Picker : Type := mkPicker {
  core : State;
  anchorEl : option Element
}.

Definition isCalendarOpen (pk : Picker) : bool :=
  match anchorEl pk with Some _ => true | None => false end.

Definition onCore (f : State -> State) (pk : Picker) : Picker :=
  mkPicker (f (core pk)) (anchorEl pk).

Definition setAnchorEl (a : option Element) (pk : Picker) : Picker :=
  mkPicker (core pk) a.

Definition setViewMode (m : ViewMode) (st : State) : State :=
  mkState (inputValue st) (viewDate st) m (selectedTime st).

Definition timeOf (d : Date) : SelectedTime :=
  mkSelectedTime (getHours LocalTZA d) (getMinutes LocalTZA d).

(** [handleOpen]: [parentElement] is [event.currentTarget.parentElement]. *)
Definition handleOpen (p : Props) (disabled : bool)
    (parentElement : option Element) (pk : Picker) : Picker :=
  let pk := onCore (setViewMode day) pk in
  if disabled then pk else
  let pk := setAnchorEl parentElement pk in
  match parseAD LocalTZA p (value p) with
  | Some propDate =>
      onCore (setSelectedTime (timeOf propDate))
        (onCore (setViewDate propDate) pk)
  | None =>
      onCore (setSelectedTime (timeOf now)) (onCore (setViewDate now) pk)
  end.

Definition handleClose (p : Props) (pk : Picker) : Picker :=
  let pk := setAnchorEl None pk in
  match parseAD LocalTZA p (value p) with
  | Some propDate =>
      onCore (setInputValue (formatThai LocalTZA p (Some propDate))) pk
  | None =>
      if negb (truthy (value p)) then onCore (setInputValue "") pk else pk
  end.

(** Calendar navigation. *)
Definition viewYear (st : State) : option Z := getFullYear LocalTZA (viewDate st).
Definition viewMonth (st : State) : option Z := getMonth LocalTZA (viewDate st).

Definition handlePrevMonth (st : State) : State :=
  setViewDate (newDateOf LocalTZA (viewYear st) (add (viewMonth st) (-1)) (Some 1)) st.

Definition handleNextMonth (st : State) : State :=
  setViewDate (newDateOf LocalTZA (viewYear st) (add (viewMonth st) 1) (Some 1)) st.

Definition handlePrev (st : State) : State :=
  match viewMode st with
  | day =>
      setViewDate (newDateOf LocalTZA (viewYear st) (add (viewMonth st) (-1)) (Some 1)) st
  | month =>
      setViewDate (newDateOf LocalTZA (add (viewYear st) (-1)) (viewMonth st) (Some 1)) st
  | year =>
      setViewDate (newDateOf LocalTZA (add (viewYear st) (-12)) (viewMonth st) (Some 1)) st
  end.

Definition handleNext (st : State) : State :=
  match viewMode st with
  | day =>
      setViewDate (newDateOf LocalTZA (viewYear st) (add (viewMonth st) 1) (Some 1)) st
  | month =>
      setViewDate (newDateOf LocalTZA (add (viewYear st) 1) (viewMonth st) (Some 1)) st
  | year =>
      setViewDate (newDateOf LocalTZA (add (viewYear st) 12) (viewMonth st) (Some 1)) st
  end.

(** The year view: twelve Buddhist-Era years from [currentYearBE - 6], and
    the click on one of them. *)
Definition currentYearBE (st : State) : option Z := add (viewYear st) BE_OFFSET.

Definition yearGrid (st : State) : list (option Z) :=
  map (fun i => add (add (currentYearBE st) (-6)) (Z.of_nat i)) (seq 0 12).

Definition selectYear (yearBE : option Z) (st : State) : State :=
  setViewMode month
    (setViewDate (newDateOf LocalTZA (add yearBE (- BE_OFFSET)) (viewMonth st) (Some 1)) st).

(** The month view: the click on the month of index [i]. *)
Definition selectMonth (i : Z) (st : State) : State :=
  setViewMode day
    (setViewDate (newDateOf LocalTZA (viewYear st) (Some i) (Some 1)) st).

(** [handleDateSelect]: the state after it and the values passed to
    [onChange]. *)
Definition handleDateSelect (p : Props) (dayNumber : Z) (pk : Picker)
  : Picker * list string :=
  let st := core pk in
  let hr := if withTime p then hour (selectedTime st) else Some 0 in
  let mi := if withTime p then minute (selectedTime st) else Some 0 in
  let newDate := newDateTime LocalTZA (viewYear st) (viewMonth st) (Some dayNumber) hr mi in
  let adString := formatAD LocalTZA p (Some newDate) in
  let pk := onCore (setInputValue (formatThai LocalTZA p (Some newDate))) pk in
  let pk := if negb (withTime p) then handleClose p pk else pk in
  (pk, [adString]).

Inductive TimeField : Type := hourField | minuteField.

Definition handleTimeChange (p : Props) (type : TimeField) (val : option Z)
    (pk : Picker) : Picker * list string :=
  let old := selectedTime (core pk) in
  let newTime :=
    match type with
    | hourField => mkSelectedTime val (minute old)
    | minuteField => mkSelectedTime (hour old) val
    end in
  let pk := onCore (setSelectedTime newTime) pk in
  match parseAD LocalTZA p (value p) with
  | Some propDate =>
      let newDate := copyDate propDate in
      let newDate := setHoursOf LocalTZA newDate (hour newTime) in
      let newDate := setMinutesOf LocalTZA newDate (minute newTime) in
      let adString := formatAD LocalTZA p (Some newDate) in
      (onCore (setInputValue (formatThai LocalTZA p (Some newDate))) pk, [adString])
  | None => (pk, [])
  end.

Definition handleClear (pk : Picker) : Picker * list string :=
  (onCore (setSelectedTime (mkSelectedTime (Some 0) (Some 0)))
     (onCore (setInputValue "") pk),
   [""%string]).

Definition handleToday (p : Props) (pk : Picker) : Picker * list string :=
  let adString := formatAD LocalTZA p (Some now) in
  let pk := onCore (setInputValue (formatThai LocalTZA p (Some now))) pk in
  let pk := onCore (setViewDate now) pk in
  let pk := onCore (setSelectedTime (timeOf now)) pk in
  let pk := if negb (withTime p) then handleClose p pk else pk in
  (pk, [adString]).

(** The cells of the day view: one [None] for each weekday before the first
    of the month, then the day numbers. *)
Definition leadingBlanks (firstDay : option Z) : list (option Z) :=
  match firstDay with
  | Some n => repeat None (Z.to_nat n)
  | None => []
  end.

Definition dayCells (daysInMonth : option Z) : list (option Z) :=
  match daysInMonth with
  | Some n => map (fun i => Some (Z.of_nat i)) (seq 1 (Z.to_nat n))
  | None => []
  end.

Definition calendarGrid (st : State) : list (option Z) :=
  let yr := viewYear st in
  let mo := viewMonth st in
  let daysInMonth := getDaysInMonth LocalTZA yr mo in
  let firstDay := getFirstDayOfMonth LocalTZA yr mo in
  (leadingBlanks firstDay ++ dayCells daysInMonth)%list.

(** The marks of a day cell. *)
Definition isSelected (p : Props) (st : State) (dayNumber : Z) : bool :=
  match parseAD LocalTZA p (value p) with
  | Some propDate =>
      strictEq (getDate LocalTZA propDate) (Some dayNumber)
      && strictEq (getMonth LocalTZA propDate) (viewMonth st)
      && strictEq (getFullYear LocalTZA propDate) (viewYear st)
  | None => false
  end.

Definition isToday (st : State) (dayNumber : Z) : bool :=
  strictEq (getDate LocalTZA now) (Some dayNumber)
  && strictEq (getMonth LocalTZA now) (viewMonth st)
  && strictEq (getFullYear LocalTZA now) (viewYear st).

End PickerHandlers.

(** * Facts about the host date arithmetic *)

Section DateFacts.

Import DateMath Spec.

Lemma DaysInYear_leap y : DaysInYear y = if isLeapYear y then 366 else 365.
Proof.
  unfold DaysInYear, isLeapYear.
  destruct (y mod 4 =? 0), (y mod 100 =? 0), (y mod 400 =? 0); reflexivity.
Qed.

Lemma DayFromYear_succ y : DayFromYear (y + 1) = DayFromYear y + DaysInYear y.
Proof.
  unfold DayFromYear, DaysInYear.
  repeat match goal with |- context [?a =? ?b] => destruct (Z.eqb_spec a b) end; simpl negb; cbv iota;
  Z.div_mod_to_equations; lia.
Qed.

Lemma YearFromDay_spec n :
  DayFromYear (YearFromDay n) <= n < DayFromYear (YearFromDay n + 1).
Proof.
  unfold YearFromDay.
  set (y := 1970 + 400 * n / 146097).
  assert (Hlo : DayFromYear (y - 1) <= n).
  { unfold y, DayFromYear. Z.div_mod_to_equations. lia. }
  assert (Hhi : n < DayFromYear (y + 2)).
  { unfold y, DayFromYear. Z.div_mod_to_equations. lia. }
  destruct (Z.leb_spec (DayFromYear (y + 1)) n).
  - replace (y + 1 + 1) with (y + 2) by lia. lia.
  - destruct (Z.leb_spec (DayFromYear y) n).
    + lia.
    + replace (y - 1 + 1) with y by lia. lia.
Qed.

Lemma DayFromYear_lt a b : a < b -> DayFromYear a < DayFromYear b.
Proof. unfold DayFromYear. intros. Z.div_mod_to_equations. lia. Qed.

Lemma YearFromDay_unique n y :
  DayFromYear y <= n < DayFromYear (y + 1) -> YearFromDay n = y.
Proof.
  intros H. pose proof (YearFromDay_spec n) as S.
  destruct (Z.lt_trichotomy (YearFromDay n) y) as [L|[E|G]]; auto.
  - assert (DayFromYear (YearFromDay n + 1) <= DayFromYear y).
    { destruct (Z.eq_dec (YearFromDay n + 1) y) as [->|]; [lia|].
      apply Z.lt_le_incl, DayFromYear_lt; lia. }
    lia.
  - assert (DayFromYear (y + 1) <= DayFromYear (YearFromDay n)).
    { destruct (Z.eq_dec (y + 1) (YearFromDay n)) as [->|]; [lia|].
      apply Z.lt_le_incl, DayFromYear_lt; lia. }
    lia.
Qed.

Lemma DayWithinYear_range t : 0 <= DayWithinYear t < DaysInYear (YearFromTime t).
Proof.
  unfold DayWithinYear, YearFromTime.
  pose proof (YearFromDay_spec (Day t)) as S.
  rewrite DayFromYear_succ in S. lia.
Qed.

(** every time value falls on a real date *)
Lemma fields_real t :
  realDate (YearFromTime t) (MonthFromTime t + 1) (DateFromTime t).
Proof.
  pose proof (DayWithinYear_range t) as R.
  unfold realDate, DateFromTime, MonthFromTime, InLeapYear, daysInMonth.
  rewrite DaysInYear_leap in *.
  set (d := DayWithinYear t) in *. clearbody d.
  destruct (isLeapYear (YearFromTime t)); simpl Z.eqb; cbv iota;
  repeat match goal with
         | |- context [?a <? ?b] => destruct (Z.ltb_spec a b)
         end; simpl; lia.
Qed.

Lemma civil_fields t y m d :
  realDate y m d ->
  Day t = MakeDay y (m - 1) d ->
  YearFromTime t = y /\ MonthFromTime t = m - 1 /\ DateFromTime t = d.
Proof.
  intros [Hm Hd] E.
  unfold MakeDay in E.
  replace ((m - 1) / 12) with 0 in E by (symmetry; apply Z.div_small; lia).
  rewrite Z.mod_small in E by lia. rewrite Z.add_0_r in E.
  assert (Y : YearFromTime t = y).
  { unfold YearFromTime. apply YearFromDay_unique. rewrite DayFromYear_succ, E.
    rewrite DaysInYear_leap in *. unfold daysInMonth in Hd.
    assert (m = 1 \/ m = 2 \/ m = 3 \/ m = 4 \/ m = 5 \/ m = 6 \/ m = 7 \/ m = 8
            \/ m = 9 \/ m = 10 \/ m = 11 \/ m = 12) as C by lia.
    destruct (isLeapYear y); simpl Z.eqb; cbv iota;
    repeat (destruct C as [->|C]; [simpl in *; lia|]); subst; simpl in *; lia. }
  split; [exact Y|].
  unfold DateFromTime, MonthFromTime, InLeapYear, DayWithinYear. rewrite Y, E.
  rewrite DaysInYear_leap in *. unfold daysInMonth in Hd.
  assert (m = 1 \/ m = 2 \/ m = 3 \/ m = 4 \/ m = 5 \/ m = 6 \/ m = 7 \/ m = 8
          \/ m = 9 \/ m = 10 \/ m = 11 \/ m = 12) as C by lia.
  destruct (isLeapYear y); simpl Z.eqb; cbv iota;
  repeat (destruct C as [->|C]; [simpl daysBeforeMonth;
    repeat match goal with
         | |- context [?a <? ?b] => destruct (Z.ltb_spec a b); try lia
         end; simpl; lia|]); subst m; simpl daysBeforeMonth;
    repeat match goal with
         | |- context [?a <? ?b] => destruct (Z.ltb_spec a b); try lia
         end; simpl; lia.
Qed.

End DateFacts.


(** * Facts about strings and numerals *)

Section StringFacts.

Import Js Spec.

Lemma length_app (a b : string) :
  String.length (a ++ b) = (String.length a + String.length b)%nat.
Proof. induction a as [|c a IH]; simpl; [reflexivity | now rewrite IH]. Qed.

Lemma app_assoc_s (a b c : string) : ((a ++ b) ++ c = a ++ (b ++ c))%string.
Proof. induction a as [|x a IH]; simpl; [reflexivity | now rewrite IH]. Qed.

Lemma split_without sep s : contains sep s = false -> split sep s = [s].
Proof.
  induction s as [|c r IH]; simpl; [reflexivity|].
  intros H. apply orb_false_iff in H as [H1 H2].
  rewrite H1, (IH H2). reflexivity.
Qed.

Lemma split_at sep a b :
  contains sep a = false -> split sep (a ++ String sep b) = a :: split sep b.
Proof.
  induction a as [|c r IH]; simpl.
  - intros _. now rewrite Ascii.eqb_refl.
  - intros H. apply orb_false_iff in H as [H1 H2].
    rewrite H1, (IH H2). reflexivity.
Qed.

Lemma contains_app c a b : contains c (a ++ b) = contains c a || contains c b.
Proof. induction a as [|x a IH]; simpl; [reflexivity|]. now rewrite IH, orb_assoc. Qed.

Lemma allDigits_app a b : allDigits (a ++ b) = allDigits a && allDigits b.
Proof. induction a as [|x a IH]; simpl; [reflexivity|]. now rewrite IH, andb_assoc. Qed.

Lemma digits_without c s : isDigit c = false -> allDigits s = true -> contains c s = false.
Proof.
  intros Hc. induction s as [|a r IH]; simpl; [reflexivity|].
  intros H. apply andb_true_iff in H as [H1 H2].
  rewrite (IH H2), orb_false_r.
  destruct (Ascii.eqb_spec a c) as [->|]; [congruence | reflexivity].
Qed.

Lemma digit_not_space c : isDigit c = true -> isWhiteSpace c = false.
Proof. unfold isDigit, isWhiteSpace. lia. Qed.

Lemma digitsPrefix_all s : allDigits s = true -> digitsPrefix s = s.
Proof.
  induction s as [|c r IH]; simpl; [reflexivity|].
  intros H. apply andb_true_iff in H as [H1 H2]. now rewrite H1, (IH H2).
Qed.

Lemma parseInt_digits s :
  allDigits s = true -> s <> "" -> parseInt s = Some (decimalValue 0 s).
Proof.
  destruct s as [|c r]; [congruence|]. intros H _.
  pose proof H as H'. simpl in H'. apply andb_true_iff in H' as [Hc Hr].
  unfold parseInt. simpl trimStart. rewrite (digit_not_space c Hc).
  assert (Hm : c <> "-"%char) by (intros ->; discriminate).
  assert (Hp : c <> "+"%char) by (intros ->; discriminate).
  assert (E : match String c r with
              | String "-" r0 => (-1, r0)
              | String "+" r0 => (1, r0)
              | _ => (1, String c r)
              end = (1, String c r)).
  { destruct c as [[] [] [] [] [] [] [] []]; try reflexivity; congruence. }
  rewrite E, (digitsPrefix_all _ H). simpl digitsPrefix.
  f_equal. lia.
Qed.

Lemma decimalValue_acc s acc :
  decimalValue acc s = acc * 10 ^ Z.of_nat (String.length s) + decimalValue 0 s.
Proof.
  revert acc. induction s as [|c r IH]; intros acc.
  - simpl. lia.
  - cbn [decimalValue String.length]. rewrite IH, (IH (10 * 0 + digitValue c)).
    rewrite Nat2Z.inj_succ, Z.pow_succ_r by lia. lia.
Qed.

Lemma digitValue_range c : isDigit c = true -> 0 <= digitValue c <= 9.
Proof. unfold isDigit, digitValue. lia. Qed.

Lemma decimalValue_range s :
  allDigits s = true -> 0 <= decimalValue 0 s < 10 ^ Z.of_nat (String.length s).
Proof.
  induction s as [|c r IH]; intros H.
  - simpl. lia.
  - simpl in H. apply andb_true_iff in H as [Hc Hr].
    cbn [decimalValue String.length]. rewrite decimalValue_acc.
    rewrite Nat2Z.inj_succ, Z.pow_succ_r by lia.
    specialize (IH Hr). pose proof (digitValue_range c Hc). nia.
Qed.

Lemma digitValue_inj a b : digitValue a = digitValue b -> a = b.
Proof.
  unfold digitValue, codeUnit. intros H.
  assert (N_of_ascii a = N_of_ascii b) by lia.
  rewrite <- (ascii_N_embedding a), <- (ascii_N_embedding b). congruence.
Qed.

Lemma digits_inj s1 : forall s2,
  allDigits s1 = true -> allDigits s2 = true ->
  String.length s1 = String.length s2 ->
  decimalValue 0 s1 = decimalValue 0 s2 -> s1 = s2.
Proof.
  induction s1 as [|c1 r1 IH]; intros [|c2 r2] H1 H2 L E; try discriminate; [reflexivity|].
  simpl in H1, H2, L. apply andb_true_iff in H1 as [Hc1 Hr1].
  apply andb_true_iff in H2 as [Hc2 Hr2]. injection L as L.
  cbn [decimalValue] in E. rewrite (decimalValue_acc r1), (decimalValue_acc r2) in E.
  rewrite <- L in E.
  pose proof (decimalValue_range r1 Hr1) as R1.
  pose proof (decimalValue_range r2 Hr2) as R2. rewrite <- L in R2.
  pose proof (digitValue_range c1 Hc1). pose proof (digitValue_range c2 Hc2).
  assert (digitValue c1 = digitValue c2) by nia.
  f_equal; [now apply digitValue_inj|].
  apply IH; auto. nia.
Qed.

Lemma forallb_upto (P : Z -> bool) lo n :
  forallb P (upto lo n) = true -> forall z, lo <= z < lo + n -> P z = true.
Proof.
  intros H z Hz. rewrite forallb_forall in H. apply H.
  unfold upto. apply in_map_iff. exists (Z.to_nat (z - lo)). split; [lia|].
  apply in_seq. lia.
Qed.

Lemma dec2_ok n : 0 <= n <= 99 -> isDec 2 dec2 n = true.
Proof. intros H. apply (forallb_upto _ 0 100); [vm_compute; reflexivity | lia]. Qed.

Lemma dec4_ok n : 1000 <= n <= 9999 -> isDec 4 dec n = true.
Proof. intros H. apply (forallb_upto _ 1000 9000); [vm_compute; reflexivity | lia]. Qed.

Lemma isDec_elim len f n :
  isDec len f n = true ->
  allDigits (f n) = true /\ String.length (f n) = len /\ decimalValue 0 (f n) = n.
Proof.
  unfold isDec. intros H. apply andb_true_iff in H as [H H3].
  apply andb_true_iff in H as [H1 H2]. apply Nat.eqb_eq in H2.
  apply Z.eqb_eq in H3. auto.
Qed.

End StringFacts.

(** * Facts about the Date object *)

Section DateObjectFacts.

Import DateMath Js Spec.

Variable tz : TimeZone.

Lemma MakeDay_small y m d :
  0 <= m <= 11 ->
  MakeDay y m d
  = DayFromYear y + daysBeforeMonth (if DaysInYear y =? 366 then 1 else 0) m + d - 1.
Proof.
  intros H. unfold MakeDay.
  rewrite (Z.div_small m 12), (Z.mod_small m 12), Z.add_0_r by lia. reflexivity.
Qed.

Lemma Day_decompose t :
  Day t = MakeDay (YearFromTime t) (MonthFromTime t) (DateFromTime t).
Proof.
  pose proof (fields_real t) as [Hm _].
  rewrite MakeDay_small by lia. clear Hm.
  pose proof (DayWithinYear_range t) as R.
  unfold DateFromTime, MonthFromTime, InLeapYear.
  unfold DayWithinYear in *.
  set (y := YearFromTime t) in *. set (n := Day t) in *.
  set (l := if DaysInYear y =? 366 then 1 else 0).
  assert (Hl : l = 0 \/ l = 1) by (unfold l; destruct (DaysInYear y =? 366); auto).
  clearbody l.
  repeat match goal with
         | |- context [?a <? ?b] => destruct (Z.ltb_spec a b)
         end; cbv iota; cbn [daysBeforeMonth]; lia.
Qed.

Lemma local_utc (tza z : Z) : LocalTime tza (UTC tza z) = z.
Proof. unfold LocalTime, UTC, fixedOffset. lia. Qed.

Lemma strictNe_false a b : strictNe a b = false <-> a = Some b.
Proof.
  unfold strictNe, strictEq. destruct a as [x|]; simpl.
  - rewrite negb_false_iff, Z.eqb_eq. split; congruence.
  - split; discriminate.
Qed.

Lemma sameFields_spec date y m d :
  sameFields tz date y m d = true <->
  getFullYear tz date = Some y /\ getMonth tz date = Some (m - 1)
  /\ getDate tz date = Some d.
Proof.
  unfold sameFields. rewrite negb_true_iff, !orb_false_iff, !strictNe_false.
  tauto.
Qed.

(** a date whose fields read back as (y, m, d) is a real date *)
Lemma sameFields_real date y m d :
  sameFields tz date y m d = true -> realDate y m d.
Proof.
  rewrite sameFields_spec. destruct date as [[t|]]; simpl; [|intros [? _]; discriminate].
  intros (Hy & Hm & Hd). inversion Hy; inversion Hm; inversion Hd.
  pose proof (fields_real (LocalTime tz t)) as R.
  replace m with (MonthFromTime (LocalTime tz t) + 1) by lia.
  exact R.
Qed.

Lemma MakeFullYear_id y : ~ 0 <= y <= 99 -> MakeFullYear y = y.
Proof.
  unfold MakeFullYear. intros H.
  destruct (Z.leb_spec 0 y), (Z.leb_spec y 99); simpl; lia.
Qed.

Lemma TimeClip_Some t :
  - 8640000000000000 <= t <= 8640000000000000 -> TimeClip t = Some t.
Proof.
  unfold TimeClip. intros H. destruct (Z.gtb_spec (Z.abs t) 8640000000000000); [lia | reflexivity].
Qed.

Lemma TimeClip_inv t u : TimeClip t = Some u -> u = t.
Proof. unfold TimeClip. destruct (_ >? _); congruence. Qed.

(** the local day number of a time whose year is moderate is far inside
    the range of time values *)
Lemma year_bound t :
  -200000 <= YearFromTime t <= 200000 ->
  - 8640000000000000 + 2 * msPerDay <= Day t * msPerDay
  /\ Day t * msPerDay + 2 * msPerDay <= 8640000000000000.
Proof.
  intros H. unfold YearFromTime in H.
  pose proof (YearFromDay_spec (Day t)) as S.
  set (y := YearFromDay (Day t)) in *. clearbody y.
  assert (DayFromYear (-200000) <= DayFromYear y).
  { destruct (Z.eq_dec (-200000) y) as [<-|]; [lia|].
    apply Z.lt_le_incl, DayFromYear_lt. lia. }
  assert (DayFromYear (y + 1) <= DayFromYear 200001).
  { destruct (Z.eq_dec (y + 1) 200001) as [->|]; [lia|].
    apply Z.lt_le_incl, DayFromYear_lt. lia. }
  assert (E1 : DayFromYear (-200000) = -73768028) by reflexivity.
  assert (E2 : DayFromYear 200001 = 72329338) by reflexivity.
  unfold msPerDay. lia.
Qed.

(** a local time away from the ends of the range resolves to a valid time
    value *)
Lemma clip_local tl :
  boundedZone tz ->
  - 8640000000000000 + msPerDay <= tl <= 8640000000000000 - msPerDay ->
  TimeClip (UTC tz tl) = Some (UTC tz tl).
Proof.
  intros B H. apply TimeClip_Some. unfold UTC.
  specialize (B tl false). lia.
Qed.

(** a host with a constant offset *)
Lemma fixed_bounded (tza : Z) :
  - msPerDay <= tza <= msPerDay -> boundedZone tza.
Proof. intros H t b. exact H. Qed.

Lemma Day_midnight n : Day (n * msPerDay) = n.
Proof. unfold Day. apply Z.div_mul. discriminate. Qed.

Lemma fixed_keepsDay (tza n : Z) : keepsDay tza n.
Proof. unfold keepsDay. rewrite local_utc. apply Day_midnight. Qed.

(** New York time in 2026: offsets below a day, and no local time skipped
    on any day but 8 March 2026 (day 20520 of the epoch). *)
Lemma newYork_bounded : boundedZone newYork2026.
Proof.
  intros t b. unfold newYork2026, msPerDay.
  destruct b; repeat destruct (_ <? _); lia.
Qed.

Lemma newYork_unskipped n : n <> 20520 -> unskippedDay newYork2026 n.
Proof.
  intros N tl D. unfold shown, LocalTime, UTC, newYork2026.
  unfold Day, msPerDay in D.
  destruct (Z.ltb_spec tl 1772938800000); [|destruct (Z.ltb_spec tl 1793498400000)].
  - destruct (Z.ltb_spec (tl - -18000000) 1772953200000); [lia|].
    exfalso. apply N. Z.div_mod_to_equations. lia.
  - destruct (Z.ltb_spec (tl - -14400000) 1772953200000); [lia|].
    destruct (Z.ltb_spec (tl - -14400000) 1793512800000); lia.
  - destruct (Z.ltb_spec (tl - -18000000) 1772953200000); [lia|].
    destruct (Z.ltb_spec (tl - -18000000) 1793512800000); lia.
Qed.

Lemma newYork_keepsDay n : keepsDay newYork2026 n.
Proof.
  unfold keepsDay, LocalTime, UTC, newYork2026, Day, msPerDay.
  repeat match goal with
         | |- context [?a <? ?b] => destruct (Z.ltb_spec a b)
         end; Z.div_mod_to_equations; lia.
Qed.

End DateObjectFacts.

(** * Facts about the codec *)

Section CodecFacts.

Import DateMath Js Spec.

Variable tz : TimeZone.
Variable Y : Z.

Lemma parseADDate_numbers s :
  parseADDate tz s =
  match numbersAD s with
  | Some (y, m, d) =>
      let date := newDate tz y (m - 1) d in
      if sameFields tz date y m d then Some date else None
  | None => None
  end.
Proof.
  unfold parseADDate, numbersAD.
  destruct (negb (truthy s) || negb (strlen s =? 10)); [reflexivity|].
  destruct (negb (Z.of_nat (List.length (split "-" s)) =? 3)); [reflexivity|].
  destruct (parseIntU (nth_error (split "-" s) 0)); [|reflexivity].
  destruct (parseIntU (nth_error (split "-" s) 1)); [|reflexivity].
  destruct (parseIntU (nth_error (split "-" s) 2)); reflexivity.
Qed.

Lemma parseThaiDate_numbers s :
  parseThaiDate tz Y s =
  match numbersThai s with
  | Some (y, m, d) =>
      if (m <? 1) || (m >? 12) then None else
      if (d <? 1) || (d >? 31) then None else
      if (y >? Y + 100) || (y <? Y - 100) then None else
      let date := newDate tz y (m - 1) d in
      if sameFields tz date y m d then Some date else None
  | None => None
  end.
Proof.
  unfold parseThaiDate, numbersThai, BE_OFFSET.
  destruct (negb (strlen s =? 10)); [reflexivity|].
  destruct (negb (Z.of_nat (List.length (split "/" s)) =? 3)); [reflexivity|].
  destruct (parseIntU (nth_error (split "/" s) 0)); [|reflexivity].
  destruct (parseIntU (nth_error (split "/" s) 1)); [|reflexivity].
  destruct (parseIntU (nth_error (split "/" s) 2)); reflexivity.
Qed.

Lemma nonempty_length s : String.length s <> 0%nat -> s <> "".
Proof. intros H ->. apply H. reflexivity. Qed.

Lemma truthy_length s : String.length s <> 0%nat -> truthy s = true.
Proof. destruct s; simpl; congruence. Qed.

Lemma three_fields sep a b c :
  isDigit sep = false ->
  allDigits a = true -> allDigits b = true -> allDigits c = true ->
  split sep (a ++ String sep (b ++ String sep c)) = [a; b; c].
Proof.
  intros Hs Ha Hb Hc.
  rewrite split_at by (now apply digits_without).
  rewrite split_at by (now apply digits_without).
  rewrite split_without by (now apply digits_without). reflexivity.
Qed.

Lemma numbersAD_shape ys ms ds :
  digitField 4 ys -> digitField 2 ms -> digitField 2 ds ->
  numbersAD (ys ++ "-" ++ ms ++ "-" ++ ds)
  = Some (decimalValue 0 ys, decimalValue 0 ms, decimalValue 0 ds).
Proof.
  intros [Ay Ly] [Am Lm] [Ad Ld]. unfold numbersAD.
  assert (L : String.length (ys ++ "-" ++ ms ++ "-" ++ ds) = 10%nat).
  { repeat (rewrite length_app; cbn [String.length append]). lia. }
  rewrite truthy_length by lia. unfold strlen. rewrite L. simpl negb. simpl orb.
  cbv iota.
  change ("-" ++ ms ++ "-" ++ ds)%string with (String "-" (ms ++ String "-" ds)).
  rewrite three_fields by auto. simpl.
  rewrite !parseInt_digits by (auto; apply nonempty_length; lia).
  reflexivity.
Qed.

Lemma numbersThai_shape ds ms ys :
  digitField 2 ds -> digitField 2 ms -> digitField 4 ys ->
  numbersThai (ds ++ "/" ++ ms ++ "/" ++ ys)
  = Some (decimalValue 0 ys - 543, decimalValue 0 ms, decimalValue 0 ds).
Proof.
  intros [Ad Ld] [Am Lm] [Ay Ly]. unfold numbersThai.
  assert (L : String.length (ds ++ "/" ++ ms ++ "/" ++ ys) = 10%nat).
  { repeat (rewrite length_app; cbn [String.length append]). lia. }
  unfold strlen. rewrite L. simpl negb. cbv iota.
  change ("/" ++ ms ++ "/" ++ ys)%string with (String "/" (ms ++ String "/" ys)).
  rewrite three_fields by auto. simpl.
  rewrite !parseInt_digits by (auto; apply nonempty_length; lia).
  reflexivity.
Qed.

Lemma fields_of_day a b :
  Day a = Day b ->
  YearFromTime a = YearFromTime b /\ MonthFromTime a = MonthFromTime b
  /\ DateFromTime a = DateFromTime b.
Proof.
  intros E.
  unfold DateFromTime, MonthFromTime, InLeapYear, DayWithinYear, YearFromTime.
  rewrite E. auto.
Qed.

Lemma midnight_time n : MakeDate n (MakeTime 0 0 0 0) = n * msPerDay.
Proof. unfold MakeDate, MakeTime. lia. Qed.

(** on a host with a constant offset, the time values on local midnight are
    those to which the host resolves the midnight of their day *)
Lemma fixed_midnight (tza t : Z) :
  TimeWithinDay (t + tza) = 0 <-> UTC tza (Day (LocalTime tza t) * msPerDay) = t.
Proof.
  unfold UTC, LocalTime, fixedOffset, Day, TimeWithinDay, msPerDay.
  split; intros H; Z.div_mod_to_equations; lia.
Qed.

Lemma fixed_minute (tza t : Z) :
  (t + tza) mod msPerMinute = 0
  <-> UTC tza (LocalTime tza t - LocalTime tza t mod msPerMinute) = t.
Proof. unfold UTC, LocalTime, fixedOffset. lia. Qed.

Lemma newDate_instant t :
  TimeClip t = Some t ->
  UTC tz (Day (LocalTime tz t) * msPerDay) = t ->
  ~ 0 <= YearFromTime (LocalTime tz t) <= 99 ->
  newDate tz (YearFromTime (LocalTime tz t)) (MonthFromTime (LocalTime tz t))
             (DateFromTime (LocalTime tz t))
  = mkDate (Some t).
Proof.
  intros C M N. unfold newDate.
  rewrite MakeFullYear_id by exact N. rewrite <- Day_decompose.
  rewrite midnight_time, M, C. reflexivity.
Qed.

Lemma checked_instant t :
  TimeClip t = Some t ->
  UTC tz (Day (LocalTime tz t) * msPerDay) = t ->
  ~ 0 <= YearFromTime (LocalTime tz t) <= 99 ->
  (let date := newDate tz (YearFromTime (LocalTime tz t))
                       (MonthFromTime (LocalTime tz t) + 1 - 1)
                       (DateFromTime (LocalTime tz t)) in
   if sameFields tz date (YearFromTime (LocalTime tz t))
        (MonthFromTime (LocalTime tz t) + 1) (DateFromTime (LocalTime tz t))
   then Some date else None)
  = Some (mkDate (Some t)).
Proof.
  intros C M N.
  replace (MonthFromTime (LocalTime tz t) + 1 - 1)
    with (MonthFromTime (LocalTime tz t)) by lia.
  rewrite newDate_instant by assumption. cbv zeta.
  replace (sameFields tz _ _ _ _) with true; [reflexivity|].
  symmetry. apply sameFields_spec.
  unfold getFullYear, getMonth, getDate. cbn [timeValue option_map].
  repeat split; f_equal; lia.
Qed.

Lemma daysInMonth_le y m : daysInMonth y m <= 31.
Proof.
  unfold daysInMonth.
  destruct m as [|p|p]; try lia.
  do 4 (try destruct p as [p|p|]; try lia); destruct (isLeapYear y); lia.
Qed.

Lemma month_date_range t :
  0 <= MonthFromTime t <= 11 /\ 1 <= DateFromTime t <= 31.
Proof.
  pose proof (fields_real t) as [Hm Hd].
  pose proof (daysInMonth_le (YearFromTime t) (MonthFromTime t + 1)). lia.
Qed.

Lemma dec2_field n : 0 <= n <= 99 -> digitField 2 (dec2 n) /\ decimalValue 0 (dec2 n) = n.
Proof.
  intros H. destruct (isDec_elim _ _ _ (dec2_ok n H)) as (A & L & V).
  unfold digitField. auto.
Qed.

Lemma dec4_field n : 1000 <= n <= 9999 -> digitField 4 (dec n) /\ decimalValue 0 (dec n) = n.
Proof.
  intros H. destruct (isDec_elim _ _ _ (dec4_ok n H)) as (A & L & V).
  unfold digitField. auto.
Qed.

Lemma formatADDate_valid t :
  formatADDate tz (Some (mkDate (Some t)))
  = (dec (YearFromTime (LocalTime tz t)) ++ "-"
     ++ dec2 (MonthFromTime (LocalTime tz t) + 1)
     ++ "-" ++ dec2 (DateFromTime (LocalTime tz t)))%string.
Proof.
  unfold formatADDate, isNaNDate, getTime, getFullYear, getMonth, getDate,
    add, dec, dec2.
  cbn [timeValue option_map]. reflexivity.
Qed.

Lemma formatThaiDate_valid t :
  formatThaiDate tz (Some (mkDate (Some t)))
  = (dec2 (DateFromTime (LocalTime tz t)) ++ "/"
     ++ dec2 (MonthFromTime (LocalTime tz t) + 1)
     ++ "/" ++ dec (YearFromTime (LocalTime tz t) + 543))%string.
Proof.
  unfold formatThaiDate, isNaNDate, getTime, getFullYear, getMonth, getDate,
    add, dec, dec2, BE_OFFSET.
  cbn [timeValue option_map]. reflexivity.
Qed.

(** round trip of the date-only codecs on one time value *)
Lemma roundtrip_AD_date t :
  TimeClip t = Some t ->
  UTC tz (Day (LocalTime tz t) * msPerDay) = t ->
  1000 <= YearFromTime (LocalTime tz t) <= 9999 ->
  parseADDate tz (formatADDate tz (Some (mkDate (Some t)))) = Some (mkDate (Some t)).
Proof.
  intros C M R. set (l := LocalTime tz t) in *.
  pose proof (month_date_range l) as [Rm Rd].
  rewrite formatADDate_valid, parseADDate_numbers. fold l.
  destruct (dec4_field (YearFromTime l)) as [Fy Vy]; [lia|].
  destruct (dec2_field (MonthFromTime l + 1)) as [Fm Vm]; [lia|].
  destruct (dec2_field (DateFromTime l)) as [Fd Vd]; [lia|].
  rewrite numbersAD_shape by assumption. rewrite Vy, Vm, Vd.
  apply checked_instant; auto. fold l. lia.
Qed.

Lemma roundtrip_Thai_date t :
  TimeClip t = Some t ->
  UTC tz (Day (LocalTime tz t) * msPerDay) = t ->
  1000 <= YearFromTime (LocalTime tz t) + 543 <= 9999 ->
  Y - 100 <= YearFromTime (LocalTime tz t) <= Y + 100 ->
  parseThaiDate tz Y (formatThaiDate tz (Some (mkDate (Some t)))) = Some (mkDate (Some t)).
Proof.
  intros C M R W. set (l := LocalTime tz t) in *.
  pose proof (month_date_range l) as [Rm Rd].
  rewrite formatThaiDate_valid, parseThaiDate_numbers. fold l.
  destruct (dec4_field (YearFromTime l + 543)) as [Fy Vy]; [lia|].
  destruct (dec2_field (MonthFromTime l + 1)) as [Fm Vm]; [lia|].
  destruct (dec2_field (DateFromTime l)) as [Fd Vd]; [lia|].
  rewrite numbersThai_shape by assumption. rewrite Vy, Vm, Vd.
  replace (YearFromTime l + 543 - 543) with (YearFromTime l) by lia.
  replace ((MonthFromTime l + 1 <? 1) || (MonthFromTime l + 1 >? 12)) with false by lia.
  replace ((DateFromTime l <? 1) || (DateFromTime l >? 31)) with false by lia.
  replace ((YearFromTime l >? Y + 100) || (YearFromTime l <? Y - 100)) with false by lia.
  apply checked_instant; auto. fold l. lia.
Qed.

End CodecFacts.

(** * The date+time codecs *)

Section ClockFacts.

Import DateMath Js Spec.

Variable tz : TimeZone.
Variable Y : Z.

Lemma two_parts sep a b :
  contains sep a = false -> contains sep b = false ->
  split sep (a ++ String sep b) = [a; b].
Proof.
  intros Ha Hb. rewrite split_at by assumption.
  now rewrite split_without by assumption.
Qed.

Lemma withClock_shape date hs mins :
  digitField 2 hs -> digitField 2 mins ->
  withClock tz date (hs ++ ":" ++ mins)
  = if (decimalValue 0 hs <? 0) || (decimalValue 0 hs >? 23) then None else
    if (decimalValue 0 mins <? 0) || (decimalValue 0 mins >? 59) then None else
    Some (setMinutes tz (setHours tz date (decimalValue 0 hs)) (decimalValue 0 mins)).
Proof.
  intros [Ah Lh] [Am Lm]. unfold withClock.
  change (hs ++ ":" ++ mins)%string with (hs ++ String ":" mins)%string.
  rewrite two_parts by (now apply digits_without).
  cbn [nth_error parseIntU].
  rewrite !parseInt_digits by (auto; apply nonempty_length; lia).
  reflexivity.
Qed.

Lemma parseADDateTime_split dstr tstr :
  contains " " dstr = false -> contains " " tstr = false ->
  String.length dstr = 10%nat -> String.length tstr = 5%nat ->
  parseADDateTime tz (dstr ++ " " ++ tstr)
  = match parseADDate tz dstr with
    | None => None
    | Some date => withClock tz date tstr
    end.
Proof.
  intros Hd Ht Ld Lt. unfold parseADDateTime.
  assert (L : String.length (dstr ++ " " ++ tstr) = 16%nat).
  { repeat (rewrite length_app; cbn [String.length append]). lia. }
  rewrite truthy_length by lia. unfold strlen. rewrite L.
  change (negb true || negb (Z.of_nat 16 =? 16)) with false. cbv iota.
  change (dstr ++ " " ++ tstr)%string with (dstr ++ String " " tstr)%string.
  rewrite two_parts by assumption. cbn [nth_error].
  rewrite !truthy_length by lia. reflexivity.
Qed.

Lemma parseThaiDateTime_split dstr tstr :
  contains " " dstr = false -> contains " " tstr = false ->
  String.length dstr = 10%nat -> String.length tstr = 5%nat ->
  parseThaiDateTime tz Y (dstr ++ " " ++ tstr)
  = match parseThaiDate tz Y dstr with
    | None => None
    | Some date => withClock tz date tstr
    end.
Proof.
  intros Hd Ht Ld Lt. unfold parseThaiDateTime.
  assert (L : String.length (dstr ++ " " ++ tstr) = 16%nat).
  { repeat (rewrite length_app; cbn [String.length append]). lia. }
  unfold strlen. rewrite L.
  change (negb (Z.of_nat 16 =? 16)) with false. cbv iota.
  change (dstr ++ " " ++ tstr)%string with (dstr ++ String " " tstr)%string.
  rewrite two_parts by assumption. cbn [nth_error].
  rewrite !truthy_length by lia. reflexivity.
Qed.

(** setting the clock of a date that stands on a whole local hour, when
    the local hour asked for is not skipped *)
Lemma clock_set t0 h mi :
  boundedZone tz ->
  let l0 := LocalTime tz t0 in
  l0 mod msPerHour = 0 ->
  0 <= h <= 23 -> 0 <= mi <= 59 ->
  LocalTime tz (UTC tz (Day l0 * msPerDay + h * msPerHour))
  = Day l0 * msPerDay + h * msPerHour ->
  - 8640000000000000 + msPerDay <= Day l0 * msPerDay ->
  Day l0 * msPerDay + 2 * msPerDay <= 8640000000000000 ->
  setMinutes tz (setHours tz (mkDate (Some t0)) h) mi
  = mkDate (Some (UTC tz (Day l0 * msPerDay + h * msPerHour + mi * msPerMinute))).
Proof.
  intros B l0 M Hh Hm U Lo Hi.
  unfold setHours. cbn [timeValue]. fold l0.
  assert (E1 : MakeDate (Day l0)
                 (MakeTime h (MinFromTime l0) (SecFromTime l0) (msFromTime l0))
               = Day l0 * msPerDay + h * msPerHour).
  { unfold MakeDate, MakeTime, MinFromTime, SecFromTime,
      msFromTime, msPerDay, msPerHour, msPerMinute, msPerSecond in *.
    Z.div_mod_to_equations. lia. }
  rewrite E1. set (n := Day l0) in *. clearbody n.
  rewrite clip_local by (auto; unfold msPerDay, msPerHour in *; lia).
  unfold setMinutes. cbn [timeValue]. rewrite U.
  assert (E2 : MakeDate (Day (n * msPerDay + h * msPerHour))
                 (MakeTime (HourFromTime (n * msPerDay + h * msPerHour)) mi
                    (SecFromTime (n * msPerDay + h * msPerHour))
                    (msFromTime (n * msPerDay + h * msPerHour)))
               = n * msPerDay + h * msPerHour + mi * msPerMinute).
  { unfold MakeDate, MakeTime, Day, HourFromTime, SecFromTime,
      msFromTime, msPerDay, msPerHour, msPerMinute, msPerSecond in *.
    Z.div_mod_to_equations. lia. }
  rewrite E2.
  rewrite clip_local by (auto; unfold msPerDay, msPerHour, msPerMinute in *; lia).
  reflexivity.
Qed.

End ClockFacts.

Section ClockRoundTrip.

Import DateMath Js Spec.

Variable tz : TimeZone.
Variable Y : Z.

Lemma formatADDateTime_valid t :
  formatADDateTime tz (Some (mkDate (Some t)))
  = (formatADDate tz (Some (mkDate (Some t))) ++ " "
     ++ dec2 (HourFromTime (LocalTime tz t)) ++ ":"
     ++ dec2 (MinFromTime (LocalTime tz t)))%string.
Proof.
  unfold formatADDateTime, formatADDate, isNaNDate, getTime, getFullYear,
    getMonth, getDate, getHours, getMinutes, add, dec, dec2.
  cbn [timeValue option_map]. rewrite !app_assoc_s. reflexivity.
Qed.

Lemma formatThaiDateTime_valid t :
  formatThaiDateTime tz (Some (mkDate (Some t)))
  = (formatThaiDate tz (Some (mkDate (Some t))) ++ " "
     ++ dec2 (HourFromTime (LocalTime tz t)) ++ ":"
     ++ dec2 (MinFromTime (LocalTime tz t)))%string.
Proof.
  unfold formatThaiDateTime, formatThaiDate, isNaNDate, getTime, getFullYear,
    getMonth, getDate, getHours, getMinutes, add, dec, dec2.
  cbn [timeValue option_map]. rewrite !app_assoc_s. reflexivity.
Qed.

Lemma format_same_day a b :
  Day (LocalTime tz a) = Day (LocalTime tz b) ->
  formatADDate tz (Some (mkDate (Some a))) = formatADDate tz (Some (mkDate (Some b)))
  /\ formatThaiDate tz (Some (mkDate (Some a))) = formatThaiDate tz (Some (mkDate (Some b))).
Proof.
  intros E. rewrite !formatADDate_valid, !formatThaiDate_valid.
  destruct (fields_of_day _ _ E) as (-> & -> & ->). auto.
Qed.

Lemma date_string_plain sep a b c :
  isDigit sep = false -> sep <> " "%char ->
  digitField 2 a \/ digitField 4 a -> digitField 2 b ->
  digitField 2 c \/ digitField 4 c ->
  (String.length a + String.length c = 6)%nat ->
  contains " " (a ++ String sep (b ++ String sep c)) = false
  /\ String.length (a ++ String sep (b ++ String sep c)) = 10%nat.
Proof.
  intros Hs Hn Ha [Ab Lb] Hc L.
  assert (Aa : allDigits a = true) by (destruct Ha as [[? _]|[? _]]; auto).
  assert (Ac : allDigits c = true) by (destruct Hc as [[? _]|[? _]]; auto).
  split.
  - rewrite contains_app. cbn [contains]. rewrite contains_app. cbn [contains].
    rewrite !(digits_without " ") by auto.
    destruct (Ascii.eqb_spec sep " "); [contradiction | reflexivity].
  - repeat (rewrite length_app; cbn [String.length]). lia.
Qed.

Lemma clock_string_plain hs mins :
  digitField 2 hs -> digitField 2 mins ->
  contains " " (hs ++ ":" ++ mins) = false
  /\ String.length (hs ++ ":" ++ mins) = 5%nat.
Proof.
  intros [Ah Lh] [Am Lm]. split.
  - rewrite contains_app. cbn [contains append].
    rewrite !(digits_without " ") by auto. reflexivity.
  - repeat (rewrite length_app; cbn [String.length append]). lia.
Qed.

Lemma clock_range t :
  0 <= HourFromTime t <= 23 /\ 0 <= MinFromTime t <= 59.
Proof.
  unfold HourFromTime, MinFromTime.
  pose proof (Z.mod_pos_bound (t / msPerHour) 24).
  pose proof (Z.mod_pos_bound (t / msPerMinute) 60). lia.
Qed.

(** the start of the minute of a local time, from its fields *)
Lemma minute_start l :
  Day l * msPerDay + HourFromTime l * msPerHour + MinFromTime l * msPerMinute
  = l - l mod msPerMinute.
Proof.
  unfold Day, HourFromTime, MinFromTime, msPerDay, msPerHour, msPerMinute.
  Z.div_mod_to_equations. lia.
Qed.

(** the instant to which the host resolves the midnight of a day *)
Section DayStart.

Variable n : Z.
Hypothesis bounded : boundedZone tz.
Hypothesis n_year : -200000 <= YearFromTime (n * msPerDay) <= 200000.

Lemma dayStart_range :
  - 8640000000000000 + 2 * msPerDay <= n * msPerDay
  /\ n * msPerDay + 2 * msPerDay <= 8640000000000000.
Proof. pose proof (year_bound _ n_year) as B. now rewrite Day_midnight in B. Qed.

Lemma dayStart_clip : TimeClip (UTC tz (n * msPerDay)) = Some (UTC tz (n * msPerDay)).
Proof.
  destruct dayStart_range. apply clip_local; auto. unfold msPerDay in *. lia.
Qed.

(** the clock set on the start of the day, when the host shows the midnight
    of the day and the start of the hour asked for *)
Lemma dayStart_clock h mi :
  shown tz (n * msPerDay) -> shown tz (n * msPerDay + h * msPerHour) ->
  0 <= h <= 23 -> 0 <= mi <= 59 ->
  setMinutes tz (setHours tz (mkDate (Some (UTC tz (n * msPerDay)))) h) mi
  = mkDate (Some (UTC tz (n * msPerDay + h * msPerHour + mi * msPerMinute))).
Proof.
  intros S0 S1 Hh Hm. destruct dayStart_range as [Lo Hi]. unfold shown in *.
  rewrite clock_set; rewrite ?S0, ?Day_midnight; auto.
  - unfold msPerDay, msPerHour. Z.div_mod_to_equations. lia.
  - unfold msPerDay in *. lia.
Qed.

(** a local time of the day that the host shows, and its fields *)
Lemma dayStart_fields h mi :
  0 <= h <= 23 -> 0 <= mi <= 59 ->
  let l := n * msPerDay + h * msPerHour + mi * msPerMinute in
  TimeClip (UTC tz l) = Some (UTC tz l)
  /\ Day l = n /\ HourFromTime l = h /\ MinFromTime l = mi
  /\ l mod msPerMinute = 0.
Proof.
  intros Hh Hm l. destruct dayStart_range as [Lo Hi].
  split.
  - apply clip_local; auto. unfold l, msPerDay, msPerHour, msPerMinute in *. lia.
  - unfold l, Day, HourFromTime, MinFromTime, msPerDay, msPerHour, msPerMinute.
    repeat split; Z.div_mod_to_equations; lia.
Qed.

End DayStart.

(** the local times of a day of which the host skips none *)
Lemma unskipped_shown n h mi :
  unskippedDay tz n -> 0 <= h <= 23 -> 0 <= mi <= 59 ->
  shown tz (n * msPerDay) /\ shown tz (n * msPerDay + h * msPerHour)
  /\ shown tz (n * msPerDay + h * msPerHour + mi * msPerMinute).
Proof.
  intros U Hh Hm. repeat split; apply U;
    unfold Day, msPerDay, msPerHour, msPerMinute; Z.div_mod_to_equations; lia.
Qed.

Lemma year_of_day l :
  YearFromTime (Day l * msPerDay) = YearFromTime l.
Proof. unfold YearFromTime. now rewrite Day_midnight. Qed.

Lemma roundtrip_AD_datetime t :
  boundedZone tz ->
  TimeClip t = Some t ->
  UTC tz (LocalTime tz t - LocalTime tz t mod msPerMinute) = t ->
  shown tz (Day (LocalTime tz t) * msPerDay) ->
  shown tz (Day (LocalTime tz t) * msPerDay + HourFromTime (LocalTime tz t) * msPerHour) ->
  1000 <= YearFromTime (LocalTime tz t) <= 9999 ->
  parseADDateTime tz (formatADDateTime tz (Some (mkDate (Some t)))) = Some (mkDate (Some t)).
Proof.
  intros B C M S0 S1 R. set (l := LocalTime tz t) in *. set (n := Day l) in *.
  assert (Ny : -200000 <= YearFromTime (n * msPerDay) <= 200000)
    by (unfold n; rewrite year_of_day; lia).
  pose proof S0 as L0. unfold shown in L0.
  pose proof (dayStart_clip n B Ny) as C0.
  set (t0 := UTC tz (n * msPerDay)) in *.
  assert (ED : Day (LocalTime tz t) = Day (LocalTime tz t0))
    by (rewrite L0, Day_midnight; reflexivity).
  destruct (fields_of_day _ _ ED) as (EY & _ & _). fold l in EY.
  pose proof (month_date_range (LocalTime tz t0)) as [Rm Rd].
  pose proof (clock_range l) as [Rh Rn].
  rewrite formatADDateTime_valid. fold l.
  destruct (format_same_day t t0 ED) as [-> _].
  destruct (dec4_field (YearFromTime (LocalTime tz t0))) as [Fy Vy]; [lia|].
  destruct (dec2_field (MonthFromTime (LocalTime tz t0) + 1)) as [Fm Vm]; [lia|].
  destruct (dec2_field (DateFromTime (LocalTime tz t0))) as [Fd Vd]; [lia|].
  destruct (dec2_field (HourFromTime l)) as [Fh Vh]; [lia|].
  destruct (dec2_field (MinFromTime l)) as [Fn Vn]; [lia|].
  destruct (clock_string_plain _ _ Fh Fn) as [Pc Lc].
  assert (P : contains " " (formatADDate tz (Some (mkDate (Some t0)))) = false
              /\ String.length (formatADDate tz (Some (mkDate (Some t0)))) = 10%nat).
  { rewrite formatADDate_valid. apply date_string_plain; auto; try discriminate.
    destruct Fy as [_ ->], Fd as [_ ->]. reflexivity. }
  destruct P as [Pd Ld].
  rewrite parseADDateTime_split by assumption.
  rewrite roundtrip_AD_date
    by (auto; try lia; rewrite L0, Day_midnight; reflexivity).
  rewrite withClock_shape by assumption. rewrite Vh, Vn.
  replace ((HourFromTime l <? 0) || (HourFromTime l >? 23)) with false by lia.
  replace ((MinFromTime l <? 0) || (MinFromTime l >? 59)) with false by lia.
  unfold t0. rewrite dayStart_clock by (auto; lia).
  unfold n. now rewrite minute_start, M.
Qed.

Lemma roundtrip_Thai_datetime t :
  boundedZone tz ->
  TimeClip t = Some t ->
  UTC tz (LocalTime tz t - LocalTime tz t mod msPerMinute) = t ->
  shown tz (Day (LocalTime tz t) * msPerDay) ->
  shown tz (Day (LocalTime tz t) * msPerDay + HourFromTime (LocalTime tz t) * msPerHour) ->
  1000 <= YearFromTime (LocalTime tz t) + 543 <= 9999 ->
  Y - 100 <= YearFromTime (LocalTime tz t) <= Y + 100 ->
  parseThaiDateTime tz Y (formatThaiDateTime tz (Some (mkDate (Some t))))
  = Some (mkDate (Some t)).
Proof.
  intros B C M S0 S1 R W. set (l := LocalTime tz t) in *. set (n := Day l) in *.
  assert (Ny : -200000 <= YearFromTime (n * msPerDay) <= 200000)
    by (unfold n; rewrite year_of_day; lia).
  pose proof S0 as L0. unfold shown in L0.
  pose proof (dayStart_clip n B Ny) as C0.
  set (t0 := UTC tz (n * msPerDay)) in *.
  assert (ED : Day (LocalTime tz t) = Day (LocalTime tz t0))
    by (rewrite L0, Day_midnight; reflexivity).
  destruct (fields_of_day _ _ ED) as (EY & _ & _). fold l in EY.
  pose proof (month_date_range (LocalTime tz t0)) as [Rm Rd].
  pose proof (clock_range l) as [Rh Rn].
  rewrite formatThaiDateTime_valid. fold l.
  destruct (format_same_day t t0 ED) as [_ ->].
  destruct (dec4_field (YearFromTime (LocalTime tz t0) + 543)) as [Fy Vy]; [lia|].
  destruct (dec2_field (MonthFromTime (LocalTime tz t0) + 1)) as [Fm Vm]; [lia|].
  destruct (dec2_field (DateFromTime (LocalTime tz t0))) as [Fd Vd]; [lia|].
  destruct (dec2_field (HourFromTime l)) as [Fh Vh]; [lia|].
  destruct (dec2_field (MinFromTime l)) as [Fn Vn]; [lia|].
  destruct (clock_string_plain _ _ Fh Fn) as [Pc Lc].
  assert (P : contains " " (formatThaiDate tz (Some (mkDate (Some t0)))) = false
              /\ String.length (formatThaiDate tz (Some (mkDate (Some t0)))) = 10%nat).
  { rewrite formatThaiDate_valid. apply date_string_plain; auto; try discriminate.
    destruct Fy as [_ ->], Fd as [_ ->]. reflexivity. }
  destruct P as [Pd Ld].
  rewrite parseThaiDateTime_split by assumption.
  rewrite roundtrip_Thai_date
    by (auto; try lia; rewrite L0, Day_midnight; reflexivity).
  rewrite withClock_shape by assumption. rewrite Vh, Vn.
  replace ((HourFromTime l <? 0) || (HourFromTime l >? 23)) with false by lia.
  replace ((MinFromTime l <? 0) || (MinFromTime l >? 59)) with false by lia.
  unfold t0. rewrite dayStart_clock by (auto; lia).
  unfold n. now rewrite minute_start, M.
Qed.

End ClockRoundTrip.

(** * What the parsers return *)

Section ParserResults.

Import DateMath Js Spec.

Variable tz : TimeZone.

Lemma newDate_value y m d t :
  newDate tz y m d = mkDate (Some t) ->
  t = UTC tz (MakeDay (MakeFullYear y) m d * msPerDay).
Proof.
  unfold newDate. rewrite midnight_time. intros H. injection H as H.
  now apply TimeClip_inv in H.
Qed.

(** the date the host builds for a real date of a moderate year, not in
    0..99, on a day it keeps *)
Lemma newDate_day y m d :
  boundedZone tz ->
  realDate y m d -> ~ 0 <= y <= 99 -> -200000 <= y <= 200000 ->
  keepsDay tz (MakeDay y (m - 1) d) ->
  let t := UTC tz (MakeDay y (m - 1) d * msPerDay) in
  newDate tz y (m - 1) d = mkDate (Some t)
  /\ Day (LocalTime tz t) = MakeDay y (m - 1) d
  /\ YearFromTime (LocalTime tz t) = y /\ MonthFromTime (LocalTime tz t) = m - 1
  /\ DateFromTime (LocalTime tz t) = d.
Proof.
  intros Bz R N B K. cbv zeta.
  set (n := MakeDay y (m - 1) d) in *.
  destruct (civil_fields (n * msPerDay) y m d R (Day_midnight n)) as (Ey & Em & Ed).
  pose proof (year_bound (n * msPerDay)) as Bn. rewrite Ey, Day_midnight in Bn.
  specialize (Bn B).
  split; [|split; [exact K|]].
  - unfold newDate. rewrite MakeFullYear_id by assumption. fold n.
    rewrite midnight_time, clip_local; auto. unfold msPerDay in *. lia.
  - unfold keepsDay in K. fold n in K. rewrite <- (Day_midnight n) in K at 2.
    destruct (fields_of_day _ _ K) as (-> & -> & ->). auto.
Qed.

Lemma sameFields_local date y m d :
  sameFields tz date y m d = true ->
  exists t, date = mkDate (Some t) /\ YearFromTime (LocalTime tz t) = y
            /\ MonthFromTime (LocalTime tz t) = m - 1
            /\ DateFromTime (LocalTime tz t) = d.
Proof.
  rewrite sameFields_spec. destruct date as [[t|]];
    unfold getFullYear, getMonth, getDate; cbn [timeValue option_map];
    [|intros [? _]; discriminate].
  intros (Hy & Hm & Hd). exists t. repeat split; congruence.
Qed.

Lemma withClock_inv date ts x :
  withClock tz date ts = Some x ->
  exists h mi, 0 <= h <= 23 /\ 0 <= mi <= 59
               /\ x = setMinutes tz (setHours tz date h) mi.
Proof.
  unfold withClock.
  destruct (parseIntU (nth_error (split ":" ts) 0)) as [h|]; [|discriminate].
  destruct (parseIntU (nth_error (split ":" ts) 1)) as [mi|]; [|discriminate].
  destruct ((h <? 0) || (h >? 23)) eqn:Eh; [discriminate|].
  destruct ((mi <? 0) || (mi >? 59)) eqn:Em; [discriminate|].
  intros H. injection H as <-. exists h, mi. repeat split; lia.
Qed.

Lemma sameFields_day y m d :
  boundedZone tz ->
  realDate y m d -> ~ 0 <= y <= 99 -> -200000 <= y <= 200000 ->
  keepsDay tz (MakeDay y (m - 1) d) ->
  sameFields tz (newDate tz y (m - 1) d) y m d = true.
Proof.
  intros Bz R N B K.
  destruct (newDate_day y m d Bz R N B K) as (-> & _ & Ey & Em & Ed).
  apply sameFields_spec.
  unfold getFullYear, getMonth, getDate. cbn [timeValue option_map].
  repeat split; congruence.
Qed.

End ParserResults.

Section ParserFacts.

Import DateMath Js Spec.

Variable tz : Z.

Lemma newDate_midnight y m d t :
  newDate tz y m d = mkDate (Some t) ->
  TimeWithinDay (t + tz) = 0 /\ Day (t + tz) = MakeDay (MakeFullYear y) m d.
Proof.
  unfold newDate. intros H. injection H as H. apply TimeClip_inv in H. subst t.
  unfold UTC, fixedOffset, MakeDate, MakeTime, TimeWithinDay, Day, msPerDay.
  generalize (MakeDay (MakeFullYear y) m d). intros n.
  split; Z.div_mod_to_equations; lia.
Qed.

Lemma newDate_real y m d :
  - msPerDay <= tz <= msPerDay ->
  realDate y m d -> ~ 0 <= y <= 99 -> -200000 <= y <= 200000 ->
  exists t, newDate tz y (m - 1) d = mkDate (Some t)
            /\ TimeWithinDay (t + tz) = 0
            /\ YearFromTime (t + tz) = y /\ MonthFromTime (t + tz) = m - 1
            /\ DateFromTime (t + tz) = d.
Proof.
  intros Tz R N B.
  set (n := MakeDay y (m - 1) d).
  assert (Dn : Day (n * msPerDay) = n).
  { unfold Day. apply Z.div_mul. discriminate. }
  destruct (civil_fields (n * msPerDay) y m d R Dn) as (Ey & Em & Ed).
  pose proof (year_bound (n * msPerDay)) as Bn. rewrite Ey, Dn in Bn.
  specialize (Bn B).
  exists (n * msPerDay - tz).
  replace (n * msPerDay - tz + tz) with (n * msPerDay) by lia.
  repeat split; auto.
  - unfold newDate. rewrite MakeFullYear_id by assumption. fold n.
    replace (UTC tz (MakeDate n (MakeTime 0 0 0 0))) with (n * msPerDay - tz)
      by (unfold UTC, fixedOffset, MakeDate, MakeTime; lia).
    rewrite TimeClip_Some; [reflexivity|]. unfold msPerDay in *. lia.
  - unfold TimeWithinDay. apply Z.mod_mul. discriminate.
Qed.

Lemma sameFields_valid date y m d :
  sameFields tz date y m d = true ->
  exists t, date = mkDate (Some t) /\ YearFromTime (t + tz) = y
            /\ MonthFromTime (t + tz) = m - 1 /\ DateFromTime (t + tz) = d.
Proof.
  rewrite sameFields_spec. destruct date as [[t|]];
    unfold getFullYear, getMonth, getDate, LocalTime, fixedOffset; cbn [timeValue option_map];
    [|intros [? _]; discriminate].
  intros (Hy & Hm & Hd). exists t. repeat split; congruence.
Qed.

Lemma clock_fields t0 h mi :
  TimeWithinDay (t0 + tz) = 0 ->
  0 <= h <= 23 -> 0 <= mi <= 59 ->
  let t := t0 + h * msPerHour + mi * msPerMinute in
  Day (t + tz) = Day (t0 + tz) /\ HourFromTime (t + tz) = h
  /\ MinFromTime (t + tz) = mi.
Proof.
  intros M Hh Hm. cbv zeta.
  unfold Day, HourFromTime, MinFromTime, TimeWithinDay, msPerDay, msPerHour,
    msPerMinute in *.
  repeat split; Z.div_mod_to_equations; lia.
Qed.

Lemma sameFields_intro t y m d :
  YearFromTime (t + tz) = y -> MonthFromTime (t + tz) = m - 1 ->
  DateFromTime (t + tz) = d ->
  sameFields tz (mkDate (Some t)) y m d = true.
Proof.
  intros Hy Hm Hd. apply sameFields_spec.
  unfold getFullYear, getMonth, getDate, LocalTime, fixedOffset. cbn [timeValue option_map].
  repeat split; congruence.
Qed.

(** a real date of a moderate year, not in 0..99, passes the check *)
Lemma sameFields_newDate y m d :
  - msPerDay <= tz <= msPerDay ->
  realDate y m d -> ~ 0 <= y <= 99 -> -200000 <= y <= 200000 ->
  sameFields tz (newDate tz y (m - 1) d) y m d = true.
Proof.
  intros Tz R N B.
  destruct (newDate_real y m d Tz R N B) as (t & -> & _ & Ey & Em & Ed).
  now apply sameFields_intro.
Qed.

End ParserFacts.

(** * The input mask *)

Section MaskFacts.

Import Js Spec.

Lemma stripNonDigits_digits s : allDigits (stripNonDigits s) = true.
Proof.
  induction s as [|c r IH]; simpl; [reflexivity|].
  destruct (isDigit c) eqn:E; simpl; [now rewrite E|assumption].
Qed.

Lemma stripNonDigits_id s : allDigits s = true -> stripNonDigits s = s.
Proof.
  induction s as [|c r IH]; simpl; [reflexivity|].
  intros H. apply andb_true_iff in H as [-> H]. now rewrite IH.
Qed.

Lemma stripNonDigits_app a b :
  stripNonDigits (a ++ b) = (stripNonDigits a ++ stripNonDigits b)%string.
Proof.
  induction a as [|c r IH]; simpl; [reflexivity|].
  destruct (isDigit c); simpl; now rewrite IH.
Qed.

Lemma stripNonDigits_list s :
  list_ascii_of_string (stripNonDigits s) = filter isDigit (list_ascii_of_string s).
Proof.
  induction s as [|c r IH]; simpl; [reflexivity|].
  destruct (isDigit c); simpl; now rewrite IH.
Qed.

Lemma prefix_list n s :
  list_ascii_of_string (substring 0 n s) = firstn n (list_ascii_of_string s).
Proof.
  revert s. induction n as [|n IH]; intros [|c r]; simpl; try reflexivity.
  now rewrite IH.
Qed.

Lemma prefix_length n s : (String.length (substring 0 n s) <= n)%nat.
Proof.
  revert s. induction n as [|n IH]; intros [|c r]; simpl; try lia.
  specialize (IH r). lia.
Qed.

Lemma prefix_digits n s : allDigits s = true -> allDigits (substring 0 n s) = true.
Proof.
  revert s. induction n as [|n IH]; intros [|c r]; simpl; try reflexivity.
  intros H. apply andb_true_iff in H as [-> H]. now apply IH.
Qed.

Lemma length_list s : List.length (list_ascii_of_string s) = String.length s.
Proof. induction s; simpl; congruence. Qed.

Lemma maskRaw_list p s :
  list_ascii_of_string (maskRaw p s) = rawDigits (withTime p) s.
Proof.
  unfold maskRaw, rawDigits, maxDigits, slice.
  set (n := if withTime p then 12%nat else 8%nat).
  rewrite Nat.sub_0_r.
  destruct (Nat.ltb_spec n (String.length (stripNonDigits s))).
  - now rewrite prefix_list, stripNonDigits_list.
  - rewrite <- stripNonDigits_list, firstn_all2; [reflexivity|].
    rewrite length_list. lia.
Qed.

Lemma maskRaw_digits p s : allDigits (maskRaw p s) = true.
Proof.
  unfold maskRaw, slice.
  destruct (_ <? _)%nat; [apply prefix_digits|]; apply stripNonDigits_digits.
Qed.

Lemma maskRaw_length p s :
  (String.length (maskRaw p s) <= maxDigits (withTime p))%nat.
Proof.
  unfold maskRaw, slice, maxDigits.
  set (n := if withTime p then 12%nat else 8%nat).
  destruct (Nat.ltb_spec n (String.length (stripNonDigits s))); [|assumption].
  rewrite Nat.sub_0_r. apply prefix_length.
Qed.

Lemma maskFormat_punctuate v w raw :
  (String.length raw <= maxDigits w)%nat ->
  maskFormat (mkProps v w) raw = punctuate w 0 (list_ascii_of_string raw).
Proof.
  intros L. destruct w; cbn [maxDigits] in L.
  - do 13 (destruct raw as [|?c raw]; [reflexivity|]). cbn [String.length] in L. lia.
  - do 9 (destruct raw as [|?c raw]; [reflexivity|]). cbn [String.length] in L. lia.
Qed.

Lemma strip_separator w i : stripNonDigits (separatorBefore w i) = "".
Proof.
  do 11 (destruct i as [|i]; [destruct w; reflexivity|]). reflexivity.
Qed.

Lemma strip_punctuate w l : forall i,
  forallb isDigit l = true ->
  stripNonDigits (punctuate w i l) = string_of_list_ascii l.
Proof.
  induction l as [|c r IH]; intros i H; [reflexivity|].
  cbn [forallb] in H. apply andb_true_iff in H as [Hc Hr].
  cbn [punctuate string_of_list_ascii].
  rewrite stripNonDigits_app, strip_separator. cbn [append stripNonDigits].
  now rewrite Hc, IH.
Qed.

Lemma digits_list s : allDigits s = true -> forallb isDigit (list_ascii_of_string s) = true.
Proof.
  induction s as [|c r IH]; simpl; [reflexivity|].
  intros H. apply andb_true_iff in H as [-> H]. now rewrite IH.
Qed.

Lemma strip_maskFormat v w raw :
  allDigits raw = true -> (String.length raw <= maxDigits w)%nat ->
  stripNonDigits (maskFormat (mkProps v w) raw) = raw.
Proof.
  intros A L. rewrite maskFormat_punctuate by assumption.
  rewrite strip_punctuate by (now apply digits_list).
  apply string_of_list_ascii_of_string.
Qed.

Lemma maskRaw_fixed v w raw :
  allDigits raw = true -> (String.length raw <= maxDigits w)%nat ->
  maskRaw (mkProps v w) (maskFormat (mkProps v w) raw) = raw.
Proof.
  intros A L. unfold maskRaw. rewrite strip_maskFormat by assumption.
  cbn [withTime]. fold (maxDigits w).
  destruct (Nat.ltb_spec (maxDigits w) (String.length raw)); [lia | reflexivity].
Qed.

End MaskFacts.

(** * The properties of the specification *)

Section Claims.

Import DateMath Js Spec.

(** C1, as stated, fails by design: the display parser refuses a year
    outside its window.  With the current year 2026, the real date
    1 January 1900 (held in a [Date], UTC+7) is written by [formatThaiDate]
    as [01/01/2443], which [parseThaiDate] refuses. *)
Lemma C1_roundtrip_counterexample :
  let tz : Z := 25200000 in
  let x := newDate tz 1900 0 1 in
  dateInstant tz x
  /\ getFullYear tz x = Some 1900 /\ getMonth tz x = Some 0 /\ getDate tz x = Some 1
  /\ formatThaiDate tz (Some x) = "01/01/2443"
  /\ parseThaiDate tz 2026 (formatThaiDate tz (Some x)) = None
  /\ parseThaiDate tz 2026 (formatThaiDate tz (Some x)) <> Some x.
Proof.
  cbv zeta. split; [|vm_compute; repeat split; discriminate].
  exists (-2209014000000). vm_compute. auto.
Qed.

(** C1 (amended), for any host zone.  A CanonicalInstant whose year is
    written with four digits (1000..9999) is returned unchanged by
    [parseADDate] after [formatADDate]; one whose Buddhist-Era year is
    written with four digits and whose year lies within 100 years of the
    current year is returned unchanged by [parseThaiDate] after
    [formatThaiDate].  The same holds for [parseADDateTime] after
    [formatADDateTime] and for [parseThaiDateTime] after
    [formatThaiDateTime] when the host shows the local midnight of the day
    of the instant and the start of its local hour (no clock change skips
    them).  Years written with fewer than four digits are left out. *)
Theorem C1_roundtrip (tz : TimeZone) (Y t : Z) :
  boundedZone tz ->
  let x := mkDate (Some t) in
  let y := YearFromTime (LocalTime tz t) in
  let dayStart := Day (LocalTime tz t) * msPerDay in
  let hourStart := dayStart + HourFromTime (LocalTime tz t) * msPerHour in
  (dateInstant tz x -> 1000 <= y <= 9999 ->
   parseADDate tz (formatADDate tz (Some x)) = Some x)
  /\ (dateTimeInstant tz x -> shown tz dayStart -> shown tz hourStart ->
      1000 <= y <= 9999 ->
      parseADDateTime tz (formatADDateTime tz (Some x)) = Some x)
  /\ (dateInstant tz x -> 1000 <= y + 543 <= 9999 -> Y - 100 <= y <= Y + 100 ->
      parseThaiDate tz Y (formatThaiDate tz (Some x)) = Some x)
  /\ (dateTimeInstant tz x -> shown tz dayStart -> shown tz hourStart ->
      1000 <= y + 543 <= 9999 -> Y - 100 <= y <= Y + 100 ->
      parseThaiDateTime tz Y (formatThaiDateTime tz (Some x)) = Some x).
Proof.
  intros B x y dayStart hourStart. unfold x, y, dayStart, hourStart. repeat split.
  - intros (t' & E & C & M) R. injection E as <-.
    now apply roundtrip_AD_date.
  - intros (t' & E & C & M) S0 S1 R. injection E as <-.
    now apply roundtrip_AD_datetime.
  - intros (t' & E & C & M) R W. injection E as <-.
    now apply roundtrip_Thai_date.
  - intros (t' & E & C & M) S0 S1 R W. injection E as <-.
    now apply roundtrip_Thai_datetime.
Qed.

(** 18 February 2026 in Bangkok, and 03:30 of 8 March 2026 in New York, the
    day on which the local times from 02:00 to 03:00 are skipped *)
Lemma C1_roundtrip_witness :
  let bkk : Z := 25200000 in
  let x0 := mkDate (Some 1771347600000) in
  let x := mkDate (Some 1772955000000) in
  parseADDate bkk (formatADDate bkk (Some x0)) = Some x0
  /\ parseThaiDate bkk 2026 (formatThaiDate bkk (Some x0)) = Some x0
  /\ parseADDateTime newYork2026 (formatADDateTime newYork2026 (Some x)) = Some x
  /\ parseThaiDateTime newYork2026 2026 (formatThaiDateTime newYork2026 (Some x))
     = Some x.
Proof.
  cbv zeta.
  assert (Tz : boundedZone (fixedOffset 25200000))
    by (apply fixed_bounded; unfold msPerDay; lia).
  pose proof newYork_bounded as Ny.
  assert (I0 : dateInstant 25200000 (mkDate (Some 1771347600000))).
  { exists 1771347600000. repeat split; reflexivity. }
  assert (I1 : dateTimeInstant newYork2026 (mkDate (Some 1772955000000))).
  { exists 1772955000000. repeat split; reflexivity. }
  pose proof (C1_roundtrip 25200000 2026 1771347600000 Tz) as (A & _ & B & _).
  pose proof (C1_roundtrip newYork2026 2026 1772955000000 Ny) as (_ & C & _ & D).
  split; [apply A; [exact I0 | vm_compute; split; discriminate]|].
  split; [apply B; [exact I0 | |]; vm_compute; split; discriminate|].
  split; [apply C; [exact I1 | reflexivity | reflexivity
                    | vm_compute; split; discriminate]|].
  apply D; [exact I1 | reflexivity | reflexivity | |];
    vm_compute; split; discriminate.
Defined.

Lemma parseADDate_real tz s y m d :
  numbersAD s = Some (y, m, d) -> ~ realDate y m d -> parseADDate tz s = None.
Proof.
  intros N R. rewrite parseADDate_numbers, N. cbv zeta.
  destruct (sameFields tz (newDate tz y (m - 1) d) y m d) eqn:E; [|reflexivity].
  elim R. eapply sameFields_real. exact E.
Qed.

Lemma parseThaiDate_real tz Y s y m d :
  numbersThai s = Some (y, m, d) -> ~ realDate y m d -> parseThaiDate tz Y s = None.
Proof.
  intros N R. rewrite parseThaiDate_numbers, N.
  destruct (_ || _); [reflexivity|]. destruct (_ || _); [reflexivity|].
  destruct (_ || _); [reflexivity|]. cbv zeta.
  destruct (sameFields tz (newDate tz y (m - 1) d) y m d) eqn:E; [|reflexivity].
  elim R. eapply sameFields_real. exact E.
Qed.

(** C2: a date string that reads as three numbers which do not denote a
    real Gregorian date is refused by [parseADDate] and by [parseThaiDate],
    and so is a date+time string whose date segment is such a string; in
    particular [2025-02-30] and [30/02/2568] are refused. *)
Theorem C2_existence_rejection (tz Y : Z) :
  (forall s y m d, numbersAD s = Some (y, m, d) -> ~ realDate y m d ->
     parseADDate tz s = None)
  /\ (forall s y m d, numbersThai s = Some (y, m, d) -> ~ realDate y m d ->
        parseThaiDate tz Y s = None)
  /\ (forall s ds y m d, dateSegment s = Some ds ->
        numbersAD ds = Some (y, m, d) -> ~ realDate y m d ->
        parseADDateTime tz s = None)
  /\ (forall s ds y m d, dateSegment s = Some ds ->
        numbersThai ds = Some (y, m, d) -> ~ realDate y m d ->
        parseThaiDateTime tz Y s = None)
  /\ parseADDate tz "2025-02-30" = None
  /\ parseThaiDate tz Y "30/02/2568" = None.
Proof.
  repeat split.
  - intros s y m d. apply parseADDate_real.
  - intros s y m d. apply parseThaiDate_real.
  - intros s ds y m d S N R. unfold parseADDateTime.
    destruct (_ || _); [reflexivity|].
    unfold dateSegment in S. rewrite S.
    destruct (nth_error (split " " s) 1); [|reflexivity].
    destruct (_ || _); [reflexivity|].
    now rewrite (parseADDate_real tz ds y m d N R).
  - intros s ds y m d S N R. unfold parseThaiDateTime.
    destruct (negb _); [reflexivity|].
    unfold dateSegment in S. rewrite S.
    destruct (nth_error (split " " s) 1); [|reflexivity].
    destruct (_ || _); [reflexivity|].
    now rewrite (parseThaiDate_real tz Y ds y m d N R).
  - apply (parseADDate_real tz "2025-02-30" 2025 2 30); [reflexivity|].
    unfold realDate. cbn. lia.
  - apply (parseThaiDate_real tz Y "30/02/2568" 2025 2 30); [reflexivity|].
    unfold realDate. cbn. lia.
Qed.

Lemma C2_existence_rejection_witness :
  parseADDate 25200000 "2025-04-31" = None
  /\ parseThaiDateTime 25200000 2026 "31/04/2568 10:30" = None.
Proof.
  destruct (C2_existence_rejection 25200000 2026) as (A & _ & _ & D & _).
  split.
  - apply (A "2025-04-31" 2025 4 31); [reflexivity|].
    unfold realDate. cbn. lia.
  - apply (D "31/04/2568 10:30" "31/04/2568" 2025 4 31); [reflexivity|reflexivity|].
    unfold realDate. cbn. lia.
Defined.

Lemma window_outside Y y :
  (y >? Y + 100) || (y <? Y - 100) = true <-> y < Y - 100 \/ Y + 100 < y.
Proof. lia. Qed.

(** what the parsers do with a string of the shape of their format that
    writes a real date *)
Lemma realDate_range y m d : realDate y m d -> 1 <= m <= 12 /\ 1 <= d <= 31.
Proof. intros [Hm Hd]. pose proof (daysInMonth_le y m). lia. Qed.

Lemma parseThaiDate_shaped (tz : TimeZone) Y ds ms bs :
  digitField 2 ds -> digitField 2 ms -> digitField 4 bs ->
  let y := decimalValue 0 bs - 543 in
  let m := decimalValue 0 ms in
  let d := decimalValue 0 ds in
  boundedZone tz -> realDate y m d -> ~ 0 <= y <= 99 ->
  keepsDay tz (MakeDay y (m - 1) d) ->
  parseThaiDate tz Y (ds ++ "/" ++ ms ++ "/" ++ bs)
  = if (y >? Y + 100) || (y <? Y - 100) then None else Some (newDate tz y (m - 1) d).
Proof.
  intros Fd Fm Fb y m d B R N K.
  rewrite parseThaiDate_numbers, numbersThai_shape by assumption. fold y m d.
  destruct (realDate_range _ _ _ R).
  replace ((m <? 1) || (m >? 12)) with false by lia.
  replace ((d <? 1) || (d >? 31)) with false by lia.
  destruct (_ || _); [reflexivity|]. cbv zeta.
  rewrite sameFields_day; auto.
  pose proof (decimalValue_range bs (proj1 Fb)) as V. rewrite (proj2 Fb) in V.
  change (10 ^ Z.of_nat 4) with 10000 in V. unfold y. lia.
Qed.

Lemma parseADDate_shaped (tz : TimeZone) ys ms ds :
  digitField 4 ys -> digitField 2 ms -> digitField 2 ds ->
  let y := decimalValue 0 ys in
  let m := decimalValue 0 ms in
  let d := decimalValue 0 ds in
  boundedZone tz -> realDate y m d -> ~ 0 <= y <= 99 ->
  keepsDay tz (MakeDay y (m - 1) d) ->
  parseADDate tz (ys ++ "-" ++ ms ++ "-" ++ ds) = Some (newDate tz y (m - 1) d).
Proof.
  intros Fy Fm Fd y m d B R N K.
  rewrite parseADDate_numbers, numbersAD_shape by assumption. fold y m d. cbv zeta.
  rewrite sameFields_day; auto.
  pose proof (decimalValue_range ys (proj1 Fy)) as V. rewrite (proj2 Fy) in V.
  change (10 ^ Z.of_nat 4) with 10000 in V. unfold y. lia.
Qed.

Lemma parseThaiDateTime_shaped (tz : TimeZone) Y ds ms bs hs mins :
  digitField 2 ds -> digitField 2 ms -> digitField 4 bs ->
  digitField 2 hs -> digitField 2 mins ->
  decimalValue 0 hs <= 23 -> decimalValue 0 mins <= 59 ->
  parseThaiDateTime tz Y ((ds ++ "/" ++ ms ++ "/" ++ bs) ++ " " ++ hs ++ ":" ++ mins)
  = match parseThaiDate tz Y (ds ++ "/" ++ ms ++ "/" ++ bs) with
    | None => None
    | Some date =>
        Some (setMinutes tz (setHours tz date (decimalValue 0 hs)) (decimalValue 0 mins))
    end.
Proof.
  intros Fd Fm Fb Fh Fn Rh Rn.
  destruct (clock_string_plain _ _ Fh Fn) as [Pc Lc].
  assert (P : contains " " (ds ++ "/" ++ ms ++ "/" ++ bs) = false
              /\ String.length (ds ++ "/" ++ ms ++ "/" ++ bs) = 10%nat).
  { apply date_string_plain; auto; try discriminate.
    destruct Fd as [_ ->], Fb as [_ ->]. reflexivity. }
  destruct P as [Pd Ld].
  rewrite parseThaiDateTime_split by assumption.
  destruct (parseThaiDate tz Y _); [|reflexivity].
  rewrite withClock_shape by assumption.
  pose proof (decimalValue_range hs (proj1 Fh)).
  pose proof (decimalValue_range mins (proj1 Fn)).
  replace ((decimalValue 0 hs <? 0) || (decimalValue 0 hs >? 23)) with false by lia.
  replace ((decimalValue 0 mins <? 0) || (decimalValue 0 mins >? 59)) with false by lia.
  reflexivity.
Qed.

Lemma new_year_fields y :
  1000 <= y <= 9999 ->
  digitField 4 (dec y) /\ decimalValue 0 (dec y) = y
  /\ digitField 2 "01" /\ decimalValue 0 "01" = 1 /\ realDate y 1 1.
Proof.
  intros R. destruct (dec4_field y R) as [F V].
  split; [exact F|]. split; [exact V|]. split; [split; reflexivity|].
  split; [reflexivity|]. unfold realDate. cbn. lia.
Qed.

(** C3, for any host zone that keeps its local days and any current year
    [Y] from 200 on.  A display string [DD/MM/BBBB] of digit fields that
    writes a real date of the year [y = BBBB - 543] is refused by
    [parseThaiDate] exactly when [y] lies outside [Y - 100 .. Y + 100];
    inside the window it parses to a date with that year, month and day.
    With a time [HH:mm] in range appended, [parseThaiDateTime] refuses it
    exactly when [y] lies outside the window.  [parseADDate], which does not
    read the current year, accepts the canonical string of every real date
    from the year 100 on.  In particular 1 January of the year [Y + 100]
    parses and of the year [Y + 101] does not, while [parseADDate] parses
    1 January of the year [Y + 101]. *)
Theorem C3_plausibility_window (tz : TimeZone) (Y : Z) :
  boundedZone tz -> (forall n, keepsDay tz n) -> 200 <= Y ->
  (forall ds ms bs,
     digitField 2 ds -> digitField 2 ms -> digitField 4 bs ->
     let y := decimalValue 0 bs - 543 in
     let m := decimalValue 0 ms in
     let d := decimalValue 0 ds in
     let s := (ds ++ "/" ++ ms ++ "/" ++ bs)%string in
     realDate y m d ->
     (parseThaiDate tz Y s = None <-> y < Y - 100 \/ Y + 100 < y)
     /\ (Y - 100 <= y <= Y + 100 ->
         exists x, parseThaiDate tz Y s = Some x
                   /\ getFullYear tz x = Some y /\ getMonth tz x = Some (m - 1)
                   /\ getDate tz x = Some d)
     /\ (forall hs mins,
           digitField 2 hs -> digitField 2 mins ->
           decimalValue 0 hs <= 23 -> decimalValue 0 mins <= 59 ->
           (parseThaiDateTime tz Y (s ++ " " ++ hs ++ ":" ++ mins) = None
            <-> y < Y - 100 \/ Y + 100 < y)))
  /\ (forall ys ms ds,
        digitField 4 ys -> digitField 2 ms -> digitField 2 ds ->
        realDate (decimalValue 0 ys) (decimalValue 0 ms) (decimalValue 0 ds) ->
        100 <= decimalValue 0 ys ->
        parseADDate tz (ys ++ "-" ++ ms ++ "-" ++ ds) <> None)
  /\ (1900 <= Y <= 9000 ->
      parseThaiDate tz Y ("01/01/" ++ dec (Y + 100 + 543)) <> None
      /\ parseThaiDate tz Y ("01/01/" ++ dec (Y + 101 + 543)) = None
      /\ parseADDate tz (dec (Y + 101) ++ "-01-01") <> None).
Proof.
  intros B K HY. split; [|split].
  - intros ds ms bs Fd Fm Fb y m d s R.
    pose proof (window_outside Y y) as W.
    assert (E : parseThaiDate tz Y s
                = if (y >? Y + 100) || (y <? Y - 100) then None
                  else Some (newDate tz y (m - 1) d)).
    { destruct ((y >? Y + 100) || (y <? Y - 100)) eqn:O.
      - unfold s. rewrite parseThaiDate_numbers, numbersThai_shape by assumption.
        fold y m d. destruct (realDate_range _ _ _ R).
        replace ((m <? 1) || (m >? 12)) with false by lia.
        replace ((d <? 1) || (d >? 31)) with false by lia.
        now rewrite O.
      - unfold s. rewrite parseThaiDate_shaped; auto; fold y m d; [now rewrite O|].
        assert (~ (y < Y - 100 \/ Y + 100 < y)) by (rewrite <- W; discriminate).
        lia. }
    split; [|split].
    + rewrite E. destruct (_ || _).
      * tauto.
      * split; [discriminate|]. intros H. apply W in H. discriminate.
    + intros I. exists (newDate tz y (m - 1) d). rewrite E.
      replace ((y >? Y + 100) || (y <? Y - 100)) with false by lia.
      split; [reflexivity|].
      destruct (newDate_day tz y m d B R) as (-> & _ & Ey & Em & Ed); auto; try lia.
      { pose proof (decimalValue_range bs (proj1 Fb)) as V. rewrite (proj2 Fb) in V.
        change (10 ^ Z.of_nat 4) with 10000 in V. unfold y. lia. }
      unfold getFullYear, getMonth, getDate. cbn [timeValue option_map].
      now rewrite Ey, Em, Ed.
    + intros hs mins Fh Fn Rh Rn. unfold s.
      rewrite parseThaiDateTime_shaped by assumption. fold s. rewrite E.
      destruct (_ || _).
      * tauto.
      * split; [discriminate|]. intros H. apply W in H. discriminate.
  - intros ys ms ds Fy Fm Fd R N.
    rewrite parseADDate_shaped; auto; try discriminate; lia.
  - intros R.
    destruct (new_year_fields (Y + 100 + 543)) as (F0 & V0 & F1 & V1 & _); [lia|].
    destruct (new_year_fields (Y + 101 + 543)) as (F2 & V2 & _); [lia|].
    destruct (new_year_fields (Y + 101)) as (F3 & V3 & _ & _ & R3); [lia|].
    assert (R1 : forall y, realDate y 1 1) by (intros; unfold realDate; cbn; lia).
    change ("01/01/" ++ dec (Y + 100 + 543))%string
      with ("01" ++ "/" ++ "01" ++ "/" ++ dec (Y + 100 + 543))%string.
    change ("01/01/" ++ dec (Y + 101 + 543))%string
      with ("01" ++ "/" ++ "01" ++ "/" ++ dec (Y + 101 + 543))%string.
    change (dec (Y + 101) ++ "-01-01")%string
      with (dec (Y + 101) ++ "-" ++ "01" ++ "-" ++ "01")%string.
    repeat split.
    + rewrite parseThaiDate_shaped; auto; rewrite ?V0, ?V1; auto; try lia.
      replace ((Y + 100 + 543 - 543 >? Y + 100) || (Y + 100 + 543 - 543 <? Y - 100))
        with false by lia.
      discriminate.
    + rewrite parseThaiDate_shaped; auto; rewrite ?V2, ?V1; auto; try lia.
      replace ((Y + 101 + 543 - 543 >? Y + 100) || (Y + 101 + 543 - 543 <? Y - 100))
        with true by lia.
      reflexivity.
    + rewrite parseADDate_shaped; auto; rewrite ?V3, ?V1; auto; try lia.
      discriminate.
Qed.

Lemma C3_plausibility_window_witness :
  parseThaiDate 25200000 2026 "01/01/2669" <> None
  /\ parseThaiDate 25200000 2026 "01/01/2670" = None
  /\ parseADDate 25200000 "2127-01-01" <> None.
Proof.
  assert (Tz : boundedZone (fixedOffset 25200000))
    by (apply fixed_bounded; unfold msPerDay; lia).
  assert (K : forall n, keepsDay (fixedOffset 25200000) n)
    by (intros n; apply fixed_keepsDay).
  assert (HY : 200 <= 2026) by lia.
  destruct (C3_plausibility_window 25200000 2026 Tz K HY) as (_ & _ & E).
  apply E. lia.
Defined.

(** a display string of the wrong length does not parse *)
Lemma parseThai_partial tz Y p s :
  strlen s <> expectedLength (withTime p) -> parseThai tz Y p s = None.
Proof.
  unfold parseThai, expectedLength, parseThaiDateTime, parseThaiDate.
  destruct (withTime p); intros H.
  - destruct (Z.eqb_spec (strlen s) 16); [contradiction | reflexivity].
  - destruct (Z.eqb_spec (strlen s) 10); [contradiction | reflexivity].
Qed.

(** C4, as stated, fails: with the partial display text [18/02/] the
    external value changes from [2026-02-18] to the empty string, which
    does not parse, and the display text is not cleared. *)
Lemma C4_sync_clear_counterexample :
  let tz := 25200000 in
  let Y := 2026 in
  let prev := mkProps "2026-02-18" false in
  let p := mkProps "" false in
  let st := mkState "18/02/" (mkDate (Some 0)) day (mkSelectedTime (Some 0) (Some 0)) in
  depsChanged (Some prev) p = true
  /\ parseAD tz p (value p) = None
  /\ value p = ""
  /\ inputValue (valueSync tz Y (Some prev) p st) = "18/02/".
Proof. vm_compute. auto. Qed.

(** C4 (amended): when the external value changes to a value that
    [parseAD] refuses, the sync pass clears the display text if the incoming
    string is empty and the current display text itself parses; when the
    incoming string is not empty, or the current display text does not
    parse, the pass leaves the state, and so the display text, as it is. *)
Theorem C4_sync_unparsable (tz Y : Z) (prev : option Props) (p : Props) (st : State) :
  depsChanged prev p = true ->
  parseAD tz p (value p) = None ->
  (value p = "" -> parseThai tz Y p (inputValue st) <> None ->
   inputValue (valueSync tz Y prev p st) = "")
  /\ (value p <> "" \/ parseThai tz Y p (inputValue st) = None ->
      valueSync tz Y prev p st = st).
Proof.
  intros D N. unfold valueSync, syncEffect. rewrite D, N. split.
  - intros E T. destruct (parseThai tz Y p (inputValue st)); [|contradiction].
    cbn [isSameDate negb]. rewrite E. reflexivity.
  - intros [E|T].
    + destruct (parseThai tz Y p (inputValue st)); cbn [isSameDate negb]; [|reflexivity].
      destruct (value p); [contradiction | reflexivity].
    + rewrite T. reflexivity.
Qed.

Lemma C4_sync_unparsable_witness :
  let prev := mkProps "2026-02-18" false in
  let p := mkProps "" false in
  let st := mkState "18/02/2569" (mkDate (Some 0)) day (mkSelectedTime (Some 0) (Some 0)) in
  inputValue (valueSync 25200000 2026 (Some prev) p st) = "".
Proof.
  cbv zeta.
  apply (C4_sync_unparsable 25200000 2026 (Some (mkProps "2026-02-18" false))
           (mkProps "" false)).
  - reflexivity.
  - reflexivity.
  - reflexivity.
  - vm_compute. discriminate.
Defined.

(** C8: with a partial display text, a sync pass for an external value and
    mode equal to those of the previous render does not alter the display
    text (the effect does not run); nor does a pass that runs for an
    external value that does not parse. *)
Theorem C8_sync_non_clobber (tz Y : Z) (p : Props) (st : State) :
  partialDisplay (withTime p) (inputValue st) ->
  (forall q, value q = value p -> withTime q = withTime p ->
     inputValue (valueSync tz Y (Some q) p st) = inputValue st)
  /\ (forall prev, parseAD tz p (value p) = None ->
        inputValue (valueSync tz Y prev p st) = inputValue st).
Proof.
  intros [Hne Hlen]. split.
  - intros q Ev Ew. unfold valueSync, depsChanged. rewrite Ev, Ew.
    rewrite String.eqb_refl, Bool.eqb_reflx. reflexivity.
  - intros prev N. unfold valueSync. destruct (depsChanged prev p); [|reflexivity].
    unfold syncEffect. rewrite N, (parseThai_partial tz Y p _ Hlen). reflexivity.
Qed.

Lemma C8_sync_non_clobber_witness :
  let p := mkProps "2026-02-18" false in
  let st := mkState "18/02/" (mkDate (Some 0)) day (mkSelectedTime (Some 0) (Some 0)) in
  inputValue (valueSync 25200000 2026 (Some p) p st) = "18/02/".
Proof.
  cbv zeta.
  refine (proj1 (C8_sync_non_clobber 25200000 2026 (mkProps "2026-02-18" false)
           (mkState "18/02/" (mkDate (Some 0)) day (mkSelectedTime (Some 0) (Some 0))) _)
           (mkProps "2026-02-18" false) eq_refl eq_refl).
  split; [discriminate | vm_compute; discriminate].
Defined.

(** C5: what [handleInputChange] passes to [onChange].  When the
    re-punctuated text has the full length of the mode, it is the canonical
    string of the parsed date if the text parses and the empty string if it
    does not; when no digit is left it is the empty string; for any other
    (partial) input nothing is passed.  The display text becomes the
    re-punctuated text in every case. *)
Theorem C5_emission (tz Y : Z) (p : Props) (s : string) (st : State) :
  let raw := maskRaw p s in
  let formatted := mask p s in
  let out := snd (handleInputChange tz Y p s st) in
  (strlen formatted = expectedLength (withTime p) ->
     forall d, parseThai tz Y p formatted = Some d -> out = [formatAD tz p (Some d)])
  /\ (strlen formatted = expectedLength (withTime p) ->
      parseThai tz Y p formatted = None -> out = [""])
  /\ (raw = "" -> out = [""])
  /\ (raw <> "" -> strlen formatted <> expectedLength (withTime p) -> out = [])
  /\ inputValue (fst (handleInputChange tz Y p s st)) = formatted.
Proof.
  cbv zeta. unfold handleInputChange, mask, expectedLength.
  set (raw := maskRaw p s). set (formatted := maskFormat p raw).
  set (e := if withTime p then 16 else 10).
  repeat split.
  - intros L d P. apply Z.eqb_eq in L. rewrite L, P. reflexivity.
  - intros L P. apply Z.eqb_eq in L. rewrite L, P. reflexivity.
  - intros E. unfold formatted. rewrite E.
    assert (F : (strlen (maskFormat p "") =? e) = false)
      by (unfold e, maskFormat; destruct (withTime p); reflexivity).
    rewrite F. reflexivity.
  - intros N L. apply Z.eqb_neq in L. rewrite L.
    assert (F : (strlen raw =? 0) = false).
    { apply Z.eqb_neq. unfold strlen. destruct raw; [contradiction | cbn; lia]. }
    rewrite F. reflexivity.
  - destruct (strlen formatted =? e).
    + destruct (parseThai tz Y p formatted); reflexivity.
    + destruct (strlen raw =? 0); reflexivity.
Qed.

Lemma C5_emission_witness :
  snd (handleInputChange 25200000 2026 (mkProps "" false) "18/02/2569"
         (mkState "18/02/256" (mkDate (Some 0)) day (mkSelectedTime (Some 0) (Some 0))))
  = ["2026-02-18"]
  /\ snd (handleInputChange 25200000 2026 (mkProps "" false) "18/0"
         (mkState "18/02" (mkDate (Some 0)) day (mkSelectedTime (Some 0) (Some 0))))
  = [].
Proof.
  split.
  - refine (proj1 (C5_emission 25200000 2026 (mkProps "" false) "18/02/2569" _) _
             (mkDate (Some 1771347600000)) _); reflexivity.
  - refine (proj1 (proj2 (proj2 (proj2 (C5_emission 25200000 2026 (mkProps "" false)
             "18/0" _)))) _ _); vm_compute; discriminate.
Defined.

(** the canonical string of a date built from a real triple *)
Lemma formatADDate_newDate tz y m d :
  - msPerDay <= tz <= msPerDay ->
  realDate y m d -> ~ 0 <= y <= 99 -> -200000 <= y <= 200000 ->
  formatADDate tz (Some (newDate tz y (m - 1) d))
  = (dec y ++ "-" ++ dec2 m ++ "-" ++ dec2 d)%string.
Proof.
  intros Tz R N B.
  destruct (newDate_real tz y m d Tz R N B) as (t & -> & _ & Ey & Em & Ed).
  rewrite formatADDate_valid. unfold LocalTime, fixedOffset. rewrite Ey, Em, Ed.
  replace (m - 1 + 1) with m by lia. reflexivity.
Qed.

Lemma handleInputChange_input tz Y p s st :
  inputValue (fst (handleInputChange tz Y p s st)) = mask p s.
Proof.
  unfold handleInputChange, mask.
  destruct (_ =? _); [destruct (parseThai _ _ _ _)|destruct (_ =? _)]; reflexivity.
Qed.

(** C6: the display text [handleInputChange] sets is the specification's
    re-punctuation of the digits of the keystroke buffer cut to 8 digits
    (date-only) or 12 digits (date+time); the digits [18022569] give the
    display text [18/02/2569] and, when 2026 is within 100 years of the
    current year, the canonical string [2026-02-18] is passed upward. *)
Theorem C6_input_mask (tz Y : Z) :
  (forall p s st,
     list_ascii_of_string (maskRaw p s) = rawDigits (withTime p) s
     /\ inputValue (fst (handleInputChange tz Y p s st))
        = punctuate (withTime p) 0 (rawDigits (withTime p) s))
  /\ (forall v st, inputValue (fst (handleInputChange tz Y (mkProps v false)
                                     "18022569" st)) = "18/02/2569")
  /\ (- msPerDay <= tz <= msPerDay -> Y - 100 <= 2026 <= Y + 100 ->
      forall v st, snd (handleInputChange tz Y (mkProps v false) "18022569" st)
                   = ["2026-02-18"]).
Proof.
  split; [|split].
  - intros p s st. split; [apply maskRaw_list|].
    rewrite handleInputChange_input. unfold mask. destruct p as [v w].
    rewrite maskFormat_punctuate by (apply (maskRaw_length (mkProps v w))).
    now rewrite maskRaw_list.
  - intros v st. rewrite handleInputChange_input. reflexivity.
  - intros Tz W v st. unfold handleInputChange.
    change (maskRaw (mkProps v false) "18022569") with "18022569".
    change (maskFormat (mkProps v false) "18022569") with "18/02/2569".
    cbn [withTime]. change (strlen "18/02/2569" =? 10) with true. cbv iota.
    unfold parseThai, formatAD. cbn [withTime].
    rewrite parseThaiDate_numbers.
    change (numbersThai "18/02/2569") with (Some (2026, 2, 18)). cbv iota beta.
    change ((2 <? 1) || (2 >? 12)) with false.
    change ((18 <? 1) || (18 >? 31)) with false. cbv iota.
    replace ((2026 >? Y + 100) || (2026 <? Y - 100)) with false by lia.
    cbv zeta.
    assert (R : realDate 2026 2 18) by (unfold realDate; cbn; lia).
    rewrite sameFields_newDate by (auto; lia).
    cbn [snd]. rewrite formatADDate_newDate by (auto; lia). reflexivity.
Qed.

Lemma C6_input_mask_witness :
  snd (handleInputChange 25200000 2026 (mkProps "" false) "18022569"
         (mkState "" (mkDate (Some 0)) day (mkSelectedTime (Some 0) (Some 0))))
  = ["2026-02-18"].
Proof.
  apply (proj2 (proj2 (C6_input_mask 25200000 2026))); unfold msPerDay; lia.
Defined.

(** C10: masking is idempotent, in both modes. *)
Theorem C10_mask_idempotent (p : Props) (s : string) :
  mask p (mask p s) = mask p s.
Proof.
  unfold mask. destruct p as [v w].
  rewrite maskRaw_fixed; [reflexivity | apply maskRaw_digits |].
  apply (maskRaw_length (mkProps v w)).
Qed.

Lemma dec2_of_digits ms : digitField 2 ms -> dec2 (decimalValue 0 ms) = ms.
Proof.
  intros [A L]. pose proof (decimalValue_range ms A) as R. rewrite L in R.
  change (10 ^ Z.of_nat 2) with 100 in R.
  destruct (dec2_field (decimalValue 0 ms)) as [[A' L'] V]; [lia|].
  apply digits_inj; auto. congruence.
Qed.

Lemma some_inj {A : Type} (a b : A) : Some a = Some b -> a = b.
Proof. congruence. Qed.

Lemma short_year n : 0 <= n <= 999 -> (String.length (dec n) <=? 3)%nat = true.
Proof.
  intros H.
  apply (forallb_upto (fun n => (String.length (dec n) <=? 3)%nat) 0 1000);
    [vm_compute; reflexivity | lia].
Qed.

(** C7: the year is written without padding.  Whatever the host zone, a
    string [YYYY-MM-DD] of digit fields whose year is below 1000 and which
    [parseADDate] accepts is written back by [formatADDate] with the year
    unpadded: the result has the same month and day fields, is shorter than
    ten characters, is not the string that was parsed, and is itself
    refused by [parseADDate].  So [0999-01-01] is accepted and written
    back as [999-01-01], and [0999-01-01 10:30] as [999-01-01 10:30]
    (UTC+7). *)
Theorem C7_year_not_padded :
  (forall (tz : TimeZone) ys ms ds x,
     digitField 4 ys -> digitField 2 ms -> digitField 2 ds ->
     decimalValue 0 ys < 1000 ->
     let s := (ys ++ "-" ++ ms ++ "-" ++ ds)%string in
     parseADDate tz s = Some x ->
     formatADDate tz (Some x) = (dec (decimalValue 0 ys) ++ "-" ++ ms ++ "-" ++ ds)%string
     /\ (String.length (formatADDate tz (Some x)) < 10)%nat
     /\ formatADDate tz (Some x) <> s
     /\ parseADDate tz (formatADDate tz (Some x)) = None)
  /\ (let tz : Z := 25200000 in
      parseADDate tz "0999-01-01" = Some (newDate tz 999 0 1)
      /\ formatADDate tz (parseADDate tz "0999-01-01") = "999-01-01"
      /\ formatADDateTime tz (parseADDateTime tz "0999-01-01 10:30")
         = "999-01-01 10:30").
Proof.
  split; [|vm_compute; auto].
  intros tz ys ms ds x Fy Fm Fd Hy s P. unfold s in *.
  rewrite parseADDate_numbers, numbersAD_shape in P by assumption. cbv zeta in P.
  destruct (sameFields tz _ _ _ _) eqn:E in P; [|discriminate].
  apply some_inj in P. rewrite P in E.
  destruct (sameFields_local _ _ _ _ _ E) as (t & -> & Ey & Em & Ed).
  assert (F : formatADDate tz (Some (mkDate (Some t)))
              = (dec (decimalValue 0 ys) ++ "-" ++ ms ++ "-" ++ ds)%string).
  { rewrite formatADDate_valid, Ey, Em, Ed.
    replace (decimalValue 0 ms - 1 + 1) with (decimalValue 0 ms) by lia.
    now rewrite !dec2_of_digits by assumption. }
  pose proof (decimalValue_range ys (proj1 Fy)) as V.
  pose proof (short_year (decimalValue 0 ys)) as S.
  apply Nat.leb_le in S; [|lia].
  assert (L : (String.length (formatADDate tz (Some (mkDate (Some t)))) < 10)%nat).
  { rewrite F. repeat (rewrite length_app; cbn [String.length append]).
    destruct Fm as [_ ->], Fd as [_ ->]. lia. }
  split; [exact F|]. split; [exact L|]. split.
  - intros H. rewrite H in L.
    repeat (rewrite length_app in L; cbn [String.length append] in L).
    destruct Fy as [_ Ly], Fm as [_ Lm], Fd as [_ Ld]. lia.
  - unfold parseADDate, strlen.
    destruct (Z.eqb_spec (Z.of_nat (String.length (formatADDate tz (Some (mkDate (Some t)))))) 10);
      [lia|].
    now rewrite orb_true_r.
Qed.

(** C9: the code accepts strings with a non-digit character inside a
    numeric field.  [parseADDate] reads [2025-01-1x] as 1 January 2025 and
    [parseThaiDate] reads [1x/02/2569] as 1 February 2026 (UTC+7, current
    year 2026). *)
Theorem C9_nondigit_accepted :
  let tz := 25200000 in
  parseADDate tz "2025-01-1x" = Some (newDate tz 2025 0 1)
  /\ formatADDate tz (parseADDate tz "2025-01-1x") = "2025-01-01"
  /\ parseThaiDate tz 2026 "1x/02/2569" = Some (newDate tz 2026 1 1)
  /\ formatThaiDate tz (parseThaiDate tz 2026 "1x/02/2569") = "01/02/2569".
Proof. vm_compute. auto. Qed.

End Claims.

(** * Decimal writing of any integer *)

Section DecimalFacts.

Import Js Spec.

Lemma uint_digits d : allDigits (NilEmpty.string_of_uint d) = true.
Proof. induction d; simpl; auto. Qed.

Lemma uint_value_acc d : forall acc,
  decimalValue (Z.pos acc) (NilEmpty.string_of_uint d) = Z.pos (Pos.of_uint_acc d acc).
Proof.
  induction d; intros acc; cbn [NilEmpty.string_of_uint decimalValue Pos.of_uint_acc];
    try reflexivity;
    match goal with
    | |- decimalValue ?a _ = Z.pos (Pos.of_uint_acc _ ?b) =>
        replace a with (Z.pos b);
        [|match goal with
          | |- context [digitValue ?c] =>
              let v := eval vm_compute in (digitValue c) in
              change (digitValue c) with v
          end; lia]
    end; apply IHd.
Qed.

Lemma uint_value d :
  decimalValue 0 (NilEmpty.string_of_uint d) = Z.of_N (Pos.of_uint d).
Proof.
  induction d; cbn [NilEmpty.string_of_uint decimalValue Pos.of_uint];
    try reflexivity;
    try (match goal with
         | |- decimalValue ?a _ = Z.of_N (N.pos (Pos.of_uint_acc _ ?b)) =>
             change a with (Z.pos b)
         end; apply uint_value_acc).
  exact IHd.
Qed.

Lemma dec_pos p :
  allDigits (dec (Z.pos p)) = true /\ dec (Z.pos p) <> ""
  /\ decimalValue 0 (dec (Z.pos p)) = Z.pos p.
Proof.
  unfold dec, ofNumber. cbn [Z.to_int NilEmpty.string_of_int].
  assert (V : decimalValue 0 (NilEmpty.string_of_uint (Pos.to_uint p)) = Z.pos p).
  { rewrite uint_value, DecimalPos.Unsigned.of_to. reflexivity. }
  split; [apply uint_digits|]. split; [|exact V].
  intros E. rewrite E in V. discriminate.
Qed.

Lemma dec_neg p : dec (Z.neg p) = String "-" (dec (Z.pos p)).
Proof. reflexivity. Qed.

(** [parseInt] reads back what [String] writes *)
Lemma parseInt_dec n : parseInt (dec n) = Some n.
Proof.
  destruct n as [|p|p]; [reflexivity| |].
  - destruct (dec_pos p) as (A & N & V).
    rewrite parseInt_digits by assumption. now rewrite V.
  - rewrite dec_neg. destruct (dec_pos p) as (A & N & V).
    unfold parseInt. cbn [trimStart]. change (isWhiteSpace "-") with false. cbv iota.
    rewrite digitsPrefix_all by assumption.
    destruct (dec (Z.pos p)) eqn:E; [contradiction|]. rewrite V. reflexivity.
Qed.

(** a character that is neither a digit nor the minus sign is not written *)
Lemma dec_without c n :
  isDigit c = false -> c <> "-"%char -> contains c (dec n) = false.
Proof.
  intros Hd Hm. destruct n as [|p|p].
  - change (dec 0) with "0". apply digits_without; [assumption | reflexivity].
  - apply digits_without; [assumption | apply dec_pos].
  - rewrite dec_neg. cbn [contains].
    rewrite (digits_without c) by (auto; apply dec_pos).
    destruct (Ascii.eqb_spec "-" c) as [<-|]; [contradiction | reflexivity].
Qed.

End DecimalFacts.

(** * The calendar helpers *)

Section CalendarFacts.

Import DateMath Js Spec.

Variable tz : Z.
Hypothesis tz_range : - msPerDay <= tz <= msPerDay.

Lemma newDateOf_newDate y mo d :
  newDateOf tz (Some y) (Some mo) (Some d) = newDate tz y mo d.
Proof. reflexivity. Qed.

Lemma newDate_unfold y mo d :
  newDate tz y mo d
  = mkDate (TimeClip (MakeDay (MakeFullYear y) mo d * msPerDay - tz)).
Proof.
  unfold newDate, UTC, fixedOffset, MakeDate, MakeTime. do 3 f_equal. lia.
Qed.

Lemma MakeDay_norm y mo d : MakeDay y mo d = MakeDay (y + mo / 12) (mo mod 12) d.
Proof.
  unfold MakeDay.
  rewrite (Z.div_small (mo mod 12) 12), Z.mod_mod, Z.add_0_r
    by (try apply Z.mod_pos_bound; lia).
  reflexivity.
Qed.

Lemma MakeDay_shift y mo d k : MakeDay y mo (d + k) = MakeDay y mo d + k.
Proof. unfold MakeDay. lia. Qed.

Lemma MakeDay_last y mi :
  0 <= mi <= 11 -> MakeDay y (mi + 1) 0 = MakeDay y mi (daysInMonth y (mi + 1)).
Proof.
  intros H.
  assert (mi = 0 \/ mi = 1 \/ mi = 2 \/ mi = 3 \/ mi = 4 \/ mi = 5 \/ mi = 6
          \/ mi = 7 \/ mi = 8 \/ mi = 9 \/ mi = 10 \/ mi = 11) as C by lia.
  rewrite (MakeDay_small y mi) by lia.
  destruct (Z.eq_dec mi 11) as [->|N].
  - unfold MakeDay. change ((11 + 1) / 12) with 1. change ((11 + 1) mod 12) with 0.
    rewrite DayFromYear_succ, (DaysInYear_leap y). cbn [daysBeforeMonth daysInMonth].
    change (11 + 1) with 12. cbn [daysInMonth].
    destruct (isLeapYear y); simpl Z.eqb; cbv iota; lia.
  - rewrite (MakeDay_small y (mi + 1)) by lia.
    rewrite (DaysInYear_leap y). unfold daysInMonth.
    destruct (isLeapYear y); simpl Z.eqb; cbv iota;
      repeat (destruct C as [->|C]; [cbn; lia|]); lia.
Qed.

(** the time value of local midnight on day number [n] *)
Lemma date_of_day n y m d :
  n = MakeDay y (m - 1) d -> realDate y m d -> -200000 <= y <= 200000 ->
  TimeClip (n * msPerDay - tz) = Some (n * msPerDay - tz)
  /\ TimeClip ((n + 1) * msPerDay - tz) = Some ((n + 1) * msPerDay - tz)
  /\ YearFromTime (n * msPerDay) = y /\ MonthFromTime (n * msPerDay) = m - 1
  /\ DateFromTime (n * msPerDay) = d.
Proof.
  intros E R B.
  assert (Dn : Day (n * msPerDay) = n) by (unfold Day; apply Z.div_mul; discriminate).
  rewrite E in Dn at 2.
  destruct (civil_fields (n * msPerDay) y m d R Dn) as (Ey & Em & Ed).
  pose proof (year_bound (n * msPerDay)) as Bn. rewrite Ey in Bn.
  specialize (Bn B). rewrite Dn, <- E in Bn.
  repeat split; auto; apply TimeClip_Some; unfold msPerDay in *; lia.
Qed.

Lemma local_of_day n : n * msPerDay - tz + tz = n * msPerDay.
Proof. lia. Qed.

Lemma WeekDay_of_day n : WeekDay (n * msPerDay) = (n + 4) mod 7.
Proof. unfold WeekDay, Day. rewrite Z.div_mul by discriminate. reflexivity. Qed.

(** [getDaysInMonth] on a year as the Date constructor reads it *)
Lemma getDaysInMonth_full y mi :
  -200000 <= MakeFullYear y <= 200000 -> 0 <= mi <= 11 ->
  getDaysInMonth tz (Some y) (Some mi)
  = Some (daysInMonth (MakeFullYear y) (mi + 1)).
Proof.
  intros B M. unfold getDaysInMonth. cbn [add option_map].
  rewrite newDateOf_newDate, newDate_unfold, MakeDay_last by assumption.
  set (Y := MakeFullYear y) in *. set (dim := daysInMonth Y (mi + 1)).
  assert (R : realDate Y (mi + 1) dim).
  { unfold realDate, dim, daysInMonth.
    assert (mi = 0 \/ mi = 1 \/ mi = 2 \/ mi = 3 \/ mi = 4 \/ mi = 5 \/ mi = 6
            \/ mi = 7 \/ mi = 8 \/ mi = 9 \/ mi = 10 \/ mi = 11) as C by lia.
    repeat (destruct C as [->|C]; [cbn; destruct (isLeapYear Y); lia|]).
    subst mi. cbn. lia. }
  destruct (date_of_day (MakeDay Y mi dim) Y (mi + 1) dim) as (C0 & _ & Ey & Em & Ed);
    auto; [f_equal; lia|].
  rewrite C0. unfold getDate, LocalTime, fixedOffset. cbn [timeValue option_map].
  rewrite local_of_day. now rewrite Ed.
Qed.

Lemma getFirstDayOfMonth_full y mi :
  -200000 <= MakeFullYear y <= 200000 -> 0 <= mi <= 11 ->
  getFirstDayOfMonth tz (Some y) (Some mi)
  = Some ((MakeDay (MakeFullYear y) mi 1 + 4) mod 7).
Proof.
  intros B M. unfold getFirstDayOfMonth.
  rewrite newDateOf_newDate, newDate_unfold.
  set (Y := MakeFullYear y) in *.
  destruct (date_of_day (MakeDay Y mi 1) Y (mi + 1) 1) as (C0 & _); auto.
  - f_equal. lia.
  - unfold realDate, daysInMonth.
    assert (mi = 0 \/ mi = 1 \/ mi = 2 \/ mi = 3 \/ mi = 4 \/ mi = 5 \/ mi = 6
            \/ mi = 7 \/ mi = 8 \/ mi = 9 \/ mi = 10 \/ mi = 11) as C by lia.
    repeat (destruct C as [->|C]; [cbn; destruct (isLeapYear Y); lia|]).
    subst mi. cbn. lia.
  - rewrite C0. unfold getDay, LocalTime, fixedOffset. cbn [timeValue option_map].
    now rewrite local_of_day, WeekDay_of_day.
Qed.

End CalendarFacts.

Section CalendarProperties.

Import DateMath Js Spec.

Variable tz : Z.
Hypothesis tz_range : - msPerDay <= tz <= msPerDay.

Lemma daysInMonth_range y mi : 0 <= mi <= 11 -> 28 <= daysInMonth y (mi + 1) <= 31.
Proof.
  intros H. unfold daysInMonth.
  assert (mi = 0 \/ mi = 1 \/ mi = 2 \/ mi = 3 \/ mi = 4 \/ mi = 5 \/ mi = 6
          \/ mi = 7 \/ mi = 8 \/ mi = 9 \/ mi = 10 \/ mi = 11) as C by lia.
  repeat (destruct C as [->|C]; [cbn; destruct (isLeapYear y); lia|]).
  subst mi. cbn. lia.
Qed.

Lemma getFirstDayOfMonth_next y mi :
  -200000 <= MakeFullYear y <= 200000 -> 0 <= mi <= 11 ->
  getFirstDayOfMonth tz (Some y) (Some (mi + 1))
  = Some ((MakeDay (MakeFullYear y) mi 1
           + daysInMonth (MakeFullYear y) (mi + 1) + 4) mod 7).
Proof.
  intros B M. unfold getFirstDayOfMonth.
  rewrite newDateOf_newDate, newDate_unfold.
  set (Y := MakeFullYear y) in *. set (dim := daysInMonth Y (mi + 1)).
  pose proof (daysInMonth_range Y mi M) as Rd. fold dim in Rd.
  replace (MakeDay Y (mi + 1) 1) with (MakeDay Y mi dim + 1)
    by (unfold dim; rewrite <- MakeDay_last by assumption; unfold MakeDay; lia).
  destruct (date_of_day tz tz_range (MakeDay Y mi dim) Y (mi + 1) dim) as (_ & C1 & _); auto.
  - f_equal. lia.
  - unfold realDate. fold dim. lia.
  - rewrite C1. unfold getDay, LocalTime, fixedOffset. cbn [timeValue option_map].
    rewrite local_of_day, WeekDay_of_day. do 2 f_equal.
    replace dim with (1 + (dim - 1)) at 1 by lia. rewrite MakeDay_shift. lia.
Qed.


(** X2: the weekday of the first of a month is in 0..6, and the first of
    the following month (index [mi + 1], 12 being January of the next year)
    falls that many days later, modulo 7. *)
Theorem getFirstDayOfMonth_chain (y mi : Z) :
  0 <= mi <= 11 -> -200000 <= y <= 200000 -> ~ 0 <= y <= 99 ->
  exists w,
    getFirstDayOfMonth tz (Some y) (Some mi) = Some w /\ 0 <= w <= 6
    /\ getFirstDayOfMonth tz (Some y) (Some (mi + 1))
       = Some ((w + daysInMonth y (mi + 1)) mod 7).
Proof.
  intros M B N.
  assert (E : MakeFullYear y = y) by (now apply MakeFullYear_id).
  exists ((MakeDay y mi 1 + 4) mod 7). split; [|split].
  - rewrite getFirstDayOfMonth_full, E; auto. now rewrite E.
  - pose proof (Z.mod_pos_bound (MakeDay y mi 1 + 4) 7). lia.
  - rewrite getFirstDayOfMonth_next, E by (auto; now rewrite E).
    f_equal. rewrite Z.add_mod_idemp_l by lia. f_equal. lia.
Qed.

End CalendarProperties.

Section GridProperties.

Import DateMath Js Spec.

Variable tz : Z.
Hypothesis tz_range : - msPerDay <= tz <= msPerDay.

Lemma view_fields st y mi :
  viewYear tz st = Some y -> viewMonth tz st = Some mi ->
  exists t, viewDate st = mkDate (Some t)
            /\ YearFromTime (t + tz) = y /\ MonthFromTime (t + tz) = mi
            /\ 0 <= mi <= 11.
Proof.
  unfold viewYear, viewMonth, getFullYear, getMonth, LocalTime, fixedOffset.
  destruct (viewDate st) as [[t|]]; cbn [timeValue option_map]; [|discriminate].
  intros Hy Hm. exists t. injection Hy as Hy. injection Hm as Hm.
  pose proof (month_date_range (t + tz)). repeat split; auto; lia.
Qed.

(** the weekday of day [k] of a month *)
Lemma getDay_of_month y mi k :
  -200000 <= y <= 200000 -> ~ 0 <= y <= 99 -> 0 <= mi <= 11 ->
  1 <= k <= daysInMonth y (mi + 1) ->
  getDay tz (newDateOf tz (Some y) (Some mi) (Some k))
  = Some ((MakeDay y mi 1 + 4 + (k - 1)) mod 7).
Proof.
  intros B N M Hk.
  rewrite newDateOf_newDate, newDate_unfold, MakeFullYear_id by assumption.
  destruct (date_of_day tz tz_range (MakeDay y mi k) y (mi + 1) k) as (C0 & _); auto.
  - f_equal. lia.
  - unfold realDate. lia.
  - rewrite C0. unfold getDay, LocalTime, fixedOffset. cbn [timeValue option_map].
    rewrite local_of_day, WeekDay_of_day. do 2 f_equal.
    replace k with (1 + (k - 1)) at 1 by lia. rewrite MakeDay_shift. lia.
Qed.


End GridProperties.

(** * Calendar navigation *)

Section NavigationProperties.

Import DateMath Js Spec.

Variable tz : Z.
Hypothesis tz_range : - msPerDay <= tz <= msPerDay.

(** the first of the month of index [mo] of year [y], any integer [mo] *)
Lemma newDateOf_first y mo :
  ~ 0 <= y <= 99 -> -100000 <= y <= 100000 -> -100000 <= mo <= 100000 ->
  exists t, newDateOf tz (Some y) (Some mo) (Some 1) = mkDate (Some t)
            /\ TimeWithinDay (t + tz) = 0
            /\ YearFromTime (t + tz) = y + mo / 12
            /\ MonthFromTime (t + tz) = mo mod 12
            /\ DateFromTime (t + tz) = 1.
Proof.
  intros N By Bm.
  rewrite newDateOf_newDate, newDate_unfold, MakeFullYear_id, MakeDay_norm by assumption.
  pose proof (Z.mod_pos_bound mo 12) as Rm.
  assert (Bq : -8334 <= mo / 12 <= 8334) by (Z.div_mod_to_equations; lia).
  set (y' := y + mo / 12) in *. set (mn := mo mod 12) in *.
  destruct (date_of_day tz tz_range (MakeDay y' mn 1) y' (mn + 1) 1)
    as (C0 & _ & Ey & Em & Ed).
  - f_equal. lia.
  - pose proof (daysInMonth_range y' mn). unfold realDate. lia.
  - unfold y'. lia.
  - exists (MakeDay y' mn 1 * msPerDay - tz). rewrite local_of_day, C0.
    repeat split; auto; [|lia].
    unfold TimeWithinDay. apply Z.mod_mul. discriminate.
Qed.

(** the view after a jump to the first of a month *)
Lemma view_jump st y mo :
  ~ 0 <= y <= 99 -> -100000 <= y <= 100000 -> -100000 <= mo <= 100000 ->
  let st' := setViewDate (newDateOf tz (Some y) (Some mo) (Some 1)) st in
  viewYear tz st' = Some (y + mo / 12) /\ viewMonth tz st' = Some (mo mod 12)
  /\ getDate tz (viewDate st') = Some 1.
Proof.
  intros N By Bm. cbv zeta.
  destruct (newDateOf_first y mo N By Bm) as (t & Et & _ & Ey & Em & Ed).
  unfold viewYear, viewMonth. cbn [viewDate setViewDate]. rewrite Et.
  unfold getFullYear, getMonth, getDate, LocalTime, fixedOffset. cbn [timeValue option_map].
  now rewrite Ey, Em, Ed.
Qed.

Lemma month_step mi :
  0 <= mi <= 11 ->
  (mi - 1) / 12 = (if mi =? 0 then -1 else 0)
  /\ (mi - 1) mod 12 = (if mi =? 0 then 11 else mi - 1)
  /\ (mi + 1) / 12 = (if mi =? 11 then 1 else 0)
  /\ (mi + 1) mod 12 = (if mi =? 11 then 0 else mi + 1)
  /\ mi / 12 = 0 /\ mi mod 12 = mi.
Proof.
  intros H. destruct (Z.eqb_spec mi 0), (Z.eqb_spec mi 11);
    repeat split; Z.div_mod_to_equations; lia.
Qed.

(** X4: where the previous and next buttons take the view, from a view in
    year [y >= 112].  In the day view they move by one month, from January
    back to December of the year before and from December on to January of
    the year after; in the month view by one year and in the year view by
    twelve years, the month being kept.  The view date is the first of the
    month reached, and nothing else of the state changes. *)
Theorem navigation_step (st : State) (y mi : Z) :
  viewYear tz st = Some y -> viewMonth tz st = Some mi ->
  112 <= y <= 99000 ->
  let back := handlePrev tz st in
  let forth := handleNext tz st in
  let target (dy dm : Z) (s : State) : Prop :=
    viewYear tz s = Some (y + dy) /\ viewMonth tz s = Some (mi + dm)
    /\ getDate tz (viewDate s) = Some 1
    /\ s = setViewDate (viewDate s) st in
  match viewMode st with
  | day =>
      (if mi =? 0 then target (-1) 11 back else target 0 (-1) back)
      /\ (if mi =? 11 then target 1 (-11) forth else target 0 1 forth)
  | month => target (-1) 0 back /\ target 1 0 forth
  | year => target (-12) 0 back /\ target 12 0 forth
  end.
Proof.
  intros Hy Hm B. cbv zeta.
  destruct (view_fields tz st y mi Hy Hm) as (t & _ & _ & _ & M).
  destruct (month_step mi M) as (Q1 & R1 & Q2 & R2 & Q0 & R0).
  unfold handlePrev, handleNext. rewrite Hy, Hm. cbn [add option_map].
  destruct (viewMode st); cbv beta iota.
  - destruct (view_jump st y (mi + -1)) as (A1 & A2 & A3); try lia.
    destruct (view_jump st y (mi + 1)) as (B1 & B2 & B3); try lia.
    replace (mi + -1) with (mi - 1) in * by lia.
    rewrite Q1, R1 in *. rewrite Q2, R2 in *.
    destruct (Z.eqb_spec mi 0), (Z.eqb_spec mi 11); try lia;
      rewrite A1, A2, A3, B1, B2, B3;
      repeat split; f_equal; lia.
  - destruct (view_jump st (y + -1) mi) as (A1 & A2 & A3); try lia.
    destruct (view_jump st (y + 1) mi) as (B1 & B2 & B3); try lia.
    rewrite Q0, R0 in *. rewrite A1, A2, A3, B1, B2, B3.
    repeat split; f_equal; lia.
  - destruct (view_jump st (y + -12) mi) as (A1 & A2 & A3); try lia.
    destruct (view_jump st (y + 12) mi) as (B1 & B2 & B3); try lia.
    rewrite Q0, R0 in *. rewrite A1, A2, A3, B1, B2, B3.
    repeat split; f_equal; lia.
Qed.

Lemma setViewDate_twice d1 d2 st :
  setViewDate d2 (setViewDate d1 st) = setViewDate d2 st.
Proof. reflexivity. Qed.

(** X5: previous and next undo each other.  From a view in year
    [y >= 112] and month index [mi], in any of the three views, next after
    previous and previous after next both show the first of month [mi] of
    year [y], and leave the rest of the state as it was. *)
Theorem navigation_inverse (st : State) (y mi : Z) :
  viewYear tz st = Some y -> viewMonth tz st = Some mi ->
  112 <= y <= 99000 ->
  handleNext tz (handlePrev tz st) = setViewDate (newDate tz y mi 1) st
  /\ handlePrev tz (handleNext tz st) = setViewDate (newDate tz y mi 1) st
  /\ getFullYear tz (newDate tz y mi 1) = Some y
  /\ getMonth tz (newDate tz y mi 1) = Some mi
  /\ getDate tz (newDate tz y mi 1) = Some 1.
Proof.
  intros Hy Hm B.
  destruct (view_fields tz st y mi Hy Hm) as (t & _ & _ & _ & M).
  destruct (month_step mi M) as (Q1 & R1 & Q2 & R2 & Q0 & R0).
  assert (Same : forall y0 mo0,
            ~ 0 <= y0 <= 99 -> y0 + mo0 / 12 = y -> mo0 mod 12 = mi ->
            newDateOf tz (Some y0) (Some mo0) (Some 1) = newDate tz y mi 1).
  { intros y0 mo0 N0 E1 E2. rewrite newDateOf_newDate, !newDate_unfold.
    rewrite !MakeFullYear_id by lia. now rewrite (MakeDay_norm y0 mo0), E1, E2. }
  assert (Hop : forall y0 mo0 (f g : Z -> Z),
            ~ 0 <= y0 <= 99 -> -100000 <= y0 <= 100000 -> -1 <= mo0 <= 12 ->
            ~ 0 <= f (y0 + mo0 / 12) <= 99 ->
            f (y0 + mo0 / 12) + g (mo0 mod 12) / 12 = y ->
            g (mo0 mod 12) mod 12 = mi ->
            let st1 := setViewDate (newDateOf tz (Some y0) (Some mo0) (Some 1)) st in
            setViewDate (newDateOf tz (option_map f (viewYear tz st1))
                           (option_map g (viewMonth tz st1)) (Some 1)) st1
            = setViewDate (newDate tz y mi 1) st).
  { intros y0 mo0 f g N0 B0 Bm N1 E1 E2. cbv zeta.
    destruct (view_jump st y0 mo0) as (A1 & A2 & _); try lia.
    rewrite A1, A2. cbn [option_map]. rewrite setViewDate_twice.
    f_equal. now apply Same. }
  assert (Id : forall o : option Z, o = option_map (fun x => x) o)
    by (intros [|]; reflexivity).
  split; [|split].
  - unfold handlePrev, handleNext. cbn [viewMode setViewDate].
    rewrite Hy, Hm. cbn [add option_map]. unfold add.
    destruct (viewMode st) eqn:Vm; cbv beta iota;
      match goal with
      | |- context [viewMode (setViewDate ?d st)] =>
          change (viewMode (setViewDate d st)) with (viewMode st); rewrite Vm
      end; cbv beta iota.
    + rewrite (Id (viewYear tz _)).
      apply (Hop y (mi + -1) (fun x => x) (fun x => x + 1)); cbv beta; try lia;
        replace (mi + -1) with (mi - 1) by lia; rewrite ?Q1, ?R1;
        destruct (Z.eqb_spec mi 0); try lia; Z.div_mod_to_equations; lia.
    + rewrite (Id (viewMonth tz _)).
      apply (Hop (y + -1) mi (fun x => x + 1) (fun x => x)); cbv beta; try lia;
        rewrite ?Q0, ?R0; Z.div_mod_to_equations; lia.
    + rewrite (Id (viewMonth tz _)).
      apply (Hop (y + -12) mi (fun x => x + 12) (fun x => x)); cbv beta; try lia;
        rewrite ?Q0, ?R0; Z.div_mod_to_equations; lia.
  - unfold handlePrev, handleNext. cbn [viewMode setViewDate].
    rewrite Hy, Hm. cbn [add option_map]. unfold add.
    destruct (viewMode st) eqn:Vm; cbv beta iota;
      match goal with
      | |- context [viewMode (setViewDate ?d st)] =>
          change (viewMode (setViewDate d st)) with (viewMode st); rewrite Vm
      end; cbv beta iota.
    + rewrite (Id (viewYear tz _)).
      apply (Hop y (mi + 1) (fun x => x) (fun x => x + -1)); cbv beta; try lia;
        rewrite ?Q2, ?R2;
        destruct (Z.eqb_spec mi 11); try lia; Z.div_mod_to_equations; lia.
    + rewrite (Id (viewMonth tz _)).
      apply (Hop (y + 1) mi (fun x => x + -1) (fun x => x)); cbv beta; try lia;
        rewrite ?Q0, ?R0; Z.div_mod_to_equations; lia.
    + rewrite (Id (viewMonth tz _)).
      apply (Hop (y + 12) mi (fun x => x + -12) (fun x => x)); cbv beta; try lia;
        rewrite ?Q0, ?R0; Z.div_mod_to_equations; lia.
  - destruct (view_jump st y mi) as (A1 & A2 & A3); try lia.
    rewrite Q0, R0, Z.add_0_r in *. exact (conj A1 (conj A2 A3)).
Qed.

End NavigationProperties.

Section SelectionProperties.

Import DateMath Js Spec.

Variable tz : Z.
Hypothesis tz_range : - msPerDay <= tz <= msPerDay.

Lemma view_of_mode st md :
  viewYear tz (setViewMode md st) = viewYear tz st
  /\ viewMonth tz (setViewMode md st) = viewMonth tz st
  /\ viewDate (setViewMode md st) = viewDate st
  /\ viewMode (setViewMode md st) = md
  /\ inputValue (setViewMode md st) = inputValue st.
Proof. repeat split. Qed.

(** X6: the year view and the month view.  The year grid lists the twelve
    Buddhist-Era years from [y + 543 - 6], so the year of the view is its
    seventh entry; a click on the entry of index [i] shows the same month of
    the year [y - 6 + i] in the month view, and a click on the month of
    index [j] shows that month of the same year in the day view. *)
Theorem year_and_month_selection (st : State) (y mi : Z) :
  viewYear tz st = Some y -> viewMonth tz st = Some mi ->
  112 <= y <= 99000 ->
  List.length (yearGrid tz st) = 12%nat
  /\ (forall i, 0 <= i < 12 ->
        nth_error (yearGrid tz st) (Z.to_nat i) = Some (Some (y + 543 - 6 + i))
        /\ let st' := selectYear tz (Some (y + 543 - 6 + i)) st in
           viewYear tz st' = Some (y - 6 + i) /\ viewMonth tz st' = Some mi
           /\ getDate tz (viewDate st') = Some 1 /\ viewMode st' = month
           /\ inputValue st' = inputValue st)
  /\ (forall j, 0 <= j <= 11 ->
        let st' := selectMonth tz j st in
        viewYear tz st' = Some y /\ viewMonth tz st' = Some j
        /\ getDate tz (viewDate st') = Some 1 /\ viewMode st' = day
        /\ inputValue st' = inputValue st).
Proof.
  intros Hy Hm B.
  destruct (view_fields tz st y mi Hy Hm) as (t & _ & _ & _ & M).
  destruct (month_step mi M) as (_ & _ & _ & _ & Q0 & R0).
  split; [|split].
  - unfold yearGrid. now rewrite length_map, length_seq.
  - intros i Hi. split.
    + unfold yearGrid, currentYearBE, BE_OFFSET. rewrite Hy. cbn [add option_map].
      rewrite nth_error_map, nth_error_seq.
      destruct (Nat.ltb_spec (Z.to_nat i) 12); [|lia].
      cbn [option_map]. do 2 f_equal. lia.
    + cbv zeta. unfold selectYear, BE_OFFSET. rewrite Hm. cbn [add option_map].
      change (Z.opp 543) with (Z.neg 543).
      destruct (view_jump tz tz_range st (y + 543 - 6 + i + -543) mi)
        as (A1 & A2 & A3); try lia.
      rewrite Q0, R0 in *.
      replace (y + 543 - 6 + i + -543 + 0) with (y - 6 + i) in A1 by lia.
      destruct (view_of_mode
                  (setViewDate (newDateOf tz (Some (y + 543 - 6 + i + -543))
                                  (Some mi) (Some 1)) st) month)
        as (V1 & V2 & V3 & V4 & V5).
      rewrite V1, V2, V3, V4, V5.
      split; [exact A1|]. split; [exact A2|]. split; [exact A3|].
      split; reflexivity.
  - intros j Hj. cbv zeta. unfold selectMonth. rewrite Hy.
    destruct (month_step j Hj) as (_ & _ & _ & _ & Qj & Rj).
    destruct (view_jump tz tz_range st y j) as (A1 & A2 & A3); try lia.
    rewrite Qj, Rj, Z.add_0_r in *.
    destruct (view_of_mode
                (setViewDate (newDateOf tz (Some y) (Some j) (Some 1)) st) day)
      as (V1 & V2 & V3 & V4 & V5).
    rewrite V1, V2, V3, V4, V5.
    split; [exact A1|]. split; [exact A2|]. split; [exact A3|].
    split; reflexivity.
Qed.

End SelectionProperties.

(** * What display parsing returns *)

Section ParseInvariants.

Import DateMath Js Spec.

Variable tz : Z.
Variable Y : Z.
Hypothesis tz_range : - msPerDay <= tz <= msPerDay.

Lemma newDate_clip y mo d t :
  newDate tz y mo d = mkDate (Some t) -> TimeClip t = Some t.
Proof.
  unfold newDate. intros H. apply (f_equal timeValue) in H. cbn [timeValue] in H.
  pose proof (TimeClip_inv _ _ H) as E. now rewrite E in *.
Qed.

Lemma parseThaiDate_result s x :
  parseThaiDate tz Y s = Some x ->
  exists t, x = mkDate (Some t) /\ TimeClip t = Some t
            /\ TimeWithinDay (t + tz) = 0
            /\ Y - 100 <= YearFromTime (t + tz) <= Y + 100.
Proof.
  rewrite parseThaiDate_numbers.
  destruct (numbersThai s) as [[[ya m] d]|]; [|discriminate].
  destruct (_ || _); [discriminate|]. destruct (_ || _); [discriminate|].
  destruct ((ya >? Y + 100) || (ya <? Y - 100)) eqn:W; [discriminate|]. cbv zeta.
  destruct (sameFields tz (newDate tz ya (m - 1) d) ya m d) eqn:E; [|discriminate].
  intros H. apply some_inj in H. subst x.
  destruct (sameFields_valid _ _ _ _ _ E) as (t & Et & Ey & _).
  exists t. split; [exact Et|]. split; [now apply newDate_clip in Et|].
  split; [now apply newDate_midnight in Et|]. lia.
Qed.

(** the clock set on a midnight of a moderate year *)
Lemma clock_on_midnight t0 h mi :
  TimeWithinDay (t0 + tz) = 0 -> -200000 <= YearFromTime (t0 + tz) <= 200000 ->
  0 <= h <= 23 -> 0 <= mi <= 59 ->
  let t := t0 + h * msPerHour + mi * msPerMinute in
  setMinutes tz (setHours tz (mkDate (Some t0)) h) mi = mkDate (Some t)
  /\ TimeClip t = Some t /\ (t + tz) mod msPerMinute = 0
  /\ Day (t + tz) = Day (t0 + tz) /\ HourFromTime (t + tz) = h
  /\ MinFromTime (t + tz) = mi.
Proof.
  intros M B Hh Hm. cbv zeta.
  pose proof (year_bound _ B) as Bd.
  assert (E0 : Day (t0 + tz) * msPerDay = t0 + tz).
  { unfold Day, TimeWithinDay, msPerDay in *. Z.div_mod_to_equations. lia. }
  destruct (clock_fields tz t0 h mi M Hh Hm) as (ED & EH & EN).
  split.
  { rewrite clock_set; auto.
    - unfold UTC, LocalTime, fixedOffset. rewrite E0. do 2 f_equal. lia.
    - now apply fixed_bounded.
    - unfold LocalTime, fixedOffset. rewrite <- E0.
      unfold msPerDay, msPerHour. Z.div_mod_to_equations. lia.
    - apply local_utc.
    - unfold LocalTime, fixedOffset. unfold msPerDay in *. lia.
    - unfold LocalTime, fixedOffset. unfold msPerDay in *. lia. }
  split; [apply TimeClip_Some; unfold msPerDay, msPerHour, msPerMinute in *; lia|].
  repeat split; auto.
  unfold TimeWithinDay, msPerDay, msPerHour, msPerMinute in *.
  Z.div_mod_to_equations. lia.
Qed.

Lemma parseThaiDateTime_result s x :
  -100000 <= Y <= 100000 ->
  parseThaiDateTime tz Y s = Some x ->
  exists t, x = mkDate (Some t) /\ TimeClip t = Some t
            /\ (t + tz) mod msPerMinute = 0
            /\ Y - 100 <= YearFromTime (t + tz) <= Y + 100.
Proof.
  intros By. unfold parseThaiDateTime.
  destruct (negb _); [discriminate|].
  destruct (nth_error (split " " s) 0) as [ds|]; [|discriminate].
  destruct (nth_error (split " " s) 1) as [ts|]; [|discriminate].
  destruct (_ || _); [discriminate|].
  destruct (parseThaiDate tz Y ds) as [date|] eqn:P; [|discriminate].
  intros W.
  destruct (parseThaiDate_result _ _ P) as (t0 & -> & C0 & M0 & W0).
  destruct (withClock_inv _ _ _ _ W) as (h & mi & Hh & Hm & ->).
  destruct (clock_on_midnight t0 h mi M0) as (E & C & A & ED & _); try lia.
  destruct (fields_of_day _ _ ED) as (EY & _).
  exists (t0 + h * msPerHour + mi * msPerMinute).
  repeat split; auto; rewrite EY; lia.
Qed.

End ParseInvariants.

Section ParseResults.

Import DateMath Js Spec.

Variable tz : TimeZone.
Variable Y : Z.

Lemma valid_fields t :
  getFullYear tz (mkDate (Some t)) = Some (YearFromTime (LocalTime tz t))
  /\ getMonth tz (mkDate (Some t)) = Some (MonthFromTime (LocalTime tz t))
  /\ getDate tz (mkDate (Some t)) = Some (DateFromTime (LocalTime tz t))
  /\ getHours tz (mkDate (Some t)) = Some (HourFromTime (LocalTime tz t))
  /\ getMinutes tz (mkDate (Some t)) = Some (MinFromTime (LocalTime tz t)).
Proof. repeat split. Qed.

(** what [parseThaiDate] returns *)
Lemma parseThaiDate_fields s x :
  parseThaiDate tz Y s = Some x ->
  exists y m d t,
    numbersThai s = Some (y, m, d) /\ realDate y m d /\ Y - 100 <= y <= Y + 100
    /\ x = newDate tz y (m - 1) d /\ x = mkDate (Some t)
    /\ YearFromTime (LocalTime tz t) = y /\ MonthFromTime (LocalTime tz t) = m - 1
    /\ DateFromTime (LocalTime tz t) = d.
Proof.
  rewrite parseThaiDate_numbers.
  destruct (numbersThai s) as [[[y m] d]|]; [|discriminate].
  destruct (_ || _); [discriminate|]. destruct (_ || _); [discriminate|].
  destruct ((y >? Y + 100) || (y <? Y - 100)) eqn:W; [discriminate|]. cbv zeta.
  destruct (sameFields tz (newDate tz y (m - 1) d) y m d) eqn:E; [|discriminate].
  intros H. apply some_inj in H. subst x.
  pose proof (sameFields_real _ _ _ _ _ E) as R.
  destruct (sameFields_local _ _ _ _ _ E) as (t & Et & Ey & Em & Ed).
  exists y, m, d, t.
  split; [reflexivity|]. split; [exact R|]. split; [lia|]. auto.
Qed.

(** X7: what the display parsers return, on any host.  A date returned by
    [parseThaiDate] is the date the host builds for the three numbers read
    from the string; these are a real date whose year is within 100 years
    of the current year, and they are the year, month and day the date
    shows.  A date returned by [parseThaiDateTime] is the date parsed from
    the date segment with an hour in 0..23 and a minute in 0..59 set on it;
    when the host skips no local time of the day of that date, the result
    shows the same year, month and day, and that hour and minute. *)
Theorem display_parse_result (s : string) (x : Date) :
  (parseThaiDate tz Y s = Some x ->
   exists y m d,
     numbersThai s = Some (y, m, d) /\ realDate y m d /\ Y - 100 <= y <= Y + 100
     /\ x = newDate tz y (m - 1) d
     /\ getFullYear tz x = Some y /\ getMonth tz x = Some (m - 1)
     /\ getDate tz x = Some d)
  /\ (parseThaiDateTime tz Y s = Some x ->
      exists ds d0 h mi,
        dateSegment s = Some ds /\ parseThaiDate tz Y ds = Some d0
        /\ 0 <= h <= 23 /\ 0 <= mi <= 59
        /\ x = setMinutes tz (setHours tz d0 h) mi
        /\ (boundedZone tz -> 200 <= Y <= 100000 ->
            (forall t0, d0 = mkDate (Some t0) ->
                        unskippedDay tz (Day (LocalTime tz t0))) ->
            getFullYear tz x = getFullYear tz d0 /\ getMonth tz x = getMonth tz d0
            /\ getDate tz x = getDate tz d0
            /\ getHours tz x = Some h /\ getMinutes tz x = Some mi)).
Proof.
  split; intros P.
  - destruct (parseThaiDate_fields _ _ P) as (y & m & d & t & N & R & W & E & Et & Ey & Em & Ed).
    exists y, m, d. rewrite Et at 2 3 4.
    destruct (valid_fields t) as (-> & -> & -> & _).
    rewrite Ey, Em, Ed.
    split; [exact N|]. split; [exact R|]. split; [exact W|]. split; [exact E|]. auto.
  - unfold parseThaiDateTime in P.
    destruct (negb _); [discriminate|]. unfold dateSegment.
    destruct (nth_error (split " " s) 0) as [ds|]; [|discriminate].
    destruct (nth_error (split " " s) 1) as [ts|]; [|discriminate].
    destruct (_ || _); [discriminate|].
    destruct (parseThaiDate tz Y ds) as [d0|] eqn:P0; [|discriminate].
    destruct (withClock_inv _ _ _ _ P) as (h & mi & Hh & Hm & ->).
    exists ds, d0, h, mi.
    split; [reflexivity|]. split; [exact P0|]. split; [exact Hh|].
    split; [exact Hm|]. split; [reflexivity|].
    intros B By U.
    destruct (parseThaiDate_fields _ _ P0)
      as (y & m & d & t0 & N & R & W & E & Et & Ey & Em & Ed).
    specialize (U t0 Et).
    pose proof (newDate_value tz y (m - 1) d t0) as V.
    rewrite <- E, Et in V; specialize (V eq_refl).
    rewrite MakeFullYear_id in V by lia.
    assert (En : Day (LocalTime tz t0) = MakeDay y (m - 1) d)
      by (rewrite Day_decompose, Ey, Em, Ed; reflexivity).
    rewrite <- En in V.
    set (n := Day (LocalTime tz t0)) in *.
    assert (Ny : -200000 <= YearFromTime (n * msPerDay) <= 200000)
      by (unfold n; rewrite year_of_day, Ey; lia).
    destruct (unskipped_shown tz n h mi U Hh Hm) as (S0 & S1 & L).
    destruct (dayStart_fields tz n B Ny h mi Hh Hm) as (C & D & H & M & _).
    rewrite Et, V, (dayStart_clock tz n B Ny h mi S0 S1 Hh Hm).
    rewrite <- V.
    destruct (valid_fields t0) as (-> & -> & -> & _).
    destruct (valid_fields (UTC tz (n * msPerDay + h * msPerHour + mi * msPerMinute)))
      as (-> & -> & -> & -> & ->).
    rewrite L, H, M.
    assert (Dd : Day (n * msPerDay + h * msPerHour + mi * msPerMinute)
                 = Day (LocalTime tz t0)) by exact D.
    destruct (fields_of_day _ _ Dd) as (-> & -> & ->). auto.
Qed.

End ParseResults.

(** * Typing, and the sync pass that follows *)

Section ModeFacts.

Import DateMath Js Spec.

Variable tz : TimeZone.
Variable Y : Z.

Lemma parseThai_mode p v s :
  parseThai tz Y (mkProps v (withTime p)) s = parseThai tz Y p s.
Proof. reflexivity. Qed.

Lemma parseAD_mode p v s :
  parseAD tz (mkProps v (withTime p)) s = parseAD tz p s.
Proof. reflexivity. Qed.

Lemma formatThai_mode p v d :
  formatThai tz (mkProps v (withTime p)) d = formatThai tz p d.
Proof. reflexivity. Qed.

Lemma parseAD_empty p : parseAD tz p "" = None.
Proof. unfold parseAD. destruct (withTime p); reflexivity. Qed.

Lemma parseThai_empty p : parseThai tz Y p "" = None.
Proof. unfold parseThai. destruct (withTime p); reflexivity. Qed.

Lemma isSameDate_refl t : isSameDate (Some (mkDate (Some t))) (Some (mkDate (Some t))) = true.
Proof. cbn. apply Z.eqb_refl. Qed.

End ModeFacts.

Section TypingProperties.

Import DateMath Js Spec.

Variable tz : Z.
Variable Y : Z.
Hypothesis tz_range : - msPerDay <= tz <= msPerDay.

(** a typed date is written canonically so that it parses back *)
Lemma typed_date_canonical p s d :
  1100 <= Y <= 9899 ->
  parseThai tz Y p s = Some d ->
  parseAD tz p (formatAD tz p (Some d)) = Some d
  /\ exists t, d = mkDate (Some t).
Proof.
  intros By P. unfold parseThai, parseAD, formatAD in *.
  destruct (withTime p).
  - destruct (parseThaiDateTime_result tz Y tz_range s d) as (t & -> & C & M & W);
      auto; [lia|].
    split; [|now exists t]. apply roundtrip_AD_datetime; auto.
    + now apply fixed_bounded.
    + now apply fixed_minute.
    + apply local_utc.
    + apply local_utc.
    + unfold LocalTime, fixedOffset. lia.
  - destruct (parseThaiDate_result tz Y tz_range s d P) as (t & -> & C & M & W).
    split; [|now exists t]. apply roundtrip_AD_date; auto.
    + now apply fixed_midnight.
    + unfold LocalTime, fixedOffset. lia.
Qed.


End TypingProperties.

(** * The sync pass and the closing of the popover *)

Section SyncProperties.

Import DateMath Js Spec.

Variable tz : TimeZone.
Variable Y : Z.
Variable Element : Type.

(** X9: the sync pass is idempotent: run a second time for the same
    external value it changes nothing. *)
Theorem syncEffect_idempotent (p : Props) (st : State) :
  syncEffect tz Y p (syncEffect tz Y p st) = syncEffect tz Y p st.
Proof.
  destruct (parseAD tz p (value p)) as [d|] eqn:A.
  - destruct (isSameDate (Some d) (parseThai tz Y p (inputValue st))) eqn:S.
    + assert (E : syncEffect tz Y p st = st)
        by (unfold syncEffect; rewrite A, S; reflexivity).
      now rewrite !E.
    + assert (E : syncEffect tz Y p st
                  = setSelectedTime (mkSelectedTime (getHours tz d) (getMinutes tz d))
                      (setViewDate d (setInputValue (formatThai tz p (Some d)) st)))
        by (unfold syncEffect; rewrite A, S; reflexivity).
      rewrite E. unfold syncEffect. rewrite A. clear S E.
      match goal with
      | |- context [isSameDate ?a ?b] => destruct (isSameDate a b)
      end; reflexivity.
  - destruct (isSameDate None (parseThai tz Y p (inputValue st))) eqn:S.
    + assert (E : syncEffect tz Y p st = st)
        by (unfold syncEffect; rewrite A, S; reflexivity).
      now rewrite !E.
    + destruct (value p) eqn:V.
      * assert (E : syncEffect tz Y p st = setInputValue "" st)
          by (unfold syncEffect; rewrite ?V, A, S, ?V; reflexivity).
        rewrite E. unfold syncEffect. rewrite V, A. cbn [inputValue setInputValue].
        rewrite parseThai_empty. reflexivity.
      * assert (E : syncEffect tz Y p st = st)
          by (unfold syncEffect; rewrite ?V, A, S, ?V; reflexivity).
        now rewrite !E.
Qed.

(** the state after closing *)
Lemma handleClose_facts (p : Props) (pk : Picker Element) (prev : option Props) :
  let pk' := handleClose tz Element p pk in
  anchorEl Element pk' = None
  /\ inputValue (valueSync tz Y prev p (core Element pk'))
     = inputValue (core Element pk')
  /\ (value p = "" -> inputValue (core Element pk') = "")
  /\ (forall d, parseAD tz p (value p) = Some d ->
        inputValue (core Element pk') = formatThai tz p (Some d)).
Proof.
  cbv zeta. unfold handleClose.
  destruct (parseAD tz p (value p)) as [d|] eqn:A.
  - cbn [anchorEl core onCore setAnchorEl inputValue setInputValue].
    repeat split; auto.
    + unfold valueSync. destruct (depsChanged prev p); [|reflexivity].
      unfold syncEffect. rewrite A. cbn [inputValue].
      destruct (isSameDate _ _); reflexivity.
    + intros V. rewrite V, parseAD_empty in A. discriminate.
    + intros d' E. congruence.
  - destruct (value p) eqn:V; cbn [truthy negb];
      cbn [anchorEl core onCore setAnchorEl inputValue setInputValue].
    + repeat split; auto; [|discriminate].
      unfold valueSync. destruct (depsChanged prev p); [|reflexivity].
      unfold syncEffect. rewrite V, A. cbn [inputValue].
      rewrite parseThai_empty. reflexivity.
    + repeat split; auto; try discriminate.
      unfold valueSync. destruct (depsChanged prev p); [|reflexivity].
      unfold syncEffect. rewrite V, A. cbn [truthy negb].
      destruct (isSameDate _ _); reflexivity.
Qed.

(** X10: closing leaves nothing for the sync pass to change in the display
    text: after [handleClose] the popover is closed, and a sync pass for
    the same props keeps the display text. *)
Theorem handleClose_settled (p : Props) (pk : Picker Element) (prev : option Props) :
  let pk' := handleClose tz Element p pk in
  anchorEl Element pk' = None
  /\ inputValue (valueSync tz Y prev p (core Element pk'))
     = inputValue (core Element pk')
  /\ (value p = "" -> inputValue (core Element pk') = "")
  /\ (forall d, parseAD tz p (value p) = Some d ->
        inputValue (core Element pk') = formatThai tz p (Some d)).
Proof. apply handleClose_facts. Qed.

End SyncProperties.

(** * Picking a day and a time in the popover *)

Section PickFacts.

Import DateMath Js Spec.

Variable tz : TimeZone.

(** the numbers the display parser reads from the display text of a date *)
Lemma thai_text_numbers t :
  let l := LocalTime tz t in
  let s := formatThaiDate tz (Some (mkDate (Some t))) in
  numbersThai s = None
  \/ numbersThai s = Some (YearFromTime l, MonthFromTime l + 1, DateFromTime l).
Proof.
  cbv zeta. rewrite formatThaiDate_valid.
  set (l := LocalTime tz t).
  pose proof (month_date_range l) as [Rm Rd].
  destruct (dec2_field (MonthFromTime l + 1)) as [[Am Lm] Vm]; [lia|].
  destruct (dec2_field (DateFromTime l)) as [[Ad Ld] Vd]; [lia|].
  set (ds := dec2 (DateFromTime l)) in *.
  set (ms := dec2 (MonthFromTime l + 1)) in *.
  set (ys := dec (YearFromTime l + 543)) in *.
  unfold numbersThai. destruct (negb _); [now left|].
  change (ds ++ "/" ++ ms ++ "/" ++ ys)%string
    with (ds ++ String "/" (ms ++ String "/" ys))%string.
  rewrite split_at by (now apply digits_without).
  rewrite split_at by (now apply digits_without).
  rewrite split_without by (apply dec_without; [reflexivity | discriminate]).
  cbn [List.length Z.of_nat Pos.of_succ_nat Pos.succ Z.eqb Pos.eqb negb nth_error parseIntU].
  rewrite !parseInt_digits by (auto; apply nonempty_length; lia).
  unfold ys. rewrite parseInt_dec, Vm, Vd. right. do 3 f_equal. lia.
Qed.

(** when the display text of a date parses, it parses to a date with the
    same display text *)
Lemma thai_text_stable Y t x :
  parseThaiDate tz Y (formatThaiDate tz (Some (mkDate (Some t)))) = Some x ->
  formatThaiDate tz (Some x) = formatThaiDate tz (Some (mkDate (Some t))).
Proof.
  intros P.
  destruct (parseThaiDate_fields _ _ _ _ P)
    as (y & m & d & t' & N & _ & _ & _ & -> & Ey & Em & Ed).
  destruct (thai_text_numbers t) as [Nm|Nm]; cbv zeta in Nm; rewrite Nm in N;
    [discriminate|].
  injection N as <- <- <-.
  rewrite !formatThaiDate_valid, Ey, Em, Ed.
  replace (MonthFromTime (LocalTime tz t) + 1 - 1 + 1)
    with (MonthFromTime (LocalTime tz t) + 1) by lia.
  reflexivity.
Qed.

(** the date built from a view month, a day of it and a clock, on a day of
    which the host skips no local time *)
Lemma newDateTime_local y mi k h m :
  boundedZone tz ->
  -200000 <= y <= 200000 -> ~ 0 <= y <= 99 -> 0 <= mi <= 11 ->
  1 <= k <= daysInMonth y (mi + 1) -> 0 <= h <= 23 -> 0 <= m <= 59 ->
  unskippedDay tz (MakeDay y mi k) ->
  let l := MakeDay y mi k * msPerDay + h * msPerHour + m * msPerMinute in
  newDateTime tz (Some y) (Some mi) (Some k) (Some h) (Some m) = mkDate (Some (UTC tz l))
  /\ TimeClip (UTC tz l) = Some (UTC tz l) /\ LocalTime tz (UTC tz l) = l
  /\ Day l = MakeDay y mi k
  /\ YearFromTime l = y /\ MonthFromTime l = mi /\ DateFromTime l = k
  /\ HourFromTime l = h /\ MinFromTime l = m /\ l mod msPerMinute = 0.
Proof.
  intros B By N M Hk Hh Hm U. cbv zeta.
  set (n := MakeDay y mi k) in *.
  assert (R : realDate y (mi + 1) k) by (unfold realDate; lia).
  assert (En : Day (n * msPerDay) = MakeDay y (mi + 1 - 1) k).
  { rewrite Day_midnight. unfold n. f_equal. lia. }
  destruct (civil_fields (n * msPerDay) y (mi + 1) k R En) as (Ey & Em & Ed).
  assert (Ny : -200000 <= YearFromTime (n * msPerDay) <= 200000) by (rewrite Ey; lia).
  destruct (unskipped_shown tz n h m U Hh Hm) as (_ & _ & L).
  destruct (dayStart_fields tz n B Ny h m Hh Hm) as (C & D & H & Mn & W).
  set (l := n * msPerDay + h * msPerHour + m * msPerMinute) in *.
  assert (Dl : Day l = Day (n * msPerDay)) by (now rewrite Day_midnight).
  destruct (fields_of_day _ _ Dl) as (Fy & Fm & Fd).
  split.
  - unfold newDateTime. rewrite MakeFullYear_id by assumption. fold n.
    replace (MakeDate n (MakeTime h m 0 0)) with l
      by (unfold l, MakeDate, MakeTime; lia).
    now rewrite C.
  - rewrite Fy, Fm, Fd, Ey, Em, Ed. repeat split; auto; lia.
Qed.

(** the date built for a day at 0:00, on a day the host keeps *)
Lemma newDateTime_day y mi k :
  boundedZone tz ->
  -200000 <= y <= 200000 -> ~ 0 <= y <= 99 -> 0 <= mi <= 11 ->
  1 <= k <= daysInMonth y (mi + 1) ->
  keepsDay tz (MakeDay y mi k) ->
  let t := UTC tz (MakeDay y mi k * msPerDay) in
  newDateTime tz (Some y) (Some mi) (Some k) (Some 0) (Some 0) = mkDate (Some t)
  /\ TimeClip t = Some t /\ Day (LocalTime tz t) = MakeDay y mi k
  /\ YearFromTime (LocalTime tz t) = y /\ MonthFromTime (LocalTime tz t) = mi
  /\ DateFromTime (LocalTime tz t) = k.
Proof.
  intros B By N M Hk K. cbv zeta.
  assert (R : realDate y (mi + 1) k) by (unfold realDate; lia).
  remember (mi + 1) as m1 eqn:E1.
  assert (E2 : mi = m1 - 1) by lia. clear E1. subst mi.
  destruct (newDate_day tz y m1 k B R N By K) as (E & D & Ey & Em & Ed).
  split; [exact E|]. split.
  - pose proof E as E'. unfold newDate in E'. injection E' as E'.
    pose proof (TimeClip_inv _ _ E') as V. now rewrite <- V in E'.
  - auto.
Qed.

End PickFacts.

Section PickProperties.

Import DateMath Js Spec.

Variable tz : TimeZone.
Variable Y : Z.
Variable Element : Type.

Lemma isSameDate_eq a b : isSameDate (Some a) (Some b) = true -> a = b.
Proof.
  destruct a as [[ta|]], b as [[tb|]]; cbn; try discriminate.
  intros H. apply Z.eqb_eq in H. now subst.
Qed.

(** a sync pass for a value that parses to [d] shows the text of [d],
    provided the display text, if it parses to [d], is that text already *)
Lemma sync_shows p st d :
  parseAD tz p (value p) = Some d ->
  (parseThai tz Y p (inputValue st) = Some d ->
   inputValue st = formatThai tz p (Some d)) ->
  inputValue (syncEffect tz Y p st) = formatThai tz p (Some d).
Proof.
  intros A H. unfold syncEffect. rewrite A.
  destruct (parseThai tz Y p (inputValue st)) as [x|] eqn:T.
  - destruct (isSameDate (Some d) (Some x)) eqn:S; [|reflexivity].
    apply isSameDate_eq in S. subst x. now apply H.
  - reflexivity.
Qed.

Lemma valueSync_shows prev p st d :
  parseAD tz p (value p) = Some d ->
  (parseThai tz Y p (inputValue st) = Some d ->
   inputValue st = formatThai tz p (Some d)) ->
  (depsChanged prev p = false -> inputValue st = formatThai tz p (Some d)) ->
  inputValue (valueSync tz Y prev p st) = formatThai tz p (Some d).
Proof.
  intros A H U. unfold valueSync.
  destruct (depsChanged prev p); [now apply sync_shows | now apply U].
Qed.

Lemma valueSync_shows_mode prev p v st d :
  parseAD tz p v = Some d ->
  (parseThai tz Y p (inputValue st) = Some d ->
   inputValue st = formatThai tz p (Some d)) ->
  (depsChanged prev (mkProps v (withTime p)) = false ->
   inputValue st = formatThai tz p (Some d)) ->
  inputValue (valueSync tz Y prev (mkProps v (withTime p)) st)
  = formatThai tz p (Some d).
Proof.
  intros A H U. rewrite <- (formatThai_mode tz p v).
  apply valueSync_shows; cbn [value];
    rewrite ?parseAD_mode, ?parseThai_mode, ?formatThai_mode; assumption.
Qed.

Lemma deps_same p v :
  depsChanged (Some p) (mkProps v (withTime p)) = false -> value p = v.
Proof.
  unfold depsChanged. cbn [value withTime]. rewrite Bool.eqb_reflx, andb_true_r.
  intros H. apply negb_false_iff in H. now apply String.eqb_eq.
Qed.

Lemma viewMonth_range st mi : viewMonth tz st = Some mi -> 0 <= mi <= 11.
Proof.
  unfold viewMonth, getMonth. destruct (viewDate st) as [[t|]];
    cbn [timeValue option_map]; [|discriminate].
  intros H. injection H as <-. apply month_date_range.
Qed.

(** the picked date: its fields, and its canonical string, which parses
    back to it *)
Lemma picked_date (time : bool) y mi k h m :
  boundedZone tz ->
  1000 <= y <= 9999 -> 0 <= mi <= 11 -> 1 <= k <= daysInMonth y (mi + 1) ->
  (if time
   then 0 <= h <= 23 /\ 0 <= m <= 59 /\ unskippedDay tz (MakeDay y mi k)
   else h = 0 /\ m = 0 /\ keepsDay tz (MakeDay y mi k)) ->
  exists t,
    newDateTime tz (Some y) (Some mi) (Some k) (Some h) (Some m) = mkDate (Some t)
    /\ YearFromTime (LocalTime tz t) = y /\ MonthFromTime (LocalTime tz t) = mi
    /\ DateFromTime (LocalTime tz t) = k
    /\ (time = true -> HourFromTime (LocalTime tz t) = h
                       /\ MinFromTime (LocalTime tz t) = m)
    /\ (if time
        then parseADDateTime tz (formatADDateTime tz (Some (mkDate (Some t))))
        else parseADDate tz (formatADDate tz (Some (mkDate (Some t)))))
       = Some (mkDate (Some t)).
Proof.
  intros B By M Hk Hz. destruct time.
  - destruct Hz as (Hh & Hm & U).
    destruct (newDateTime_local tz y mi k h m B) as (E & C & L & D & Fy & Fm & Fd & Fh & Fn & W);
      auto; try lia.
    set (l := MakeDay y mi k * msPerDay + h * msPerHour + m * msPerMinute) in *.
    exists (UTC tz l). rewrite L. repeat split; auto.
    destruct (unskipped_shown tz (MakeDay y mi k) h m U Hh Hm) as (S0 & S1 & _).
    apply roundtrip_AD_datetime; auto; rewrite L; rewrite ?W, ?Z.sub_0_r, ?D, ?Fh; auto; lia.
  - destruct Hz as (-> & -> & K).
    destruct (newDateTime_day tz y mi k B) as (E & C & D & Fy & Fm & Fd); auto; try lia.
    set (t := UTC tz (MakeDay y mi k * msPerDay)) in *.
    exists t. repeat split; auto; try discriminate.
    apply roundtrip_AD_date; auto; [now rewrite D | lia].
Qed.

(** X11: picking a day, on any host.  For a view in a four-digit year [y]
    and month index [mi], a click on day [k] of that month passes up one
    value, the canonical string of that date, [YYYY-MM-DD], followed in time
    mode by the pending time [HH:mm]; that string parses back to the picked
    date, which shows that year, month and day (and, in time mode, that
    hour and minute); once the parent hands the string back, the sync pass
    makes the display text the Thai text of the picked date, whatever the
    external value was before; and the popover is closed exactly when time
    is off.  The host is asked to keep the picked day (time off), or to
    skip no local time of it (time on). *)
Theorem handleDateSelect_commit (p : Props) (pk : Picker Element) (y mi k h m : Z) :
  boundedZone tz ->
  viewYear tz (core Element pk) = Some y ->
  viewMonth tz (core Element pk) = Some mi ->
  1000 <= y <= 9999 -> 1 <= k <= daysInMonth y (mi + 1) ->
  (if withTime p
   then hour (selectedTime (core Element pk)) = Some h
        /\ minute (selectedTime (core Element pk)) = Some m
        /\ 0 <= h <= 23 /\ 0 <= m <= 59
        /\ unskippedDay tz (MakeDay y mi k)
   else h = 0 /\ m = 0 /\ keepsDay tz (MakeDay y mi k)) ->
  let picked := newDateTime tz (Some y) (Some mi) (Some k) (Some h) (Some m) in
  let v := formatAD tz p (Some picked) in
  let dateStr := (dec y ++ "-" ++ dec2 (mi + 1) ++ "-" ++ dec2 k)%string in
  let pk' := fst (handleDateSelect tz Element p k pk) in
  snd (handleDateSelect tz Element p k pk) = [v]
  /\ v = (if withTime p then dateStr ++ " " ++ dec2 h ++ ":" ++ dec2 m else dateStr)%string
  /\ parseAD tz p v = Some picked
  /\ getFullYear tz picked = Some y /\ getMonth tz picked = Some mi
  /\ getDate tz picked = Some k
  /\ (withTime p = true ->
      getHours tz picked = Some h /\ getMinutes tz picked = Some m)
  /\ inputValue (valueSync tz Y (Some p) (mkProps v (withTime p)) (core Element pk'))
     = formatThai tz p (Some picked)
  /\ anchorEl Element pk' = (if withTime p then anchorEl Element pk else None).
Proof.
  intros B Hy Hm By Hk Hsel.
  pose proof (viewMonth_range _ _ Hm) as M.
  destruct (picked_date (withTime p) y mi k h m B By M Hk)
    as (t & Et & Fy & Fm & Fd & Fc & Back).
  { destruct (withTime p); tauto. }
  cbv zeta. rewrite Et.
  assert (Out : snd (handleDateSelect tz Element p k pk)
                = [formatAD tz p (Some (mkDate (Some t)))]).
  { unfold handleDateSelect. cbn [snd]. rewrite Hy, Hm. do 3 f_equal.
    rewrite <- Et. destruct (withTime p).
    - destruct Hsel as (-> & -> & _). reflexivity.
    - destruct Hsel as (-> & -> & _). reflexivity. }
  assert (Back' : parseAD tz p (formatAD tz p (Some (mkDate (Some t))))
                  = Some (mkDate (Some t))).
  { unfold parseAD, formatAD. destruct (withTime p); exact Back. }
  split; [exact Out|]. split.
  { unfold formatAD. destruct (withTime p).
    - destruct (Fc eq_refl) as [Fh Fn].
      rewrite formatADDateTime_valid, formatADDate_valid, Fy, Fm, Fd, Fh, Fn.
      reflexivity.
    - rewrite formatADDate_valid, Fy, Fm, Fd. reflexivity. }
  split; [exact Back'|].
  destruct (valid_fields tz t) as (-> & -> & -> & -> & ->).
  rewrite Fy, Fm, Fd.
  do 3 (split; [reflexivity|]).
  split; [intros Wt; destruct (Fc Wt) as [-> ->]; auto|].
  assert (Text : inputValue (core Element
                   (onCore Element (setInputValue (formatThai tz p (Some (mkDate (Some t))))) pk))
                 = formatThai tz p (Some (mkDate (Some t)))) by reflexivity.
  assert (Core : fst (handleDateSelect tz Element p k pk)
                 = (if negb (withTime p)
                    then handleClose tz Element p
                           (onCore Element (setInputValue (formatThai tz p (Some (mkDate (Some t))))) pk)
                    else onCore Element (setInputValue (formatThai tz p (Some (mkDate (Some t))))) pk)).
  { unfold handleDateSelect. cbn [fst]. rewrite Hy, Hm.
    replace (newDateTime tz (Some y) (Some mi) (Some k)
               (if withTime p then hour (selectedTime (core Element pk)) else Some 0)
               (if withTime p then minute (selectedTime (core Element pk)) else Some 0))
      with (mkDate (Some t)); [reflexivity|].
    rewrite <- Et. destruct (withTime p).
    - destruct Hsel as (-> & -> & _). reflexivity.
    - destruct Hsel as (-> & -> & _). reflexivity. }
  rewrite Core. clear Core Out.
  set (pk1 := onCore Element
                (setInputValue (formatThai tz p (Some (mkDate (Some t))))) pk) in *.
  destruct (handleClose_facts tz Y Element p pk1 None) as (Cl & _ & Ce & Cd).
  cbv zeta in *. split.
  - apply valueSync_shows_mode; auto.
    + intros T. destruct (withTime p) eqn:Wt; cbn [negb] in *; [exact Text|].
      destruct (parseAD tz p (value p)) as [d0|] eqn:A0.
      * rewrite (Cd d0 eq_refl) in *.
        unfold parseThai, formatThai in *. rewrite Wt in *.
        destruct d0 as [[t1|]]; [|discriminate T].
        symmetry. eapply thai_text_stable. exact T.
      * unfold handleClose in T |- *. rewrite A0 in *.
        destruct (value p) eqn:V; cbn [truthy negb] in *.
        -- cbn [core onCore setAnchorEl inputValue setInputValue] in T.
           rewrite parseThai_empty in T. discriminate.
        -- reflexivity.
    + intros D. apply deps_same in D.
      destruct (withTime p); cbn [negb]; [exact Text|].
      apply Cd. now rewrite D.
  - destruct (withTime p); cbn [negb]; [reflexivity | exact Cl].
Qed.

End PickProperties.

Section TimeProperties.

Import DateMath Js Spec.

Variable tz : TimeZone.
Variable Element : Type.

(** setting both clock fields of a date that stands on a whole local
    minute of a day of which the host skips no local time *)
Lemma clock_reset t h m :
  boundedZone tz ->
  let l := LocalTime tz t in
  l mod msPerMinute = 0 -> -200000 <= YearFromTime l <= 200000 ->
  unskippedDay tz (Day l) ->
  0 <= h <= 23 -> 0 <= m <= 59 ->
  setMinutes tz (setHours tz (mkDate (Some t)) h) m
  = mkDate (Some (UTC tz (Day l * msPerDay + h * msPerHour + m * msPerMinute))).
Proof.
  intros B l A By U Hh Hm.
  pose proof (year_bound _ By) as [Lo Hi].
  unfold setHours. cbn [timeValue]. fold l.
  set (n := Day l) in *.
  assert (Rn : 0 <= MinFromTime l <= 59) by apply clock_range.
  set (u1 := n * msPerDay + h * msPerHour + MinFromTime l * msPerMinute).
  assert (E1 : MakeDate n (MakeTime h (MinFromTime l) (SecFromTime l) (msFromTime l)) = u1).
  { unfold u1, MakeDate, MakeTime, MinFromTime, SecFromTime, msFromTime,
      msPerDay, msPerHour, msPerMinute, msPerSecond in *.
    Z.div_mod_to_equations. lia. }
  rewrite E1. clearbody n.
  assert (D1 : Day u1 = n /\ HourFromTime u1 = h /\ SecFromTime u1 = 0 /\ msFromTime u1 = 0).
  { unfold u1, Day, HourFromTime, SecFromTime, msFromTime, msPerDay, msPerHour,
      msPerMinute, msPerSecond.
    repeat split; Z.div_mod_to_equations; lia. }
  destruct D1 as (D1 & H1 & S1 & M1).
  rewrite clip_local by (auto; unfold u1, msPerDay, msPerHour, msPerMinute in *; lia).
  pose proof (U u1 D1) as L1. unfold shown in L1.
  unfold setMinutes. cbn [timeValue]. rewrite L1, D1, H1, S1, M1.
  replace (MakeDate n (MakeTime h m 0 0))
    with (n * msPerDay + h * msPerHour + m * msPerMinute)
    by (unfold MakeDate, MakeTime; lia).
  rewrite clip_local by (auto; unfold msPerDay, msPerHour, msPerMinute in *; lia).
  reflexivity.
Qed.

(** a CanonicalInstant of a day without skipped times shows a whole local
    minute *)
Lemma instant_minute t :
  UTC tz (LocalTime tz t - LocalTime tz t mod msPerMinute) = t ->
  unskippedDay tz (Day (LocalTime tz t)) ->
  LocalTime tz t mod msPerMinute = 0.
Proof.
  intros E U. set (l := LocalTime tz t) in *.
  assert (D : Day (l - l mod msPerMinute) = Day l).
  { unfold Day, msPerDay, msPerMinute. Z.div_mod_to_equations. lia. }
  pose proof (U _ D) as L. unfold shown in L. rewrite E in L. fold l in L.
  rewrite L at 1. unfold msPerMinute. Z.div_mod_to_equations. lia.
Qed.

(** X12: changing the time, on any host.  In time mode, with a pending
    time in range, choosing an hour or a minute stores it beside the other
    pending field.  When the external value does not parse, nothing is
    passed up and the display text is kept.  When it parses to a
    CanonicalInstant [d] of a four-digit year, of a day of which the host
    skips no local time, one canonical string is passed up; it parses back
    to the date it was written from, which shows the year, month and day of
    [d] and the new hour and minute; and the display text becomes the Thai
    text of that date. *)
Theorem handleTimeChange_emit (p : Props) (fld : TimeField) (u h0 m0 : Z)
    (pk : Picker Element) :
  boundedZone tz ->
  withTime p = true ->
  selectedTime (core Element pk) = mkSelectedTime (Some h0) (Some m0) ->
  0 <= h0 <= 23 -> 0 <= m0 <= 59 ->
  0 <= u <= (match fld with hourField => 23 | minuteField => 59 end) ->
  let h := match fld with hourField => u | minuteField => h0 end in
  let m := match fld with hourField => m0 | minuteField => u end in
  let r := handleTimeChange tz Element p fld (Some u) pk in
  selectedTime (core Element (fst r)) = mkSelectedTime (Some h) (Some m)
  /\ (parseAD tz p (value p) = None ->
      snd r = [] /\ inputValue (core Element (fst r)) = inputValue (core Element pk))
  /\ (forall t y,
        parseAD tz p (value p) = Some (mkDate (Some t)) ->
        dateTimeInstant tz (mkDate (Some t)) ->
        unskippedDay tz (Day (LocalTime tz t)) ->
        YearFromTime (LocalTime tz t) = y -> 1000 <= y <= 9999 ->
        exists d',
          snd r = [formatAD tz p (Some d')]
          /\ parseAD tz p (formatAD tz p (Some d')) = Some d'
          /\ inputValue (core Element (fst r)) = formatThai tz p (Some d')
          /\ getFullYear tz d' = Some y
          /\ getMonth tz d' = Some (MonthFromTime (LocalTime tz t))
          /\ getDate tz d' = Some (DateFromTime (LocalTime tz t))
          /\ getHours tz d' = Some h /\ getMinutes tz d' = Some m).
Proof.
  intros B Wt Sel Hh0 Hm0 Hu. cbv zeta.
  set (h := match fld with hourField => u | minuteField => h0 end).
  set (m := match fld with hourField => m0 | minuteField => u end).
  assert (Rh : 0 <= h <= 23) by (unfold h; destruct fld; lia).
  assert (Rm : 0 <= m <= 59) by (unfold m; destruct fld; lia).
  assert (NT : (match fld with
                | hourField => mkSelectedTime (Some u) (minute (selectedTime (core Element pk)))
                | minuteField => mkSelectedTime (hour (selectedTime (core Element pk))) (Some u)
                end) = mkSelectedTime (Some h) (Some m)).
  { rewrite Sel. unfold h, m. destruct fld; reflexivity. }
  unfold handleTimeChange. rewrite NT.
  destruct (parseAD tz p (value p)) as [d|] eqn:A; cbn [fst snd].
  - split; [reflexivity|]. split; [discriminate|].
    intros t y E (t' & E' & C & I) U Ey By. apply some_inj in E. subst d.
    injection E' as <-.
    pose proof (instant_minute t I U) as Al.
    set (l := LocalTime tz t) in *. set (n := Day l) in *.
    assert (Ny : -200000 <= YearFromTime (n * msPerDay) <= 200000)
      by (unfold n; rewrite year_of_day; lia).
    destruct (unskipped_shown tz n h m U Rh Rm) as (S0 & S1 & L).
    destruct (dayStart_fields tz n B Ny h m Rh Rm) as (C' & D & H & Mn & W).
    set (l' := n * msPerDay + h * msPerHour + m * msPerMinute) in *.
    assert (New : setMinutesOf tz (setHoursOf tz (copyDate (mkDate (Some t))) (Some h)) (Some m)
                  = mkDate (Some (UTC tz l'))).
    { unfold copyDate. cbn [timeValue]. rewrite C.
      unfold setHoursOf, setMinutesOf. apply clock_reset; auto. fold l. lia. }
    cbn [hour minute]. rewrite New.
    assert (Dl : Day l' = Day l) by exact D.
    destruct (fields_of_day _ _ Dl) as (FY & FM & FD).
    exists (mkDate (Some (UTC tz l'))). split; [reflexivity|].
    split.
    { unfold parseAD, formatAD. rewrite Wt.
      apply roundtrip_AD_datetime; auto; rewrite L; rewrite ?W, ?Z.sub_0_r, ?D, ?H; auto.
      rewrite FY. fold l in Ey. lia. }
    split; [reflexivity|].
    destruct (valid_fields tz (UTC tz l')) as (-> & -> & -> & -> & ->).
    rewrite L, FY, FM, FD, H, Mn. fold l in Ey. rewrite Ey. auto.
  - split; [reflexivity|]. split; [auto|]. intros t y E. discriminate.
Qed.

End TimeProperties.

(** * More on the input mask *)

Section MaskProperties.

Import DateMath Js Spec.

Lemma list_string_inj a b :
  list_ascii_of_string a = list_ascii_of_string b -> a = b.
Proof.
  intros H. rewrite <- (string_of_list_ascii_of_string a),
    <- (string_of_list_ascii_of_string b). now rewrite H.
Qed.

Lemma list_app a b :
  list_ascii_of_string (a ++ b)
  = (list_ascii_of_string a ++ list_ascii_of_string b)%list.
Proof. induction a as [|c a IH]; simpl; [reflexivity | now rewrite IH]. Qed.

Lemma maskRaw_count p s :
  String.length (maskRaw p s)
  = Nat.min (String.length (stripNonDigits s)) (maxDigits (withTime p)).
Proof.
  rewrite <- (length_list (maskRaw p s)), maskRaw_list. unfold rawDigits.
  rewrite length_firstn, <- stripNonDigits_list, length_list. lia.
Qed.

(** the length of the re-punctuated text, by the number of digits *)
Lemma maskFormat_length v w raw :
  (String.length raw <= maxDigits w)%nat ->
  let n := String.length raw in
  String.length (maskFormat (mkProps v w) raw)
  = (n + (if 3 <=? n then 1 else 0) + (if 5 <=? n then 1 else 0)
     + (if w then (if 9 <=? n then 1 else 0) + (if 11 <=? n then 1 else 0) else 0))%nat.
Proof.
  intros L. cbv zeta. destruct w; cbn [maxDigits] in L.
  - do 13 (destruct raw as [|?c raw]; [reflexivity|]). cbn [String.length] in L. lia.
  - do 9 (destruct raw as [|?c raw]; [reflexivity|]). cbn [String.length] in L. lia.
Qed.

(** X13: completion and truncation of the mask.  The re-punctuated text is
    never longer than the full length of the mode; it has the full length
    exactly when the buffer holds at least 8 (date-only) or 12 (date+time)
    digits; it is empty exactly when the buffer holds no digit; and once
    that many digits are there, whatever is typed after them is ignored. *)
Theorem mask_completion (p : Props) (s : string) :
  let digits := String.length (stripNonDigits s) in
  strlen (mask p s) <= expectedLength (withTime p)
  /\ (strlen (mask p s) = expectedLength (withTime p)
      <-> (maxDigits (withTime p) <= digits)%nat)
  /\ (mask p s = "" <-> digits = 0%nat)
  /\ ((maxDigits (withTime p) <= digits)%nat ->
      forall more, mask p (s ++ more) = mask p s).
Proof.
  cbv zeta. destruct p as [v w]. cbn [withTime].
  pose proof (maskRaw_length (mkProps v w) s) as L. cbn [withTime] in L.
  pose proof (maskRaw_count (mkProps v w) s) as C. cbn [withTime] in C.
  pose proof (maskFormat_length v w _ L) as F. cbv zeta in F.
  unfold mask, strlen, expectedLength. rewrite F, C.
  set (d := String.length (stripNonDigits s)) in *.
  set (n := Nat.min d (maxDigits w)).
  assert (Hn : (n <= maxDigits w)%nat) by (unfold n; lia).
  split; [|split; [|split]].
  - destruct w; cbn [maxDigits] in *;
      repeat match goal with
             | |- context [(?a <=? ?b)%nat] => destruct (Nat.leb_spec a b)
             end; lia.
  - destruct w; cbn [maxDigits] in *;
      repeat match goal with
             | |- context [(?a <=? ?b)%nat] => destruct (Nat.leb_spec a b)
             end; lia.
  - split; intros H.
    + apply (f_equal String.length) in H. rewrite F, C in H. cbn [String.length] in H.
      fold d n in H. destruct w; cbn [maxDigits] in *; lia.
    + assert (R : maskRaw (mkProps v w) s = "").
      { destruct (maskRaw (mkProps v w) s); [reflexivity|].
        cbn [String.length] in C. fold d in C. lia. }
      rewrite R. destruct w; reflexivity.
  - intros H more. f_equal. apply list_string_inj.
    rewrite !maskRaw_list. unfold rawDigits. cbn [withTime].
    rewrite list_app, filter_app, firstn_app.
    replace (maxDigits w - List.length (filter isDigit (list_ascii_of_string s)))%nat
      with 0%nat.
    + cbn [firstn]. now rewrite app_nil_r.
    + rewrite <- stripNonDigits_list, length_list. fold d. lia.
Qed.

Lemma separator_chars i c :
  contains c (separatorBefore false i) = true -> c = "/"%char.
Proof.
  do 11 (destruct i as [|i];
         [cbn [separatorBefore contains]; intros H; try discriminate;
          rewrite orb_false_r in H; apply Ascii.eqb_eq in H; now subst|]).
  cbn [separatorBefore contains]. discriminate.
Qed.

(** the characters of a re-punctuated date-only text *)
Lemma punctuate_chars l : forall i c,
  forallb isDigit l = true ->
  contains c (punctuate false i l) = true ->
  isDigit c = true \/ c = "/"%char.
Proof.
  induction l as [|a r IH]; intros i c H Hc; [discriminate|].
  cbn [forallb] in H. apply andb_true_iff in H as [Ha Hr].
  cbn [punctuate] in Hc. rewrite contains_app in Hc. cbn [contains] in Hc.
  apply orb_true_iff in Hc as [Hc|Hc].
  - right. eapply separator_chars; eauto.
  - apply orb_true_iff in Hc as [Hc|Hc].
    + apply Ascii.eqb_eq in Hc. subst. now left.
    + eapply IH; eauto.
Qed.

(** X14: every character of a masked date-only text is one
    [isValidDateInputChar] accepts. *)
Theorem mask_chars_valid (v s : string) (c : ascii) :
  contains c (mask (mkProps v false) s) = true ->
  isValidDateInputChar (String c "") = true.
Proof.
  intros H. unfold mask in H.
  rewrite maskFormat_punctuate in H by (apply (maskRaw_length (mkProps v false))).
  apply punctuate_chars in H.
  - cbn [isValidDateInputChar]. destruct H as [-> | ->]; [reflexivity|].
    rewrite orb_false_r. apply orb_true_iff. right. apply Ascii.eqb_refl.
  - apply digits_list. apply maskRaw_digits.
Qed.

End MaskProperties.

(** * The Buddhist-Era offset between the two notations *)

Section OffsetProperties.

Import DateMath Js Spec.

Variable tz : TimeZone.
Variable Y : Z.

Lemma mask_of_digits v dd mm bbbb :
  digitField 2 dd -> digitField 2 mm -> digitField 4 bbbb ->
  maskRaw (mkProps v false) (dd ++ mm ++ bbbb) = (dd ++ mm ++ bbbb)%string
  /\ mask (mkProps v false) (dd ++ mm ++ bbbb) = (dd ++ "/" ++ mm ++ "/" ++ bbbb)%string.
Proof.
  intros [Ad Ld] [Am Lm] [Ab Lb].
  assert (R : maskRaw (mkProps v false) (dd ++ mm ++ bbbb) = (dd ++ mm ++ bbbb)%string).
  { unfold maskRaw. rewrite stripNonDigits_id by (rewrite !allDigits_app, Ad, Am, Ab; reflexivity).
    cbn [withTime]. rewrite !length_app, Ld, Lm, Lb. reflexivity. }
  split; [exact R|]. unfold mask. rewrite R.
  do 3 (destruct dd as [|? dd]; try discriminate).
  do 3 (destruct mm as [|? mm]; try discriminate).
  do 5 (destruct bbbb as [|? bbbb]; try discriminate).
  reflexivity.
Qed.

(** the canonical string of the date [parseThaiDate] reads from a display
    string of digit fields *)
Lemma parsed_date_canonical dd mm bbbb x :
  digitField 2 dd -> digitField 2 mm -> digitField 4 bbbb ->
  parseThaiDate tz Y (dd ++ "/" ++ mm ++ "/" ++ bbbb) = Some x ->
  formatADDate tz (Some x)
  = (dec (decimalValue 0 bbbb - 543) ++ "-" ++ mm ++ "-" ++ dd)%string.
Proof.
  intros Fd Fm Fb P.
  destruct (parseThaiDate_fields _ _ _ _ P)
    as (y & m & d & t & N & _ & _ & _ & -> & Ey & Em & Ed).
  rewrite numbersThai_shape in N by assumption. injection N as <- <- <-.
  rewrite formatADDate_valid, Ey, Em, Ed.
  replace (decimalValue 0 mm - 1 + 1) with (decimalValue 0 mm) by lia.
  now rewrite !dec2_of_digits by assumption.
Qed.

(** X15: the offset of 543 years, on the strings, on any host.  Typing the
    digits of a date-only text [DD MM BBBB] shows [DD/MM/BBBB] and passes up
    exactly one value: the canonical string with the same day and month
    digits and the year [BBBB - 543] when the display text parses, and the
    empty string when it does not.  And a canonical-shaped external value
    [YYYY-MM-DD] that parses is shown by the formatter of the display as
    [DD/MM/] followed by the year [YYYY + 543]. *)
Theorem offset_between_notations :
  (forall v dd mm bbbb st,
     digitField 2 dd -> digitField 2 mm -> digitField 4 bbbb ->
     let r := handleInputChange tz Y (mkProps v false) (dd ++ mm ++ bbbb) st in
     let shown := (dd ++ "/" ++ mm ++ "/" ++ bbbb)%string in
     inputValue (fst r) = shown
     /\ snd r = [match parseThaiDate tz Y shown with
                 | Some _ => (dec (decimalValue 0 bbbb - 543) ++ "-" ++ mm ++ "-" ++ dd)%string
                 | None => ""
                 end])
  /\ (forall ys ms ds x,
        digitField 4 ys -> digitField 2 ms -> digitField 2 ds ->
        parseADDate tz (ys ++ "-" ++ ms ++ "-" ++ ds) = Some x ->
        formatThaiDate tz (Some x)
        = (ds ++ "/" ++ ms ++ "/" ++ dec (decimalValue 0 ys + 543))%string).
Proof.
  split.
  - intros v dd mm bbbb st Fd Fm Fb. cbv zeta.
    destruct (mask_of_digits v dd mm bbbb Fd Fm Fb) as [R K].
    split; [now rewrite handleInputChange_input|].
    unfold handleInputChange. unfold mask in K. rewrite K, R. cbn [withTime].
    assert (L : (strlen (dd ++ "/" ++ mm ++ "/" ++ bbbb) =? 10) = true).
    { unfold strlen. repeat (rewrite length_app; cbn [String.length append]).
      destruct Fd as [_ ->], Fm as [_ ->], Fb as [_ ->]. reflexivity. }
    rewrite L. unfold parseThai, formatAD. cbn [withTime].
    destruct (parseThaiDate tz Y (dd ++ "/" ++ mm ++ "/" ++ bbbb)) as [x|] eqn:P;
      cbn [snd]; [|reflexivity].
    now rewrite (parsed_date_canonical dd mm bbbb x).
  - intros ys ms ds x Fy Fm Fd P.
    rewrite parseADDate_numbers, numbersAD_shape in P by assumption. cbv zeta in P.
    destruct (sameFields tz _ _ _ _) eqn:S in P; [|discriminate].
    apply some_inj in P. rewrite P in S.
    destruct (sameFields_local _ _ _ _ _ S) as (t & -> & Ey & Em & Ed).
    rewrite formatThaiDate_valid, Ey, Em, Ed.
    replace (decimalValue 0 ms - 1 + 1) with (decimalValue 0 ms) by lia.
    now rewrite !dec2_of_digits by assumption.
Qed.

End OffsetProperties.

(** * Dates that are not on a whole minute; opening the popover; today *)

Section TodayProperties.

Import DateMath Js Spec.

Variable tz : TimeZone.
Variable Element : Type.

Lemma formatADDateTime_fields a b :
  Day (LocalTime tz a) = Day (LocalTime tz b) ->
  HourFromTime (LocalTime tz a) = HourFromTime (LocalTime tz b) ->
  MinFromTime (LocalTime tz a) = MinFromTime (LocalTime tz b) ->
  formatADDateTime tz (Some (mkDate (Some a))) = formatADDateTime tz (Some (mkDate (Some b)))
  /\ formatThaiDateTime tz (Some (mkDate (Some a)))
     = formatThaiDateTime tz (Some (mkDate (Some b))).
Proof.
  intros ED EH EN. rewrite !formatADDateTime_valid, !formatThaiDateTime_valid.
  destruct (format_same_day tz a b ED) as [-> ->]. now rewrite EH, EN.
Qed.

(** the start of the minute of a local time *)
Lemma minute_floor l :
  let l1 := l - l mod msPerMinute in
  l1 mod msPerMinute = 0 /\ Day l1 = Day l
  /\ HourFromTime l1 = HourFromTime l /\ MinFromTime l1 = MinFromTime l.
Proof.
  cbv zeta. unfold Day, HourFromTime, MinFromTime, msPerDay, msPerHour, msPerMinute.
  repeat split; Z.div_mod_to_equations; lia.
Qed.

(** parsing what was formatted, for any valid date of a four-digit year *)
Lemma roundtrip_truncated (t y : Z) :
  boundedZone tz ->
  TimeClip t = Some t -> YearFromTime (LocalTime tz t) = y -> 1000 <= y <= 9999 ->
  let l := LocalTime tz t in
  (keepsDay tz (Day l) ->
   parseADDate tz (formatADDate tz (Some (mkDate (Some t))))
   = Some (mkDate (Some (UTC tz (Day l * msPerDay)))))
  /\ (unskippedDay tz (Day l) ->
      parseADDateTime tz (formatADDateTime tz (Some (mkDate (Some t))))
      = Some (mkDate (Some (UTC tz (l - l mod msPerMinute))))).
Proof.
  intros B C Ey By l. fold l in Ey. set (n := Day l).
  assert (Ny : -200000 <= YearFromTime (n * msPerDay) <= 200000)
    by (unfold n; rewrite year_of_day; lia).
  split.
  - intros K. unfold keepsDay in K. fold n in K.
    set (t0 := UTC tz (n * msPerDay)) in *.
    assert (ED : Day (LocalTime tz t) = Day (LocalTime tz t0)) by (now rewrite K).
    destruct (format_same_day tz t t0 ED) as [-> _].
    destruct (fields_of_day _ _ ED) as (FY & _).
    apply roundtrip_AD_date.
    + apply (dayStart_clip tz n B Ny).
    + now rewrite K.
    + rewrite <- FY. fold l. lia.
  - intros U.
    destruct (minute_floor l) as (A1 & D1 & H1 & N1).
    set (l1 := l - l mod msPerMinute) in *.
    assert (L1 : LocalTime tz (UTC tz l1) = l1) by (apply U; exact D1).
    assert (C1 : TimeClip (UTC tz l1) = Some (UTC tz l1)).
    { apply clip_local; auto. destruct (dayStart_range n Ny) as [Lo Hi].
      assert (n * msPerDay <= l1 < n * msPerDay + msPerDay).
      { fold n in D1. unfold Day in D1. unfold msPerDay in *.
        Z.div_mod_to_equations. lia. }
      unfold msPerDay in *. lia. }
    destruct (formatADDateTime_fields t (UTC tz l1)) as [-> _];
      rewrite ?L1; auto.
    destruct (unskipped_shown tz n (HourFromTime l) 0 U (proj1 (clock_range l)))
      as (S0 & S1 & _); [lia|].
    apply roundtrip_AD_datetime; auto; rewrite L1; rewrite ?A1, ?Z.sub_0_r, ?D1, ?H1; auto.
    assert (Dl : Day l1 = Day l) by exact D1.
    destruct (fields_of_day _ _ Dl) as (-> & _). lia.
Qed.

(** X16: the formatters forget what is below their unit, and the
    canonical parsers give it back as the host resolves it.  For any valid
    date of a four-digit year, on any host: [parseADDate] after
    [formatADDate] returns the instant to which the host resolves the
    midnight of the local day of the date, when the host keeps that day; and
    [parseADDateTime] after [formatADDateTime] returns the instant to which
    the host resolves the start of the local minute of the date, when the
    host skips no local time of that day.  So a date in the second pass
    of a repeated hour comes back as the instant of the first pass. *)
Theorem canonical_roundtrip_truncates (t y : Z) :
  boundedZone tz ->
  TimeClip t = Some t -> YearFromTime (LocalTime tz t) = y -> 1000 <= y <= 9999 ->
  let l := LocalTime tz t in
  (keepsDay tz (Day l) ->
   parseADDate tz (formatADDate tz (Some (mkDate (Some t))))
   = Some (mkDate (Some (UTC tz (Day l * msPerDay)))))
  /\ (unskippedDay tz (Day l) ->
      parseADDateTime tz (formatADDateTime tz (Some (mkDate (Some t))))
      = Some (mkDate (Some (UTC tz (l - l mod msPerMinute))))).
Proof. apply roundtrip_truncated. Qed.

End TodayProperties.

Section OpenProperties.

Import DateMath Js Spec.

Variable tz : TimeZone.
Variable now : Date.
Variable Element : Type.

Lemma strictEq_some a b : strictEq (Some a) (Some b) = true <-> a = b.
Proof. cbn. apply Z.eqb_eq. Qed.

Lemma strictEq_to a b : strictEq (Some a) b = true <-> b = Some a.
Proof.
  destruct b as [b|]; cbn; [|split; discriminate].
  rewrite Z.eqb_eq. split; congruence.
Qed.

(** X17: opening the popover.  When the external value parses to a date,
    opening shows that date's month in the day view and anchors the
    popover; there the cell marked as selected is the day of that date and
    no other, and in any view the mark is on that day exactly when the view
    shows the month and year of the date.  A disabled control only goes
    back to the day view. *)
Theorem handleOpen_marks_selection (p : Props) (par : option Element)
    (pk : Picker Element) (d : Date) (y mi k : Z) :
  parseAD tz p (value p) = Some d ->
  getFullYear tz d = Some y -> getMonth tz d = Some mi -> getDate tz d = Some k ->
  let pk' := handleOpen tz now Element p false par pk in
  anchorEl Element pk' = par /\ viewMode (core Element pk') = day
  /\ viewDate (core Element pk') = d
  /\ inputValue (core Element pk') = inputValue (core Element pk)
  /\ (forall k', isSelected tz p (core Element pk') k' = true <-> k' = k)
  /\ (forall st, isSelected tz p st k = true
                 <-> viewYear tz st = Some y /\ viewMonth tz st = Some mi)
  /\ handleOpen tz now Element p true par pk = onCore Element (setViewMode day) pk.
Proof.
  intros A Hy Hm Hd. cbv zeta.
  assert (Sel : forall st k',
            isSelected tz p st k' = true
            <-> k' = k /\ viewMonth tz st = Some mi /\ viewYear tz st = Some y).
  { intros st k'. unfold isSelected. rewrite A, Hy, Hm, Hd.
    rewrite !andb_true_iff, strictEq_some, !strictEq_to. intuition congruence. }
  unfold handleOpen. rewrite A.
  cbn [anchorEl core onCore setAnchorEl setViewMode setViewDate setSelectedTime
         viewMode viewDate inputValue].
  repeat split; auto.
  - intros H. apply Sel in H. tauto.
  - intros ->. apply Sel. repeat split; assumption.
  - apply Sel in H. tauto.
  - apply Sel in H. tauto.
  - intros [H1 H2]. apply Sel. auto.
Qed.

(** X18: the Today button, on any host.  With a clock reading a valid date
    of a four-digit year, it passes up the canonical string of now, which
    parses to the instant to which the host resolves the start of today
    (time off, when the host keeps the day) or the start of the current
    minute (time on, when the host skips no local time of the day); the view
    shows now, where the cell marked as today is today's day and no other;
    and the popover is closed exactly when time is off. *)
Theorem handleToday_commit (p : Props) (pk : Picker Element) (tn y : Z) :
  boundedZone tz ->
  now = mkDate (Some tn) -> TimeClip tn = Some tn ->
  YearFromTime (LocalTime tz tn) = y -> 1000 <= y <= 9999 ->
  let l := LocalTime tz tn in
  (if withTime p then unskippedDay tz (Day l) else keepsDay tz (Day l)) ->
  let r := handleToday tz now Element p pk in
  snd r = [formatAD tz p (Some now)]
  /\ parseAD tz p (formatAD tz p (Some now))
     = Some (mkDate (Some (UTC tz (if withTime p then l - l mod msPerMinute
                                   else Day l * msPerDay))))
  /\ viewDate (core Element (fst r)) = now
  /\ (forall k, isToday tz now (core Element (fst r)) k = true
                <-> k = DateFromTime l)
  /\ anchorEl Element (fst r) = (if withTime p then anchorEl Element pk else None).
Proof.
  intros B En C Ey By l Hz. cbv zeta.
  destruct (roundtrip_truncated tz tn y B C Ey By) as [R0 R1].
  assert (V : viewDate (core Element (fst (handleToday tz now Element p pk))) = now).
  { unfold handleToday. cbn [fst]. destruct (withTime p); cbn [negb]; [reflexivity|].
    unfold handleClose. destruct (parseAD tz p (value p)); [reflexivity|].
    destruct (negb _); reflexivity. }
  split; [reflexivity|]. split; [|split; [exact V|split]].
  - unfold parseAD, formatAD. rewrite En. destruct (withTime p); auto.
  - intros k. unfold isToday, viewYear, viewMonth. rewrite V, En.
    unfold getFullYear, getMonth, getDate. cbn [timeValue option_map].
    rewrite !andb_true_iff, !strictEq_some. fold l. intuition congruence.
  - unfold handleToday. cbn [fst]. destruct (withTime p); cbn [negb]; [reflexivity|].
    apply (handleClose_facts tz 0 Element p _ None).
Qed.

End OpenProperties.

(** * The properties at concrete inputs *)

Section Instances.

Import DateMath Js Spec.

(** Bangkok time, and a state whose view date is 18 February 2026. *)
Lemma bangkok : - msPerDay <= 25200000 <= msPerDay.
Proof. unfold msPerDay. lia. Defined.

(** What the host's clock changes do to the date+time codec (New York,
    2026).  The local time 02:30 of 8 March is skipped: [parseADDateTime]
    accepts it and the date it returns is written back as 03:30.  The local
    time 01:30 of 1 November occurs twice: the later of the two instants is
    written as 01:30 and parsed back to the earlier one. *)
Lemma newYork_clock_changes :
  formatADDateTime newYork2026 (parseADDateTime newYork2026 "2026-03-08 02:30")
  = "2026-03-08 03:30"
  /\ formatADDateTime newYork2026 (Some (mkDate (Some 1793514600000)))
     = "2026-11-01 01:30"
  /\ parseADDateTime newYork2026 "2026-11-01 01:30"
     = Some (mkDate (Some 1793511000000)).
Proof. vm_compute. auto. Qed.


Lemma getFirstDayOfMonth_chain_witness :
  exists w,
    getFirstDayOfMonth 25200000 (Some 2026) (Some 1) = Some w /\ 0 <= w <= 6
    /\ getFirstDayOfMonth 25200000 (Some 2026) (Some (1 + 1))
       = Some ((w + daysInMonth 2026 (1 + 1)) mod 7).
Proof.
  apply (getFirstDayOfMonth_chain 25200000 bangkok 2026 1); lia.
Defined.


Lemma navigation_step_witness :
  let st := mkState "" (mkDate (Some 1771347600000)) day
              (mkSelectedTime (Some 0) (Some 0)) in
  viewYear 25200000 (handlePrev 25200000 st) = Some (2026 + 0)
  /\ viewMonth 25200000 (handlePrev 25200000 st) = Some (1 + -1).
Proof.
  cbv zeta.
  pose proof (navigation_step 25200000 bangkok
                (mkState "" (mkDate (Some 1771347600000)) day
                   (mkSelectedTime (Some 0) (Some 0))) 2026 1
                eq_refl eq_refl ltac:(lia)) as H.
  cbv zeta in H. cbn [viewMode] in H.
  change (1 =? 0) with false in H. cbv iota in H.
  destruct H as [(A & B & _) _]. split; assumption.
Defined.

Lemma navigation_inverse_witness :
  let st := mkState "" (mkDate (Some 1771347600000)) year
              (mkSelectedTime (Some 0) (Some 0)) in
  handleNext 25200000 (handlePrev 25200000 st)
  = setViewDate (newDate 25200000 2026 1 1) st.
Proof.
  cbv zeta.
  apply (navigation_inverse 25200000 bangkok
           (mkState "" (mkDate (Some 1771347600000)) year
              (mkSelectedTime (Some 0) (Some 0))) 2026 1 eq_refl eq_refl).
  lia.
Defined.

Lemma year_and_month_selection_witness :
  let st := mkState "" (mkDate (Some 1771347600000)) year
              (mkSelectedTime (Some 0) (Some 0)) in
  List.length (yearGrid 25200000 st) = 12%nat.
Proof.
  cbv zeta.
  apply (year_and_month_selection 25200000 bangkok
           (mkState "" (mkDate (Some 1771347600000)) year
              (mkSelectedTime (Some 0) (Some 0))) 2026 1 eq_refl eq_refl).
  lia.
Defined.


(** picking 1 November 2026 with the pending time 01:30, in New York *)
Lemma handleDateSelect_commit_witness :
  let pk := mkPicker unit
              (mkState "" (mkDate (Some 1793511000000)) day
                 (mkSelectedTime (Some 1) (Some 30))) (Some tt) in
  let r := handleDateSelect newYork2026 unit (mkProps "" true) 1 pk in
  snd r = ["2026-11-01 01:30"]
  /\ parseADDateTime newYork2026 "2026-11-01 01:30"
     = Some (newDateTime newYork2026 (Some 2026) (Some 10) (Some 1) (Some 1) (Some 30)).
Proof.
  cbv zeta.
  destruct (handleDateSelect_commit newYork2026 2026 unit (mkProps "" true)
              (mkPicker unit
                 (mkState "" (mkDate (Some 1793511000000)) day
                    (mkSelectedTime (Some 1) (Some 30))) (Some tt))
              2026 10 1 1 30 newYork_bounded eq_refl eq_refl)
    as (A & B & C & _).
  - lia.
  - cbn. lia.
  - cbn [withTime]. repeat split; try lia.
    change (MakeDay 2026 10 1) with 20758. apply newYork_unskipped. lia.
  - cbv zeta in *. cbn [withTime] in B. split.
    + rewrite A, B. reflexivity.
    + cbn [withTime parseAD] in C. rewrite B in C. exact C.
Defined.

(** choosing the hour 1 for the value 1 November 2026 14:30, in New York *)
Lemma handleTimeChange_emit_witness :
  let pk := mkPicker unit
              (mkState "01/11/2569 14:30" (mkDate (Some 1793511000000)) day
                 (mkSelectedTime (Some 14) (Some 30))) (Some tt) in
  let r := handleTimeChange newYork2026 unit (mkProps "2026-11-01 14:30" true)
             hourField (Some 1) pk in
  selectedTime (core unit (fst r)) = mkSelectedTime (Some 1) (Some 30)
  /\ exists d', snd r = [formatADDateTime newYork2026 (Some d')]
                /\ getHours newYork2026 d' = Some 1
                /\ getMinutes newYork2026 d' = Some 30.
Proof.
  cbv zeta.
  destruct (handleTimeChange_emit newYork2026 unit (mkProps "2026-11-01 14:30" true)
              hourField 1 14 30
              (mkPicker unit
                 (mkState "01/11/2569 14:30" (mkDate (Some 1793511000000)) day
                    (mkSelectedTime (Some 14) (Some 30))) (Some tt))
              newYork_bounded eq_refl eq_refl)
    as (A & _ & C); try lia.
  cbv zeta in *. split; [exact A|].
  destruct (C 1793561400000 2026) as (d' & E & _ & _ & _ & _ & _ & H & M).
  - reflexivity.
  - exists 1793561400000. repeat split; reflexivity.
  - change (Day (LocalTime newYork2026 1793561400000)) with 20758.
    apply newYork_unskipped. lia.
  - reflexivity.
  - lia.
  - exists d'. auto.
Defined.

Lemma mask_chars_valid_witness : isValidDateInputChar (String "/" "") = true.
Proof.
  apply (mask_chars_valid "" "18a02" "/"%char). reflexivity.
Defined.

(** a date in the second pass of the repeated hour of 1 November 2026, in
    New York: the date-only pair gives the midnight of the day, the
    date+time pair the start of the minute in the first pass *)
Lemma canonical_roundtrip_truncates_witness :
  let t := 1793514612345 in
  parseADDate newYork2026 (formatADDate newYork2026 (Some (mkDate (Some t))))
  = Some (mkDate (Some 1793505600000))
  /\ parseADDateTime newYork2026 (formatADDateTime newYork2026 (Some (mkDate (Some t))))
     = Some (mkDate (Some 1793511000000)).
Proof.
  cbv zeta.
  destruct (canonical_roundtrip_truncates newYork2026 1793514612345 2026
              newYork_bounded eq_refl eq_refl) as [A B]; [lia|].
  cbv zeta in *. split.
  - apply A. apply newYork_keepsDay.
  - apply B. change (Day (LocalTime newYork2026 1793514612345)) with 20758.
    apply newYork_unskipped. lia.
Defined.

Lemma handleOpen_marks_selection_witness :
  let pk := mkPicker unit
              (mkState "18/02/2569" (mkDate (Some 0)) month
                 (mkSelectedTime (Some 0) (Some 0))) None in
  viewMode (core unit (handleOpen 25200000 (mkDate (Some 0)) unit
                         (mkProps "2026-02-18" false) false (Some tt) pk)) = day.
Proof.
  cbv zeta.
  apply (handleOpen_marks_selection 25200000 (mkDate (Some 0)) unit
           (mkProps "2026-02-18" false) (Some tt)
           (mkPicker unit
              (mkState "18/02/2569" (mkDate (Some 0)) month
                 (mkSelectedTime (Some 0) (Some 0))) None)
           (mkDate (Some 1771347600000)) 2026 1 18);
    reflexivity.
Defined.

(** the Today button in the second pass of the repeated hour, in New York *)
Lemma handleToday_commit_witness :
  let now := mkDate (Some 1793514612345) in
  let pk := mkPicker unit
              (mkState "" (mkDate (Some 0)) day (mkSelectedTime (Some 0) (Some 0)))
              (Some tt) in
  snd (handleToday newYork2026 now unit (mkProps "" true) pk)
  = [formatADDateTime newYork2026 (Some now)]
  /\ parseADDateTime newYork2026 (formatADDateTime newYork2026 (Some now))
     = Some (mkDate (Some 1793511000000)).
Proof.
  cbv zeta.
  destruct (handleToday_commit newYork2026 (mkDate (Some 1793514612345)) unit
              (mkProps "" true)
              (mkPicker unit
                 (mkState "" (mkDate (Some 0)) day (mkSelectedTime (Some 0) (Some 0)))
                 (Some tt))
              1793514612345 2026 newYork_bounded eq_refl eq_refl eq_refl)
    as (A & B & _).
  - lia.
  - cbn [withTime]. change (Day (LocalTime newYork2026 1793514612345)) with 20758.
    apply newYork_unskipped. lia.
  - split; [exact A | exact B].
Defined.

End Instances.
